(** * Credential store and multi-factor authentication engine

    A shallow embedding of the Python sources
      - [src/storage/models.py], [src/storage/schema_migration.py],
        [src/storage/file_repository.py]
      - [src/security/crypto.py], [src/security/face_recognizer.py]
      - [src/core/logging_service.py], [src/core/auth_service.py]
    followed by the properties of the specification that concern them.

    Conventions of the embedding.
      - A Python [str] is a list of Unicode code points, [bytes] a list of
        [Byte.byte].
      - Python exceptions are values of type [exn]; a computation that may
        raise returns a [result].  Stateful code runs in the monad
        [M A := World -> result A * World]: state changes made before an
        exception is raised survive it, as in Python.
      - The functions of third-party and built-in libraries (PBKDF2, AES-GCM,
        base64, json, utf-8, float formatting) are the fields of the class
        [Primitives]; the camera and the Face++ service are oracles stored
        in the [World].
      - A Python [float] is a binary64 floating-point number, the primitive
        type [float] of Rocq, with its IEEE 754 arithmetic and comparisons.
      - [print] calls and the timestamp of log lines are left out. *)

From Stdlib Require Import List ZArith NArith Floats Bool Lia.
From Stdlib Require Import Strings.String Strings.Ascii Strings.Byte.
From Stdlib Require Import Sorted DecimalString RelationClasses.
Import ListNotations.

Set Implicit Arguments.
Set Warnings "-register-all".


(** ** Python strings and bytes *)

Definition codepoint := N.
Definition str := list codepoint.
Definition bytes := list byte.

(** Decoder used to write the string literals of the source: the bytes of a
    Rocq string literal are read as UTF-8. *)
Fixpoint utf8_decode (bs : list N) : str :=
  match bs with
  | [] => []
  | b0 :: r0 =>
    if (b0 <? 128)%N then b0 :: utf8_decode r0
    else if (b0 <? 224)%N then
      match r0 with
      | b1 :: r1 => ((b0 - 192) * 64 + (b1 - 128))%N :: utf8_decode r1
      | _ => []
      end
    else if (b0 <? 240)%N then
      match r0 with
      | b1 :: b2 :: r2 =>
        ((b0 - 224) * 4096 + (b1 - 128) * 64 + (b2 - 128))%N :: utf8_decode r2
      | _ => []
      end
    else
      match r0 with
      | b1 :: b2 :: b3 :: r3 =>
        ((b0 - 240) * 262144 + (b1 - 128) * 4096 + (b2 - 128) * 64 + (b3 - 128))%N
          :: utf8_decode r3
      | _ => []
      end
  end.

Definition lit (s : string) : str :=
  utf8_decode (List.map Byte.to_N (list_byte_of_string s)).
Arguments lit s%_string.

Definition str_eqb (a b : str) : bool :=
  if list_eq_dec N.eq_dec a b then true else false.

(** [str.isspace] on one character: the code points for which CPython's
    [Py_UNICODE_ISSPACE] answers true. *)
Definition isspace (c : codepoint) : bool :=
  ((9 <=? c) && (c <=? 13) || (28 <=? c) && (c <=? 32)
   || (c =? 133) || (c =? 160) || (c =? 5760)
   || (8192 <=? c) && (c <=? 8202)
   || (c =? 8232) || (c =? 8233) || (c =? 8239) || (c =? 8287)
   || (c =? 12288))%N.

Fixpoint lstrip (s : str) : str :=
  match s with
  | [] => []
  | c :: r => if isspace c then lstrip r else s
  end.

Definition rstrip (s : str) : str := rev (lstrip (rev s)).

(** [s.strip()] *)
Definition strip (s : str) : str := rstrip (lstrip s).

(** Python slices with the constant bounds the sources use. *)
Definition slice_to {A} (n : nat) (l : list A) : list A := firstn n l.
Definition slice_to_neg {A} (k : nat) (l : list A) : list A :=
  firstn (List.length l - k) l.
Definition slice_from_neg {A} (k : nat) (l : list A) : list A :=
  skipn (List.length l - k) l.
Definition slice_between_neg {A} (n k : nat) (l : list A) : list A :=
  skipn n (firstn (List.length l - k) l).

(** ** Exceptions, results, JSON values *)

(** The exception classes the sources raise or catch.  [OutsideModel] is not
    a Python exception: it marks a decoded record whose field does not have
    the type its dataclass annotation gives it, which Python would store
    unchecked and which this embedding does not follow any further. *)
Inductive exn_kind :=
| ValueError | InvalidTag | KeyError | AttributeError | TypeError
| UnicodeError | JSONDecodeError | BinasciiError
| FaceRecognitionError | FacePPError | OutsideModel.

(** An exception object: its class and [str(e)]; where the wording of the
    interpreter varies with its version, the wording is that of CPython
    3.11. *)
Record exn := Exn { exn_class : exn_kind; exn_str : str }.

Inductive result (A : Type) :=
| Ok (a : A)
| Raise (e : exn).
Arguments Ok {A} a.
Arguments Raise {A} e.

Inductive json :=
| JNull
| JBool (b : bool)
| JInt (z : Z)
| JFloat (f : float)
| JStr (s : str)
| JList (l : list json)
| JDict (d : list (str * json)).

(** [type(v).__name__] *)
Definition type_name (v : json) : str :=
  match v with
  | JNull => lit "NoneType"
  | JBool _ => lit "bool"
  | JInt _ => lit "int"
  | JFloat _ => lit "float"
  | JStr _ => lit "str"
  | JList _ => lit "list"
  | JDict _ => lit "dict"
  end.

(** [repr(key)] for a key without quote, backslash or non-printable
    character, which is what the keys written in the sources are;
    [str(KeyError(key))] is [repr(key)]. *)
Definition repr_key (key : str) : str := lit "'" ++ key ++ lit "'".

(** [d.get(key)] on the items of a dict; [None] stands for an absent key. *)
Fixpoint dict_lookup (key : str) (d : list (str * json)) : option json :=
  match d with
  | [] => None
  | (k, v) :: r => if str_eqb k key then Some v else dict_lookup key r
  end.

(** [data.get(key, default)]; on a value that is not a dict the attribute
    [get] does not exist. *)
Definition json_get (data : json) (key : str) (default : json) : result json :=
  match data with
  | JDict d =>
    match dict_lookup key d with
    | Some v => Ok v
    | None => Ok default
    end
  | _ => Raise (Exn AttributeError
                  (lit "'" ++ type_name data ++ lit "' object has no attribute 'get'"))
  end.

(** [data[key]] *)
Definition json_item (data : json) (key : str) : result json :=
  match data with
  | JDict d =>
    match dict_lookup key d with
    | Some v => Ok v
    | None => Raise (Exn KeyError (repr_key key))
    end
  | JStr _ => Raise (Exn TypeError (lit "string indices must be integers, not 'str'"))
  | JList _ => Raise (Exn TypeError (lit "list indices must be integers or slices, not str"))
  | _ => Raise (Exn TypeError
                  (lit "'" ++ type_name data ++ lit "' object is not subscriptable"))
  end.

(** Truth value of a decoded value ([if x:]). *)
Definition truthy (v : json) : bool :=
  match v with
  | JNull => false
  | JBool b => b
  | JInt z => negb (z =? 0)%Z
  | JFloat f => negb (f =? 0)%float
  | JStr s => match s with [] => false | _ => true end
  | JList l => match l with [] => false | _ => true end
  | JDict d => match d with [] => false | _ => true end
  end.

(** [f == n] for a float and an integer: Python compares the two values
    exactly. *)
Definition float_eqb_Z (f : float) (n : Z) : bool :=
  match Prim2SF f with
  | S754_zero _ => (n =? 0)%Z
  | S754_finite s m e =>
    let v := if s then Z.neg m else Z.pos m in
    if (0 <=? e)%Z then (v * 2 ^ e =? n)%Z
    else (v =? n * 2 ^ (- e))%Z
  | _ => false
  end.

(** [v == n] for an integer constant [n]. *)
Definition json_eq_int (v : json) (n : Z) : bool :=
  match v with
  | JInt z => (z =? n)%Z
  | JFloat f => float_eqb_Z f n
  | JBool b => ((if b then 1 else 0) =? n)%Z
  | _ => false
  end.

(** ** Library functions

    What the sources call in [cryptography], [base64], [json], [os] and the
    built-in types.  They are parameters of the development; laws are
    assumed only where a theorem says so. *)
Class Primitives := {
  (** [s.encode('utf-8')] *)
  str_encode_utf8 : str -> bytes;
  (** [b.decode('utf-8')] *)
  bytes_decode_utf8 : bytes -> result str;
  (** [PBKDF2HMAC(SHA256(), length, salt, iterations).derive(key_material)] *)
  PBKDF2HMAC_derive : nat -> bytes -> Z -> bytes -> bytes;
  (** [AESGCM(key).encrypt(nonce, data, aad)]: ciphertext followed by tag *)
  AESGCM_encrypt : bytes -> bytes -> bytes -> option bytes -> bytes;
  (** [AESGCM(key).decrypt(nonce, data, aad)]; raises [InvalidTag] *)
  AESGCM_decrypt : bytes -> bytes -> bytes -> option bytes -> result bytes;
  (** [base64.b64encode(b).decode('ascii')] *)
  b64encode : bytes -> str;
  (** [base64.b64decode(s)] *)
  b64decode : str -> result bytes;
  (** [json.dumps(d, ensure_ascii=False, indent=2)] *)
  json_dumps : json -> str;
  (** [json.loads(s)] *)
  json_loads : str -> result json;
  (** [bytes.fromhex(s)] *)
  bytes_fromhex : str -> result bytes;
  (** [f"{x:.4f}"] *)
  format_4f : float -> str;
  (** [f"{x}"] for a float *)
  format_float : float -> str
}.

(** ** storage/models.py *)

Record User := mkUser {
  username : str;
  salt : str;
  password_hash : str;
  face_enabled : bool;
  face_embedding : option (list json);
  face_image_data : option bytes;
  id : option Z
}.

Record SystemConfig := mkSystemConfig {
  force_mfa : bool;
  face_threshold : float;
  hash_algorithm : str;
  encryption_algorithm : str;
  pbkdf2_iterations : Z
}.

(** [SystemConfig()] with the defaults of the dataclass. *)
Definition SystemConfig_default : SystemConfig :=
  mkSystemConfig true 0.5%float (lit "PBKDF2-HMAC-SHA256") (lit "AES-256-GCM") 200000.

Record DataModel := mkDataModel {
  version : Z;
  users : list User;
  config : SystemConfig
}.

Definition set_users (dm : DataModel) (us : list User) : DataModel :=
  mkDataModel (version dm) us (config dm).

Definition set_config (dm : DataModel) (c : SystemConfig) : DataModel :=
  mkDataModel (version dm) (users dm) c.

Definition set_id (u : User) (i : option Z) : User :=
  mkUser (username u) (salt u) (password_hash u) (face_enabled u)
         (face_embedding u) (face_image_data u) i.

Definition set_credentials (u : User) (new_salt new_hash : str) : User :=
  mkUser (username u) new_salt new_hash (face_enabled u)
         (face_embedding u) (face_image_data u) (id u).

(** The pure (exception only) part of the code: a small error monad. *)
Definition rbind {A B} (r : result A) (k : A -> result B) : result B :=
  match r with
  | Ok a => k a
  | Raise e => Raise e
  end.

Declare Scope result_scope.
Delimit Scope result_scope with res.
Notation "'let?' x ':=' c 'in' k" := (rbind c (fun x => k))
  (at level 10, x name, c at level 100, k at level 200) : result_scope.

Fixpoint rmap {A B} (f : A -> result B) (l : list A) : result (list B) :=
  match l with
  | [] => Ok []
  | a :: r =>
    match f a with
    | Ok b =>
      match rmap f r with
      | Ok bs => Ok (b :: bs)
      | Raise e => Raise e
      end
    | Raise e => Raise e
    end
  end.

Definition ill_typed {A} (field : str) : result A :=
  Raise (Exn OutsideModel field).

Definition as_str (field : str) (v : json) : result str :=
  match v with JStr s => Ok s | _ => ill_typed field end.

Definition as_bool (field : str) (v : json) : result bool :=
  match v with JBool b => Ok b | _ => ill_typed field end.

Definition as_int (field : str) (v : json) : result Z :=
  match v with JInt z => Ok z | _ => ill_typed field end.

Definition as_float (field : str) (v : json) : result float :=
  match v with
  | JFloat f => Ok f
  | _ => ill_typed field
  end.

Definition as_opt_int (field : str) (v : json) : result (option Z) :=
  match v with
  | JNull => Ok None
  | JInt z => Ok (Some z)
  | _ => ill_typed field
  end.

Definition as_opt_list (field : str) (v : json) : result (option (list json)) :=
  match v with
  | JNull => Ok None
  | JList l => Ok (Some l)
  | _ => ill_typed field
  end.

Definition opt_json {A} (f : A -> json) (o : option A) : json :=
  match o with Some a => f a | None => JNull end.

Section Models.
Context {P : Primitives}.
Local Open Scope result_scope.

(** [User.to_dict] *)
Definition User_to_dict (u : User) : json :=
  JDict [
    (lit "id", opt_json JInt (id u));
    (lit "username", JStr (username u));
    (lit "salt", JStr (salt u));
    (lit "password_hash", JStr (password_hash u));
    (lit "face_enabled", JBool (face_enabled u));
    (lit "face_embedding", opt_json JList (face_embedding u));
    (lit "face_image_data",
       match face_image_data u with
       | Some (b :: r) => JStr (b64encode (b :: r))
       | _ => JNull
       end)
  ].

(** [User.from_dict] *)
Definition User_from_dict (data : json) : result User :=
  let? fid := json_get data (lit "face_image_data") JNull in
  let? img :=
    (if truthy fid then
       match (let? raw := json_item data (lit "face_image_data") in
              let? s := match raw with
                        | JStr s => Ok s
                        | _ => Raise (Exn TypeError (lit "argument should be a bytes-like object or ASCII string"))
                        end in
              b64decode s) with
       | Ok b => Ok (Some b)
       | Raise _ => Ok None
       end
     else Ok None) in
  let? v_id := json_get data (lit "id") JNull in
  let? v_username := json_item data (lit "username") in
  let? v_salt := json_item data (lit "salt") in
  let? v_hash := json_item data (lit "password_hash") in
  let? v_enabled := json_get data (lit "face_enabled") (JBool false) in
  let? v_embedding := json_get data (lit "face_embedding") JNull in
  let? i := as_opt_int (lit "id") v_id in
  let? name := as_str (lit "username") v_username in
  let? s := as_str (lit "salt") v_salt in
  let? h := as_str (lit "password_hash") v_hash in
  let? en := as_bool (lit "face_enabled") v_enabled in
  let? emb := as_opt_list (lit "face_embedding") v_embedding in
  Ok (mkUser name s h en emb img i).

(** [SystemConfig.to_dict] *)
Definition SystemConfig_to_dict (c : SystemConfig) : json :=
  JDict [
    (lit "force_mfa", JBool (force_mfa c));
    (lit "face_threshold", JFloat (face_threshold c));
    (lit "hash_algorithm", JStr (hash_algorithm c));
    (lit "encryption_algorithm", JStr (encryption_algorithm c));
    (lit "pbkdf2_iterations", JInt (pbkdf2_iterations c))
  ].

(** [SystemConfig.from_dict] *)
Definition SystemConfig_from_dict (data : json) : result SystemConfig :=
  let? v_mfa := json_get data (lit "force_mfa") (JBool true) in
  let? v_thr := json_get data (lit "face_threshold") (JFloat 0.5%float) in
  let? v_hash := json_get data (lit "hash_algorithm") (JStr (lit "PBKDF2-HMAC-SHA256")) in
  let? v_enc := json_get data (lit "encryption_algorithm") (JStr (lit "AES-256-GCM")) in
  let? v_it := json_get data (lit "pbkdf2_iterations") (JInt 200000) in
  let? mfa := as_bool (lit "force_mfa") v_mfa in
  let? thr := as_float (lit "face_threshold") v_thr in
  let? ha := as_str (lit "hash_algorithm") v_hash in
  let? en := as_str (lit "encryption_algorithm") v_enc in
  let? it := as_int (lit "pbkdf2_iterations") v_it in
  Ok (mkSystemConfig mfa thr ha en it).

(** [DataModel.to_dict] *)
Definition DataModel_to_dict (dm : DataModel) : json :=
  JDict [
    (lit "version", JInt (version dm));
    (lit "users", JList (List.map User_to_dict (users dm)));
    (lit "config", SystemConfig_to_dict (config dm))
  ].

(** [DataModel.from_dict] *)
Definition DataModel_from_dict (data : json) : result DataModel :=
  let? v_version := json_get data (lit "version") (JInt 1) in
  let? v_users := json_get data (lit "users") (JList []) in
  let? us :=
    match v_users with
    | JList l => rmap User_from_dict l
    | _ => ill_typed (lit "users")
    end in
  let? v_config := json_get data (lit "config") (JDict []) in
  let? c := SystemConfig_from_dict v_config in
  let? ver := as_int (lit "version") v_version in
  Ok (mkDataModel ver us c).

End Models.

(** ** storage/schema_migration.py *)

Module SchemaMigration.

Definition CURRENT_VERSION : Z := 1.

(** [SchemaMigration.migrate]: both branches of the source return [data];
    the version-to-version chain is commented out there. *)
Definition migrate (data : json) : result json :=
  match json_get data (lit "version") (JInt 1) with
  | Raise e => Raise e
  | Ok version =>
    if json_eq_int version CURRENT_VERSION then
      Ok data
    else
      Ok data
  end.

(** [SchemaMigration.validate_version] *)
Definition validate_version (version : Z) : bool :=
  ((1 <=? version) && (version <=? CURRENT_VERSION))%Z.

End SchemaMigration.

(** ** The world the program runs in *)

(** [FileRepository]: the attributes of the singleton instance. *)
Record FileRepository := mkFileRepository {
  _data_model : option DataModel;
  _data_key : option bytes;
  _next_user_id : Z
}.

(** [FileRepository.__init__] *)
Definition FileRepository_init : FileRepository :=
  mkFileRepository None None 1.

(** One line of the audit log: [username=.. result=.. reason=..]. *)
Record LogEntry := mkLogEntry {
  log_username : str;
  log_result : str;
  log_reason : str
}.

Record World := mkWorld {
  (** [get_repository()]: the module-level singleton, created on first use *)
  repository : FileRepository;
  (** content of [DATA_BIN_PATH], [None] when the file does not exist *)
  data_bin : option bytes;
  (** lines appended to [AUTH_LOG_PATH], oldest first *)
  auth_log : list LogEntry;
  (** [os.urandom]: the bytes it will deliver and how many were consumed *)
  urandom_source : nat -> byte;
  urandom_pos : nat;
  (** module constants of [face_recognizer] *)
  CV2_AVAILABLE : bool;
  FACEPP_AVAILABLE : bool;
  (** [capture_and_extract_face]: the outcome of the n-th capture *)
  camera : nat -> result (list json);
  camera_pos : nat;
  (** the remote Face++ compare service, a [Tuple[float, float]] by its
      annotation: [(confidence, threshold)] *)
  compare_faces_facepp : bytes -> bytes -> result (float * float)
}.

Definition with_repository (w : World) (r : FileRepository) : World :=
  mkWorld r (data_bin w) (auth_log w) (urandom_source w) (urandom_pos w)
          (CV2_AVAILABLE w) (FACEPP_AVAILABLE w) (camera w) (camera_pos w)
          (compare_faces_facepp w).

Definition with_data_bin (w : World) (f : option bytes) : World :=
  mkWorld (repository w) f (auth_log w) (urandom_source w) (urandom_pos w)
          (CV2_AVAILABLE w) (FACEPP_AVAILABLE w) (camera w) (camera_pos w)
          (compare_faces_facepp w).

Definition with_auth_log (w : World) (l : list LogEntry) : World :=
  mkWorld (repository w) (data_bin w) l (urandom_source w) (urandom_pos w)
          (CV2_AVAILABLE w) (FACEPP_AVAILABLE w) (camera w) (camera_pos w)
          (compare_faces_facepp w).

Definition with_urandom_pos (w : World) (n : nat) : World :=
  mkWorld (repository w) (data_bin w) (auth_log w) (urandom_source w) n
          (CV2_AVAILABLE w) (FACEPP_AVAILABLE w) (camera w) (camera_pos w)
          (compare_faces_facepp w).

Definition with_camera_pos (w : World) (n : nat) : World :=
  mkWorld (repository w) (data_bin w) (auth_log w) (urandom_source w)
          (urandom_pos w) (CV2_AVAILABLE w) (FACEPP_AVAILABLE w) (camera w) n
          (compare_faces_facepp w).

(** Stateful code that may raise. *)
Definition M (A : Type) : Type := World -> result A * World.

Definition ret {A} (a : A) : M A := fun w => (Ok a, w).

Definition raise {A} (e : exn) : M A := fun w => (Raise e, w).

Definition bind {A B} (c : M A) (k : A -> M B) : M B :=
  fun w =>
    match c w with
    | (Ok a, w') => k a w'
    | (Raise e, w') => (Raise e, w')
    end.

(** [try: c  except Exception as e: h e] *)
Definition try_except {A} (c : M A) (h : exn -> M A) : M A :=
  fun w =>
    match c w with
    | (Ok a, w') => (Ok a, w')
    | (Raise e, w') => h e w'
    end.

(** a [result] computed without touching the world *)
Definition lift {A} (r : result A) : M A := fun w => (r, w).

Definition get_world : M World := fun w => (Ok w, w).

Declare Scope monad_scope.
Delimit Scope monad_scope with M.
Notation "x <- c ;; k" := (bind c (fun x => k))
  (at level 61, c at next level, right associativity) : monad_scope.
Notation "c ;;; k" := (bind c (fun _ => k))
  (at level 61, right associativity) : monad_scope.

(** [os.urandom(n)] *)
Definition os_urandom (n : nat) : M bytes :=
  fun w =>
    (Ok (List.map (fun i => urandom_source w (urandom_pos w + i)) (seq 0 n)),
     with_urandom_pos w (urandom_pos w + n)).

(** ** security/crypto.py *)

Section Crypto.
Context {P : Primitives}.
Local Open Scope monad_scope.

(** [derive_key_from_password] *)
Definition derive_key_from_password (password : str) (salt : bytes)
           (iterations : Z) : bytes :=
  PBKDF2HMAC_derive 32 salt iterations (str_encode_utf8 password).

(** [encrypt_aes_gcm] *)
Definition encrypt_aes_gcm (key plaintext : bytes) (aad : option bytes)
  : M (bytes * bytes * bytes) :=
  if negb (List.length key =? 32)%nat then
    raise (Exn ValueError (lit "密钥长度必须为32字节（AES-256）"))
  else
    iv <- os_urandom 12 ;;
    let ciphertext_with_tag := AESGCM_encrypt key iv plaintext aad in
    let ciphertext := slice_to_neg 16 ciphertext_with_tag in
    let tag := slice_from_neg 16 ciphertext_with_tag in
    ret (iv, ciphertext, tag).

(** [decrypt_aes_gcm] *)
Definition decrypt_aes_gcm (key iv ciphertext tag : bytes) (aad : option bytes)
  : result bytes :=
  if negb (List.length key =? 32)%nat then
    Raise (Exn ValueError (lit "密钥长度必须为32字节（AES-256）"))
  else if negb (List.length iv =? 12)%nat then
    Raise (Exn ValueError (lit "IV长度必须为12字节"))
  else if negb (List.length tag =? 16)%nat then
    Raise (Exn ValueError (lit "Tag长度必须为16字节"))
  else
    let ciphertext_with_tag := ciphertext ++ tag in
    AESGCM_decrypt key iv ciphertext_with_tag aad.

(** [generate_salt] *)
Definition generate_salt (length : nat) : M bytes := os_urandom length.

End Crypto.

(** ** config/app_config.py *)

Definition PBKDF2_ITERATIONS : Z := 200000.
Definition SALT_LENGTH : nat := 32.

(** ** core/logging_service.py *)

Module AuthEvent.
Definition SUCCESS := lit "SUCCESS".
Definition FAIL_WRONG_PASSWORD := lit "FAIL_WRONG_PASSWORD".
Definition FAIL_USER_NOT_FOUND := lit "FAIL_USER_NOT_FOUND".
Definition FAIL_FACE_MISMATCH := lit "FAIL_FACE_MISMATCH".
Definition FAIL_DATA_INTEGRITY := lit "FAIL_DATA_INTEGRITY".
Definition PASSWORD_CHANGED := lit "PASSWORD_CHANGED".
Definition USER_REGISTERED := lit "USER_REGISTERED".
End AuthEvent.

(** [log_auth_event]: appends one line to the log file. *)
Definition log_auth_event (username result reason : str) : M unit :=
  fun w =>
    (Ok tt, with_auth_log w (auth_log w ++ [mkLogEntry username result reason])).

Definition log_login_success (username : str) : M unit :=
  log_auth_event username AuthEvent.SUCCESS (lit "登录成功").

Definition log_login_fail_password (username : str) : M unit :=
  log_auth_event username AuthEvent.FAIL_WRONG_PASSWORD (lit "口令错误").

Definition log_login_fail_user_not_found (username : str) : M unit :=
  log_auth_event username AuthEvent.FAIL_USER_NOT_FOUND (lit "用户不存在").

Definition log_login_fail_face (username : str) : M unit :=
  log_auth_event username AuthEvent.FAIL_FACE_MISMATCH (lit "人脸比对失败").

Definition log_password_changed (username : str) : M unit :=
  log_auth_event username AuthEvent.PASSWORD_CHANGED (lit "密码已修改").

Definition log_user_registered (username : str) : M unit :=
  log_auth_event username AuthEvent.USER_REGISTERED (lit "用户注册成功").

(** ** storage/file_repository.py *)

(** [try: c  except K: h] for one exception class [K]; others propagate. *)
Definition exn_kind_eqb (a b : exn_kind) : bool :=
  match a, b with
  | ValueError, ValueError | InvalidTag, InvalidTag | KeyError, KeyError
  | AttributeError, AttributeError | TypeError, TypeError
  | UnicodeError, UnicodeError | JSONDecodeError, JSONDecodeError
  | BinasciiError, BinasciiError | FaceRecognitionError, FaceRecognitionError
  | FacePPError, FacePPError | OutsideModel, OutsideModel => true
  | _, _ => false
  end.

Definition try_except_class {A} (c : M A) (k : exn_kind) (h : exn -> M A) : M A :=
  try_except c (fun e => if exn_kind_eqb (exn_class e) k then h e else raise e).

(** [max(xs)] of a possibly empty sequence of integers *)
Definition py_max (xs : list Z) : result Z :=
  match xs with
  | [] => Raise (Exn ValueError (lit "max() arg is an empty sequence"))
  | x :: r => Ok (fold_left Z.max r x)
  end.

(** [u.id for u in users if u.id] *)
Fixpoint truthy_ids (us : list User) : list Z :=
  match us with
  | [] => []
  | u :: r =>
    match id u with
    | Some i => if negb (i =? 0)%Z then i :: truthy_ids r else truthy_ids r
    | None => truthy_ids r
    end
  end.

(** first user of the list with the given name *)
Fixpoint find_user (name : str) (us : list User) : option User :=
  match us with
  | [] => None
  | u :: r => if str_eqb (username u) name then Some u else find_user name r
  end.

(** [users[i] = user] at the first index [i] whose user has the name of
    [user]; [None] when the loop ends without a match *)
Fixpoint replace_user (user : User) (us : list User) : option (list User) :=
  match us with
  | [] => None
  | u :: r =>
    if str_eqb (username u) (username user) then Some (user :: r)
    else match replace_user user r with
         | Some r' => Some (u :: r')
         | None => None
         end
  end.

(** [del users[i]] at the first index [i] whose user has the given name *)
Fixpoint remove_user (name : str) (us : list User) : option (list User) :=
  match us with
  | [] => None
  | u :: r =>
    if str_eqb (username u) name then Some r
    else match remove_user name r with
         | Some r' => Some (u :: r')
         | None => None
         end
  end.

Section Repository.
Context {P : Primitives}.
Local Open Scope monad_scope.

Definition get_repository : M FileRepository :=
  fun w => (Ok (repository w), w).

Definition set_data_model (dm : option DataModel) : M unit :=
  fun w =>
    let r := repository w in
    (Ok tt, with_repository w (mkFileRepository dm (_data_key r) (_next_user_id r))).

Definition set_data_key (k : option bytes) : M unit :=
  fun w =>
    let r := repository w in
    (Ok tt, with_repository w (mkFileRepository (_data_model r) k (_next_user_id r))).

Definition set_next_user_id (n : Z) : M unit :=
  fun w =>
    let r := repository w in
    (Ok tt, with_repository w (mkFileRepository (_data_model r) (_data_key r) n)).

Definition write_data_bin (content : bytes) : M unit :=
  fun w => (Ok tt, with_data_bin w (Some content)).

(** [FileRepository.save_data] *)
Definition save_data : M unit :=
  self <- get_repository ;;
  match _data_model self with
  | None => raise (Exn ValueError (lit "数据模型未初始化"))
  | Some dm =>
    match _data_key self with
    | None => raise (Exn ValueError (lit "数据密钥未设置"))
    | Some key =>
      let data_dict := DataModel_to_dict dm in
      let json_text := json_dumps data_dict in
      let plaintext := str_encode_utf8 json_text in
      r <- encrypt_aes_gcm key plaintext None ;;
      let '(iv, ciphertext, tag) := r in
      let encrypted_data := iv ++ ciphertext ++ tag in
      write_data_bin encrypted_data
    end
  end.

(** [FileRepository.load_data] *)
Definition load_data (data_key : bytes) : M unit :=
  set_data_key (Some data_key) ;;;
  w <- get_world ;;
  match data_bin w with
  | None =>
    set_data_model (Some (mkDataModel 1 [] SystemConfig_default)) ;;;
    save_data
  | Some encrypted_data =>
    if (List.length encrypted_data <? 28)%nat then
      raise (Exn ValueError (lit "data.bin 文件格式错误：文件太小"))
    else
      let iv := slice_to 12 encrypted_data in
      let tag := slice_from_neg 16 encrypted_data in
      let ciphertext := slice_between_neg 12 16 encrypted_data in
      try_except_class
        (plaintext <- lift (decrypt_aes_gcm data_key iv ciphertext tag None) ;;
         json_text <- lift (bytes_decode_utf8 plaintext) ;;
         data_dict <- lift (json_loads json_text) ;;
         data_dict <- lift (SchemaMigration.migrate data_dict) ;;
         dm <- lift (DataModel_from_dict data_dict) ;;
         set_data_model (Some dm) ;;;
         match users dm with
         | [] => ret tt
         | _ :: _ =>
           max_id <- lift (py_max (truthy_ids (users dm))) ;;
           set_next_user_id (max_id + 1)
         end)
        InvalidTag
        (fun e => raise e)
  end.

(** [FileRepository.get_user_by_username] *)
Definition get_user_by_username (self : FileRepository) (name : str) : option User :=
  match _data_model self with
  | None => None
  | Some dm => find_user name (users dm)
  end.

(** [FileRepository.get_all_users] *)
Definition get_all_users (self : FileRepository) : list User :=
  match _data_model self with
  | None => []
  | Some dm => users dm
  end.

(** [FileRepository.save_user].  The source assigns [user.id] on the object
    it was given; the user as it is after the call is the value returned. *)
Definition save_user (user : User) : M User :=
  self <- get_repository ;;
  match _data_model self with
  | None => raise (Exn ValueError (lit "数据模型未初始化"))
  | Some dm =>
    match get_user_by_username self (username user) with
    | Some _ =>
      raise (Exn ValueError (lit "用户名 '" ++ username user ++ lit "' 已存在"))
    | None =>
      user <- match id user with
              | None =>
                set_next_user_id (_next_user_id self + 1) ;;;
                ret (set_id user (Some (_next_user_id self)))
              | Some _ => ret user
              end ;;
      set_data_model (Some (set_users dm (users dm ++ [user]))) ;;;
      save_data ;;;
      ret user
    end
  end.

(** [FileRepository.update_user] *)
Definition update_user (user : User) : M unit :=
  self <- get_repository ;;
  match _data_model self with
  | None => raise (Exn ValueError (lit "数据模型未初始化"))
  | Some dm =>
    match replace_user user (users dm) with
    | Some us =>
      set_data_model (Some (set_users dm us)) ;;;
      save_data
    | None =>
      raise (Exn ValueError (lit "用户 '" ++ username user ++ lit "' 不存在"))
    end
  end.

(** [FileRepository.delete_user] *)
Definition delete_user (name : str) : M unit :=
  self <- get_repository ;;
  match _data_model self with
  | None => raise (Exn ValueError (lit "数据模型未初始化"))
  | Some dm =>
    match remove_user name (users dm) with
    | Some us =>
      set_data_model (Some (set_users dm us)) ;;;
      save_data
    | None =>
      raise (Exn ValueError (lit "用户 '" ++ name ++ lit "' 不存在"))
    end
  end.

(** [FileRepository.get_system_config] *)
Definition get_system_config (self : FileRepository) : SystemConfig :=
  match _data_model self with
  | None => SystemConfig_default
  | Some dm => config dm
  end.

(** [FileRepository.save_system_config] *)
Definition save_system_config (c : SystemConfig) : M unit :=
  self <- get_repository ;;
  match _data_model self with
  | None => raise (Exn ValueError (lit "数据模型未初始化"))
  | Some dm =>
    set_data_model (Some (set_config dm c)) ;;;
    save_data
  end.

End Repository.

(** ** security/face_recognizer.py *)

Section FaceRecognizer.
Context {P : Primitives}.
Local Open Scope monad_scope.

(** [is_face_recognition_available] *)
Definition is_face_recognition_available : M (bool * str) :=
  w <- get_world ;;
  if negb (CV2_AVAILABLE w) then
    ret (false, lit "OpenCV not installed")
  else if negb (FACEPP_AVAILABLE w) then
    ret (false, lit "Face++ API not configured or unavailable")
  else
    ret (true, lit "Face++ face recognition features available").

(** [capture_and_extract_face]: camera, preview window and Face++ face
    detection are the oracle [camera]. *)
Definition capture_and_extract_face : M (list json) :=
  fun w => (camera w (camera_pos w), with_camera_pos w (S (camera_pos w))).

(** the test [len(vec) == 2 and isinstance(vec[0], str) and
    vec[0] == "FACEPP_IMAGE"] on one operand *)
Definition is_facepp_marker (vec : list json) : bool :=
  match vec with
  | [JStr tag; _] => str_eqb tag (lit "FACEPP_IMAGE")
  | _ => false
  end.

(** [vec[1]] handed to [bytes.fromhex]; the last case is not reached, the
    callers test [is_facepp_marker] first *)
Definition hex_payload (vec : list json) : result bytes :=
  match vec with
  | [_; JStr h] => bytes_fromhex h
  | [_; v] => Raise (Exn TypeError (lit "fromhex() argument must be str, not "
                                     ++ type_name v))
  | _ => Raise (Exn TypeError (lit "fromhex() argument must be str"))
  end.

(** [compute_distance] *)
Definition compute_distance (vec1 vec2 : list json) : M float :=
  if is_facepp_marker vec1 && is_facepp_marker vec2 then
    w <- get_world ;;
    if FACEPP_AVAILABLE w then
      try_except
        (image_data1 <- lift (hex_payload vec1) ;;
         image_data2 <- lift (hex_payload vec2) ;;
         r <- lift (compare_faces_facepp w image_data1 image_data2) ;;
         let '(confidence, threshold) := r in
         let distance := ((100 - confidence) / 100)%float in
         ret distance)
        (fun e => ret 1%float)
    else
      raise (Exn ValueError (lit "Face++ image data provided but Face++ not available"))
  else
    raise (Exn ValueError (lit "Invalid face data format: only Face++ image data is supported")).

End FaceRecognizer.

(** ** core/auth_service.py *)

Record AuthResult := mkAuthResult {
  success : bool;
  message : str;
  user : option User
}.

(** [not s] for a string *)
Definition str_empty (s : str) : bool :=
  match s with [] => true | _ => false end.

(** [not user.face_enabled or not user.face_embedding] *)
Definition face_not_enrolled (u : User) : bool :=
  negb (face_enabled u) ||
  match face_embedding u with
  | None => true
  | Some [] => true
  | Some (_ :: _) => false
  end.

Section AuthService.
Context {P : Primitives}.
Local Open Scope monad_scope.

(** [register_user] *)
Definition register_user (username password : str) : M AuthResult :=
  try_except
    (if str_empty username || str_empty (strip username) then
       ret (mkAuthResult false (lit "用户名不能为空") None)
     else if str_empty password || (List.length password <? 6)%nat then
       ret (mkAuthResult false (lit "密码长度至少6位") None)
     else
       let username := strip username in
       repo <- get_repository ;;
       match get_user_by_username repo username with
       | Some _ =>
         ret (mkAuthResult false (lit "用户名 '" ++ username ++ lit "' 已存在") None)
       | None =>
         salt <- generate_salt SALT_LENGTH ;;
         let salt_b64 := b64encode salt in
         let password_hash :=
           derive_key_from_password password salt PBKDF2_ITERATIONS in
         let password_hash_b64 := b64encode password_hash in
         let user := mkUser username salt_b64 password_hash_b64 false None None None in
         user <- save_user user ;;
         log_user_registered username ;;;
         ret (mkAuthResult true (lit "用户 '" ++ username ++ lit "' 注册成功") (Some user))
       end)
    (fun e => ret (mkAuthResult false (lit "注册失败: " ++ exn_str e) None)).

(** [authenticate_password_only] *)
Definition authenticate_password_only (username password : str) : M AuthResult :=
  try_except
    (if str_empty username || str_empty password then
       ret (mkAuthResult false (lit "用户名和密码不能为空") None)
     else
       let username := strip username in
       repo <- get_repository ;;
       match get_user_by_username repo username with
       | None =>
         log_login_fail_user_not_found username ;;;
         ret (mkAuthResult false (lit "用户名或密码错误") None)
       | Some user =>
         salt <- lift (b64decode (salt user)) ;;
         let computed_hash :=
           derive_key_from_password password salt PBKDF2_ITERATIONS in
         let computed_hash_b64 := b64encode computed_hash in
         if negb (str_eqb computed_hash_b64 (password_hash user)) then
           log_login_fail_password username ;;;
           ret (mkAuthResult false (lit "用户名或密码错误") None)
         else
           log_login_success username ;;;
           ret (mkAuthResult true (lit "用户 '" ++ username ++ lit "' 登录成功") (Some user))
       end)
    (fun e => ret (mkAuthResult false (lit "认证失败: " ++ exn_str e) None)).

(** The steps [authenticate_user] and [verify_user_face_for_password_change]
    share between the enrolment test and the comparison: the availability
    check and the capture inside [try ... except FaceRecognitionError];
    [k] is the code that follows them. *)
Definition capture_or_fail (k : list json -> M AuthResult) : M AuthResult :=
  av <- is_face_recognition_available ;;
  let '(available, msg) := av in
  if negb available then
    ret (mkAuthResult false (lit "人脸识别不可用: " ++ msg) None)
  else
    captured <- try_except_class
                  (current_embedding <- capture_and_extract_face ;;
                   ret (inr current_embedding))
                  FaceRecognitionError
                  (fun e => ret (inl (mkAuthResult false
                                        (lit "人脸采集失败: " ++ exn_str e) None))) ;;
    match captured with
    | inl early_return => ret early_return
    | inr current_embedding => k current_embedding
    end.

(** [verify_user_face_for_password_change] *)
Definition verify_user_face_for_password_change (username : str) : M AuthResult :=
  try_except
    (repo <- get_repository ;;
     match get_user_by_username repo username with
     | None => ret (mkAuthResult false (lit "用户不存在") None)
     | Some user =>
       if face_not_enrolled user then
         ret (mkAuthResult false (lit "用户未启用人脸识别功能") None)
       else
         capture_or_fail (fun current_embedding =>
           let config := get_system_config repo in
           let threshold := face_threshold config in
           distance <- compute_distance
                         (match face_embedding user with Some v => v | None => [] end)
                         current_embedding ;;
           if (distance <=? threshold)%float then
             ret (mkAuthResult true (lit "用户 '" ++ username ++ lit "' 人脸验证通过") (Some user))
           else
             ret (mkAuthResult false
                    (lit "人脸验证失败 (距离=" ++ format_4f distance ++ lit " > "
                       ++ format_float threshold ++ lit ")") None))
     end)
    (fun e => ret (mkAuthResult false (lit "人脸验证失败: " ++ exn_str e) None)).

(** [change_password].  The source updates [salt] and [password_hash] on the
    user object that the store holds and then calls [update_user] with it;
    the store afterwards holds the same list as here. *)
Definition change_password (username old_password new_password : str) : M AuthResult :=
  try_except
    (if str_empty username || str_empty old_password || str_empty new_password then
       ret (mkAuthResult false (lit "所有字段都不能为空") None)
     else if (List.length new_password <? 6)%nat then
       ret (mkAuthResult false (lit "新密码长度至少6位") None)
     else if str_eqb old_password new_password then
       ret (mkAuthResult false (lit "新密码不能与旧密码相同") None)
     else
       let username := strip username in
       auth_result <- authenticate_password_only username old_password ;;
       if negb (success auth_result) then
         ret (mkAuthResult false (lit "旧密码验证失败") None)
       else
         match user auth_result with
         | None => raise (Exn AttributeError (lit "'NoneType' object has no attribute 'salt'"))
         | Some user =>
           new_salt <- generate_salt SALT_LENGTH ;;
           let new_salt_b64 := b64encode new_salt in
           let new_password_hash :=
             derive_key_from_password new_password new_salt PBKDF2_ITERATIONS in
           let new_password_hash_b64 := b64encode new_password_hash in
           let user := set_credentials user new_salt_b64 new_password_hash_b64 in
           update_user user ;;;
           log_password_changed username ;;;
           ret (mkAuthResult true (lit "用户 '" ++ username ++ lit "' 密码修改成功") None)
         end)
    (fun e => ret (mkAuthResult false (lit "修改密码失败: " ++ exn_str e) None)).

(** [authenticate_user] *)
Definition authenticate_user (username password : str) : M AuthResult :=
  try_except
    (password_result <- authenticate_password_only username password ;;
     if negb (success password_result) then
       ret password_result
     else
       match user password_result with
       | None => raise (Exn AttributeError (lit "'NoneType' object has no attribute 'face_enabled'"))
       | Some user =>
         repo <- get_repository ;;
         let config := get_system_config repo in
         if negb (force_mfa config) then
           ret password_result
         else if face_not_enrolled user then
           ret (mkAuthResult false (lit "系统要求双因素认证，但用户未录入人脸") None)
         else
           capture_or_fail (fun current_embedding =>
             distance <- compute_distance
                           (match face_embedding user with Some v => v | None => [] end)
                           current_embedding ;;
             let threshold := face_threshold config in
             if (distance <=? threshold)%float then
               log_auth_event username (lit "MFA_SUCCESS")
                 (lit "双因素认证成功 (距离=" ++ format_4f distance ++ lit ")") ;;;
               ret (mkAuthResult true (lit "用户 '" ++ username ++ lit "' 双因素认证成功") (Some user))
             else
               log_login_fail_face username ;;;
               ret (mkAuthResult false
                      (lit "人脸验证失败 (距离=" ++ format_4f distance ++ lit " > "
                         ++ format_float threshold ++ lit ")") None))
       end)
    (fun e => ret (mkAuthResult false (lit "认证失败: " ++ exn_str e) None)).

End AuthService.


(** ** Notions used in the statements *)

(** the log after one more event *)
Definition log_append (w : World) (name result reason : str) : World :=
  with_auth_log w (auth_log w ++ [mkLogEntry name result reason]).

(** the usernames held by the store, in list order *)
Definition usernames (us : list User) : list str := List.map username us.

(** uniqueness of usernames, the invariant of the user collection *)
Definition unique_usernames (w : World) : Prop :=
  NoDup (usernames (get_all_users (repository w))).

(** how many users of the list carry the name *)
Definition count_username (name : str) (us : list User) : nat :=
  List.length (filter (fun u => str_eqb (username u) name) us).

(** every id present in the list is below [n] *)
Definition ids_below (n : Z) (us : list User) : Prop :=
  forall u i, In u us -> id u = Some i -> (i < n)%Z.

(** the id counter is above every id the store holds *)
Definition store_wf (w : World) : Prop :=
  ids_below (_next_user_id (repository w)) (get_all_users (repository w)).

(** Store operations of a process: insertion of a user and deletion by
    name. *)
Inductive store_op :=
| Insert (u : User)
| Delete (name : str).






Section StoreRuns.
Context {P : Primitives}.

(** the id that [save_user u] assigned in going from [w] to [w']: the id
    that the user held under the name of [u] carries in [w'], when [u] came
    without an id and its name was not held in [w] *)
Definition assigned_id (u : User) (w w' : World) : option Z :=
  match id u, get_user_by_username (repository w) (username u),
        get_user_by_username (repository w') (username u) with
  | None, None, Some stored => id stored
  | _, _, _ => None
  end.

(** one operation: the id the store assigned to the user it inserted, if
    any, and the world afterwards *)
Definition run_op (op : store_op) (w : World) : option Z * World :=
  match op with
  | Insert u => (assigned_id u w (snd (save_user u w)), snd (save_user u w))
  | Delete name => (None, snd (delete_user name w))
  end.

(** a sequence of operations: the ids received, in order of issue *)
Fixpoint run_ops (ops : list store_op) (w : World) : list Z * World :=
  match ops with
  | [] => ([], w)
  | op :: rest =>
    let '(o, w1) := run_op op w in
    let '(issued, w2) := run_ops rest w1 in
    (match o with Some i => i :: issued | None => issued end, w2)
  end.

End StoreRuns.

(** neither the first nor the last character is whitespace *)
Definition no_outer_whitespace (s : str) : Prop :=
  (forall c r, s = c :: r -> isspace c = false) /\
  (forall c r, s = r ++ [c] -> isspace c = false).

(** The part of the world a face check reads or advances: availability
    flags, camera, compare service. *)
Record FaceEnv := mkFaceEnv {
  env_cv2 : bool;
  env_facepp : bool;
  env_camera : nat -> result (list json);
  env_camera_pos : nat;
  env_compare : bytes -> bytes -> result (float * float)
}.

Definition face_env (w : World) : FaceEnv :=
  mkFaceEnv (CV2_AVAILABLE w) (FACEPP_AVAILABLE w) (camera w) (camera_pos w)
            (compare_faces_facepp w).

Definition with_face_env (w : World) (f : FaceEnv) : World :=
  mkWorld (repository w) (data_bin w) (auth_log w) (urandom_source w)
          (urandom_pos w) (env_cv2 f) (env_facepp f) (env_camera f)
          (env_camera_pos f) (env_compare f).

(** [c] neither reads nor changes the face environment: run in any other
    face environment it gives the same result and the same changes. *)
Definition face_blind {A} (c : M A) : Prop :=
  forall w f, c (with_face_env w f) = (fst (c w), with_face_env (snd (c w)) f).

(** ** An executable instance

    A small instance of [Primitives] and a world to run the embedding on
    concrete inputs.  The instance is not the real algorithms: key
    derivation concatenates password and salt, the cipher is the identity
    followed by a tag taken from the key, base64 and hex read characters
    as bytes. *)
Module Run.

Definition byte_of_cp (c : codepoint) : byte :=
  match Byte.of_N (c mod 256) with
  | Some b => b
  | None => x00
  end.

Definition bytes_eqb (a b : bytes) : bool :=
  if list_eq_dec Byte.byte_eq_dec a b then true else false.

Definition tag_of_key (key : bytes) : bytes := firstn 16 (key ++ repeat x00 16).

#[export] Instance run_primitives : Primitives := {|
  str_encode_utf8 := List.map byte_of_cp;
  bytes_decode_utf8 := fun b => Ok (List.map Byte.to_N b);
  PBKDF2HMAC_derive := fun len salt _ pw => firstn len (pw ++ salt ++ repeat x00 len);
  AESGCM_encrypt := fun key _ data _ => data ++ tag_of_key key;
  AESGCM_decrypt := fun key _ data _ =>
    if bytes_eqb (slice_from_neg 16 data) (tag_of_key key)
    then Ok (slice_to_neg 16 data)
    else Raise (Exn InvalidTag []);
  b64encode := List.map Byte.to_N;
  b64decode := fun s => Ok (List.map byte_of_cp s);
  json_dumps := fun _ => [];
  json_loads := fun _ => Raise (Exn JSONDecodeError (lit "Expecting value"));
  bytes_fromhex := fun s => Ok (List.map byte_of_cp s);
  format_4f := fun _ => lit "#.####";
  format_float := fun _ => lit "#.#"
|}.

Definition key32 : bytes := repeat x01 32.

(** A loaded, empty store; camera and Face++ present, every capture
    delivers the same image, the compare service answers [answer]. *)
Definition probe : list json := [JStr (lit "FACEPP_IMAGE"); JStr (lit "00ff")].

Definition world0 (answer : result (float * float)) : World :=
  mkWorld (mkFileRepository (Some (mkDataModel 1 [] SystemConfig_default))
                            (Some key32) 1)
          None [] (fun _ => x07) 0
          true true (fun _ => Ok probe) 0
          (fun _ _ => answer).

(** the compare service finds no resemblance: confidence 0 *)
Definition no_match : result (float * float) := Ok (0, 70)%float.

Definition service_down : result (float * float) :=
  Raise (Exn FacePPError (lit "Face++ API请求失败")).

(** world after running [c] *)
Definition after {A} (c : M A) (w : World) : World := snd (c w).

(** enrolment of a face for a registered user, as [register_user_with_face]
    stores it: [face_enabled] set, the captured image kept *)
Definition enrol (name : str) (w : World) : World :=
  match get_user_by_username (repository w) name with
  | Some u =>
    after (update_user (mkUser (username u) (salt u) (password_hash u)
                               true (Some probe) (face_image_data u) (id u))) w
  | None => w
  end.

(** the administrator sets the face threshold *)
Definition set_threshold (t : float) (w : World) : World :=
  let c := get_system_config (repository w) in
  after (save_system_config
           (mkSystemConfig (force_mfa c) t (hash_algorithm c)
                           (encryption_algorithm c) (pbkdf2_iterations c))) w.

(** outcome of running [c] *)
Definition outcome {A} (c : M A) (w : World) : result A := fst (c w).

(** the caller-visible text of an outcome *)
Definition message_of (r : result AuthResult) : option str :=
  match r with
  | Ok a => Some (message a)
  | Raise _ => None
  end.


(** did the operation report success? *)
Definition succeeded (r : result AuthResult) : bool :=
  match r with
  | Ok a => success a
  | Raise _ => false
  end.

(** the log lines that [c] appended when run in [w] *)
Definition logged {A} (c : M A) (w : World) : list LogEntry :=
  skipn (List.length (auth_log w)) (auth_log (after c w)).

(** a store in which one user registered with password [secret1] *)
Definition world_with (name : str) (answer : result (float * float)) : World :=
  after (register_user name (lit "secret1")) (world0 answer).

(** the same after the enrolment of the user's face *)
Definition world_with_face (name : str) (answer : result (float * float)) : World :=
  enrol name (world_with name answer).

(** a new process on the same files: the repository object is fresh *)
Definition restarted (w : World) : World := with_repository w FileRepository_init.

(** the last byte of the store file overwritten *)
Definition tampered (w : World) : World :=
  with_data_bin w (option_map (fun f => removelast f ++ [xff]) (data_bin w)).

(** a user as [register_user] hands it to [save_user] *)
Definition new_user (name : str) : User :=
  mkUser name (lit "c2FsdA==") (lit "aGFzaA==") false None None None.

(** the worlds of the examples *)
Definition alice_world : World := world_with (lit "alice") no_match.
Definition carol_world : World := world_with (lit "carol") no_match.
Definition erin_world : World := world_with_face (lit "erin") no_match.
Definition erin_world_service_down : World := world_with_face (lit "erin") service_down.

(** a decoded record of schema version 2 *)
Definition future_record : json :=
  JDict [(lit "version", JInt 2); (lit "users", JList [])].

(** dave is inserted, deleted and inserted again, then erin is inserted *)
Definition dave_ops : list store_op :=
  [Insert (new_user (lit "dave")); Delete (lit "dave");
   Insert (new_user (lit "dave")); Insert (new_user (lit "erin"))].

End Run.

(** * More of the sources *)

(** ** core/logging_service.py, the reading side *)

(** [l[start:]] for an integer [start] of either sign *)
Definition py_slice_from {A} (start : Z) (l : list A) : list A :=
  if (start <? 0)%Z
  then skipn (Z.to_nat (Z.max 0 (Z.of_nat (List.length l) + start))) l
  else skipn (Z.to_nat start) l.

(** [get_recent_logs]: [log_file] is what [readlines] finds in the log
    file, [None] when the file does not exist. *)
Definition get_recent_logs (count : Z) (log_file : option (list str)) : list str :=
  match log_file with
  | None => []
  | Some lines =>
    if (Z.of_nat (List.length lines) >? count)%Z
    then py_slice_from (- count) lines
    else lines
  end.

(** ** core/auth_service.py, registration with a face *)

Section Enrolment.
Context {P : Primitives}.
Local Open Scope monad_scope.

Definition set_face (u : User) (enabled : bool) (embedding : option (list json)) : User :=
  mkUser (username u) (salt u) (password_hash u) enabled embedding
         (face_image_data u) (id u).

(** [register_user_with_face].  The source sets [face_enabled] and
    [face_embedding] on the user object of the registration result, which is
    the object the store holds, and then calls [update_user] with it. *)
Definition register_user_with_face (username password : str) : M AuthResult :=
  try_except
    (result <- register_user username password ;;
     if negb (success result) then
       ret result
     else
       match user result with
       | None => raise (Exn AttributeError (lit "'NoneType' object has no attribute 'face_enabled'"))
       | Some user =>
         capture_or_fail (fun face_embedding =>
           let user := set_face user true (Some face_embedding) in
           update_user user ;;;
           ret (mkAuthResult true
                  (lit "用户 '" ++ username ++ lit "' 注册并录入人脸成功") (Some user)))
       end)
    (fun e => ret (mkAuthResult false (lit "注册失败: " ++ exn_str e) None)).

End Enrolment.

(** ** core/security_config.py *)

Module security_config.
Section SecurityConfig.
Context {P : Primitives}.
Local Open Scope monad_scope.

Definition with_force_mfa (c : SystemConfig) (enabled : bool) : SystemConfig :=
  mkSystemConfig enabled (face_threshold c) (hash_algorithm c)
                 (encryption_algorithm c) (pbkdf2_iterations c).

Definition with_face_threshold (c : SystemConfig) (threshold : float) : SystemConfig :=
  mkSystemConfig (force_mfa c) threshold (hash_algorithm c)
                 (encryption_algorithm c) (pbkdf2_iterations c).

(** [get_force_mfa] *)
Definition get_force_mfa : M bool :=
  repo <- get_repository ;;
  ret (force_mfa (get_system_config repo)).

(** [set_force_mfa] *)
Definition set_force_mfa (enabled : bool) : M bool :=
  try_except
    (repo <- get_repository ;;
     let config := get_system_config repo in
     let config := with_force_mfa config enabled in
     save_system_config config ;;;
     ret true)
    (fun e => ret false).

(** [get_face_threshold] *)
Definition get_face_threshold : M float :=
  repo <- get_repository ;;
  ret (face_threshold (get_system_config repo)).

(** [set_face_threshold] *)
Definition set_face_threshold (threshold : float) : M bool :=
  try_except
    (if (threshold <? 0)%float || (1 <? threshold)%float then
       ret false
     else
       repo <- get_repository ;;
       let config := get_system_config repo in
       let config := with_face_threshold config threshold in
       save_system_config config ;;;
       ret true)
    (fun e => ret false).

(** [get_face_enabled_users_count] *)
Definition get_face_enabled_users_count : M Z :=
  repo <- get_repository ;;
  ret (Z.of_nat (List.length (filter face_enabled (get_all_users repo)))).

End SecurityConfig.
End security_config.

(** ** Key file, admin key file and start-up

    [security/key_manager.py], the login part of [core/admin_service.py] and
    [MFAApp.init_data] of [main.py] use two more files and one more module
    variable; they run on a [System]. *)

Record System := mkSystem {
  world : World;
  (** content of [DATA_KEY_PATH], [None] when the file does not exist *)
  data_key_file : option bytes;
  (** text of [ADMIN_KEY_PATH], [None] when the file does not exist *)
  admin_key_file : option str;
  (** the module variable of [key_manager] *)
  _cached_data_key : option bytes
}.

Definition with_world (s : System) (w : World) : System :=
  mkSystem w (data_key_file s) (admin_key_file s) (_cached_data_key s).

Definition with_data_key_file (s : System) (f : option bytes) : System :=
  mkSystem (world s) f (admin_key_file s) (_cached_data_key s).


Definition with_cached_data_key (s : System) (k : option bytes) : System :=
  mkSystem (world s) (data_key_file s) (admin_key_file s) k.

Definition MS (A : Type) : Type := System -> result A * System.

Definition sret {A} (a : A) : MS A := fun s => (Ok a, s).

Definition sraise {A} (e : exn) : MS A := fun s => (Raise e, s).

Definition sbind {A B} (c : MS A) (k : A -> MS B) : MS B :=
  fun s =>
    match c s with
    | (Ok a, s') => k a s'
    | (Raise e, s') => (Raise e, s')
    end.

Definition stry_except {A} (c : MS A) (h : exn -> MS A) : MS A :=
  fun s =>
    match c s with
    | (Ok a, s') => (Ok a, s')
    | (Raise e, s') => h e s'
    end.

(** code of the other modules, run on the [world] of the system *)
Definition in_world {A} (c : M A) : MS A :=
  fun s => let '(r, w') := c (world s) in (r, with_world s w').

Definition get_system : MS System := fun s => (Ok s, s).

Declare Scope system_scope.
Delimit Scope system_scope with MS.
Notation "x <- c ;; k" := (sbind c (fun x => k))
  (at level 61, c at next level, right associativity) : system_scope.
Notation "c ;;; k" := (sbind c (fun _ => k))
  (at level 61, right associativity) : system_scope.

Definition AES_KEY_LENGTH : nat := 32.

(** [f"{n}"] for a natural number *)
Definition str_of_nat (n : nat) : str :=
  lit (NilEmpty.string_of_uint (Nat.to_uint n)).





Module key_manager.
Section KeyManager.
Context {P : Primitives}.
Local Open Scope system_scope.

(** [generate_random_key] of [security/crypto.py] *)
Definition generate_random_key (length : nat) : M bytes := os_urandom length.

(** [load_or_init_data_key] *)
Definition load_or_init_data_key : MS bytes :=
  s <- get_system ;;
  match _cached_data_key s with
  | Some key => sret key
  | None =>
    data_key <-
      match data_key_file s with
      | Some data_key =>
        if negb (List.length data_key =? AES_KEY_LENGTH)%nat then
          sraise (Exn ValueError
                    (lit "data.key 文件损坏：期望" ++ str_of_nat AES_KEY_LENGTH
                       ++ lit "字节，实际" ++ str_of_nat (List.length data_key)
                       ++ lit "字节"))
        else sret data_key
      | None =>
        data_key <- in_world (generate_random_key AES_KEY_LENGTH) ;;
        (fun s => (Ok tt, with_data_key_file s (Some data_key))) ;;;
        sret data_key
      end ;;
    (fun s => (Ok tt, with_cached_data_key s (Some data_key))) ;;;
    sret data_key
  end.

(** [clear_cached_key] *)
Definition clear_cached_key : MS unit :=
  fun s => (Ok tt, with_cached_data_key s None).

(** [get_data_key] *)
Definition get_data_key : MS bytes := load_or_init_data_key.

(** [key_exists] *)
Definition key_exists : MS bool :=
  fun s => (Ok (match data_key_file s with Some _ => true | None => false end), s).

End KeyManager.
End key_manager.

(** ** core/admin_service.py *)

Module admin_service.
Section AdminService.
Context {P : Primitives}.




(** [reset_user_face].  The source clears the two fields on the object the
    store holds before it calls [update_user]. *)
Definition reset_user_face (username : str) : M bool :=
  try_except
    (repo <- get_repository ;;
     match get_user_by_username repo username with
     | None => ret false
     | Some user =>
       let user := set_face user false None in
       update_user user ;;;
       ret true
     end)%M
    (fun e => ret false).

(** [delete_user] of the admin service, over [FileRepository.delete_user] *)
Definition delete_user (username : str) : M bool :=
  try_except
    (delete_user username ;;;
     ret true)%M
    (fun e => ret false).

End AdminService.
End admin_service.

Module main.
Section Main.
Context {P : Primitives}.
Local Open Scope system_scope.

(** [MFAApp.init_data]: a failure is printed and the application goes on. *)
Definition init_data : MS unit :=
  stry_except
    (data_key <- key_manager.load_or_init_data_key ;;
     in_world (load_data data_key))
    (fun e => sret tt).

End Main.
End main.

(** ** Notions used in the further statements *)

(** [c] takes every world to one related to it by [R] *)
Definition preserves (R : World -> World -> Prop) {A} (c : M A) : Prop :=
  forall w, R w (snd (c w)).

(** repository object and store file are the same *)
Definition same_store (w w' : World) : Prop :=
  repository w' = repository w /\ data_bin w' = data_bin w.

(** the audit log was only appended to *)
Definition log_grows (w w' : World) : Prop :=
  exists added, auth_log w' = auth_log w ++ added.

(** the audit log is the same *)
Definition same_log (w w' : World) : Prop := auth_log w' = auth_log w.

(** the image bytes of a user as [from_dict] gives them back after
    [to_dict]: an empty byte string is written as [None] *)
Definition reloaded_image (o : option bytes) : option bytes :=
  match o with
  | Some [] => None
  | _ => o
  end.

Definition reloaded_user (u : User) : User :=
  mkUser (username u) (salt u) (password_hash u) (face_enabled u)
         (face_embedding u) (reloaded_image (face_image_data u)) (id u).

(** the bytes [save_data] encrypts for a data model *)
Definition plaintext_of {P : Primitives} (dm : DataModel) : bytes :=
  str_encode_utf8 (json_dumps (DataModel_to_dict dm)).



(** the model [load_data] installs when there is no store file *)
Definition empty_model : DataModel := mkDataModel 1 [] SystemConfig_default.

(** ** More concrete inputs *)

Module Cases.
Import Run.

(** the executable instance with a JSON reader that answers [d] *)
Definition reading_primitives (d : json) : Primitives := {|
  str_encode_utf8 := @str_encode_utf8 run_primitives;
  bytes_decode_utf8 := @bytes_decode_utf8 run_primitives;
  PBKDF2HMAC_derive := @PBKDF2HMAC_derive run_primitives;
  AESGCM_encrypt := @AESGCM_encrypt run_primitives;
  AESGCM_decrypt := @AESGCM_decrypt run_primitives;
  b64encode := @b64encode run_primitives;
  b64decode := @b64decode run_primitives;
  json_dumps := @json_dumps run_primitives;
  json_loads := fun _ => Ok d;
  bytes_fromhex := @bytes_fromhex run_primitives;
  format_4f := @format_4f run_primitives;
  format_float := @format_float run_primitives
|}.

(** the model a repository holds *)
Definition model_of (w : World) : DataModel :=
  match _data_model (repository w) with
  | Some dm => dm
  | None => empty_model
  end.

Definition fields_of (j : json) : list (str * json) :=
  match j with
  | JDict d => d
  | _ => []
  end.

(** the store in which alice registered, and its encoding *)
Definition alice_model : DataModel := model_of alice_world.
Definition alice_dict : json := DataModel_to_dict alice_model.

(** a model whose one user has no id, and its encoding *)
Definition noid_model : DataModel :=
  mkDataModel 1 [new_user (lit "dave")] SystemConfig_default.
Definition noid_fields : list (str * json) :=
  fields_of (DataModel_to_dict noid_model).

(** a store file: nonce, empty ciphertext and the tag for [key32] *)
Definition sealed_empty_file : bytes := repeat x07 12 ++ tag_of_key key32.

(** no store file and a repository into which nothing was loaded *)
Definition fresh_world : World := restarted (world0 no_match).

(** a first start: no key file, no admin key file, nothing cached *)
Definition fresh_system : System := mkSystem fresh_world None None None.

(** a start on alice's files after the last byte of the store file was
    overwritten *)
Definition tampered_system : System :=
  mkSystem (restarted (tampered alice_world)) (Some key32) None None.

(** a key file of two bytes *)
Definition damaged_key_system : System :=
  mkSystem fresh_world (Some [x01; x02]) None None.

(** alice's store after the administrator turned two-factor login off *)
Definition single_factor_world : World :=
  after (security_config.set_force_mfa false) alice_world.

(** erin enrolled, and a compare service that finds a strong resemblance *)
Definition erin_world_match : World := world_with_face (lit "erin") (Ok (90, 70)%float).

(** the account a successful operation returned *)
Definition account_of (r : result AuthResult) : option User :=
  match r with
  | Ok a => user a
  | Raise _ => None
  end.

End Cases.

(** * Properties *)

Open Scope nat_scope.

Arguments lit : simpl never.
Arguments strip : simpl never.
Arguments slice_to : simpl never.
Arguments slice_to_neg : simpl never.
Arguments slice_from_neg : simpl never.
Arguments slice_between_neg : simpl never.
Arguments decrypt_aes_gcm : simpl never.
Arguments derive_key_from_password : simpl never.
Arguments Nat.ltb : simpl never.

(** ** Strings *)

Lemma str_eqb_eq (a b : str) : str_eqb a b = true <-> a = b.
Proof. unfold str_eqb. destruct (list_eq_dec N.eq_dec a b); split; congruence. Qed.

Lemma str_eqb_refl (a : str) : str_eqb a a = true.
Proof. now apply str_eqb_eq. Qed.

Lemma str_eqb_neq (a b : str) : str_eqb a b = false <-> a <> b.
Proof. unfold str_eqb. destruct (list_eq_dec N.eq_dec a b); split; congruence. Qed.

Example strip_blanks_and_tab : strip (lit "  alice	 ") = lit "alice".
Proof. reflexivity. Qed.

Example strip_ideographic_space : strip (lit "　carol") = lit "carol".
Proof. reflexivity. Qed.

Example lit_reads_utf8 : lit "用户" = [29992; 25143]%N.
Proof. reflexivity. Qed.

Example store_file_framing :
  let file := [x01; x02; x03; x04] in
  slice_to 1 file = [x01] /\ slice_between_neg 1 2 file = [x02] /\
  slice_from_neg 2 file = [x03; x04].
Proof. repeat split. Qed.

(** ** Schema migration *)

(** C5.  A record whose version (2) is greater than the current schema
    version (1), a version that [validate_version] declares invalid, is
    returned by [migrate] as it is; no error is signalled. *)
Lemma migrate_future_version_accepted :
  json_get Run.future_record (lit "version") JNull = Ok (JInt 2) /\
  (SchemaMigration.CURRENT_VERSION < 2)%Z /\
  SchemaMigration.validate_version 2 = false /\
  SchemaMigration.migrate Run.future_record = Ok Run.future_record.
Proof. repeat split. Qed.

(** [migrate] returns every decoded record as it is. *)
Lemma migrate_dict (d : list (str * json)) :
  SchemaMigration.migrate (JDict d) = Ok (JDict d).
Proof.
  unfold SchemaMigration.migrate, json_get.
  destruct (dict_lookup (lit "version") d) as [v|].
  - destruct (json_eq_int v SchemaMigration.CURRENT_VERSION); reflexivity.
  - reflexivity.
Qed.

(** ** Floating-point comparisons *)

Lemma SFcompare_lt_gt (x y : spec_float) :
  SFcompare x y = Some Lt -> SFcompare y x = Some Gt.
Proof.
  destruct x as [sx|sx| |sx mx ex], y as [sy|sy| |sy my ey]; simpl;
    try discriminate;
    try (destruct sx; try destruct sy; simpl; congruence);
    try (destruct sy; simpl; congruence).
  change (PosDef.Pos.compare_cont Eq mx my) with (mx ?= my)%positive.
  change (PosDef.Pos.compare_cont Eq my mx) with (my ?= mx)%positive.
  rewrite (Z.compare_antisym ex ey), (Pos.compare_antisym mx my).
  destruct sx, sy; try congruence;
    destruct (ex ?= ey)%Z; simpl; try congruence;
    destruct (mx ?= my)%positive; simpl; congruence.
Qed.

(** [x < y] excludes [y <= x] *)
Lemma float_ltb_not_leb (x y : float) :
  (x <? y)%float = true -> (y <=? x)%float = false.
Proof.
  rewrite ltb_spec, leb_spec. unfold SFltb, SFleb.
  destruct (SFcompare (Prim2SF x) (Prim2SF y)) as [[| |]|] eqn:E; try discriminate.
  intros _. now rewrite (SFcompare_lt_gt _ _ E).
Qed.

(** ** Authenticated encryption *)

Lemma firstn_app_exact {A} (l1 l2 : list A) n :
  n = List.length l1 -> firstn n (l1 ++ l2) = l1.
Proof.
  intros ->. rewrite firstn_app, Nat.sub_diag, firstn_all. simpl. apply app_nil_r.
Qed.

Lemma skipn_app_exact {A} (l1 l2 : list A) n :
  n = List.length l1 -> skipn n (l1 ++ l2) = l2.
Proof.
  intros ->. rewrite skipn_app, Nat.sub_diag, skipn_all. reflexivity.
Qed.

(** Cutting the last 16 elements off and putting them back. *)
Lemma slice_neg_16_rejoin {A} (l : list A) :
  slice_to_neg 16 l ++ slice_from_neg 16 l = l.
Proof. unfold slice_to_neg, slice_from_neg. apply firstn_skipn. Qed.

Lemma slice_from_neg_length {A} (l : list A) k :
  k <= List.length l -> List.length (slice_from_neg k l) = k.
Proof. intros H. unfold slice_from_neg. rewrite length_skipn. lia. Qed.

Lemma os_urandom_length n w r w' :
  os_urandom n w = (Ok r, w') -> List.length r = n.
Proof.
  unfold os_urandom. intros H. inversion H; subst.
  now rewrite length_map, length_seq.
Qed.

Section RoundTrip.
Context {P : Primitives}.

(** What the development assumes of [cryptography]'s AES-GCM: the output is
    the ciphertext followed by a 16-byte tag, and decryption inverts
    encryption under the same key, nonce and associated data. *)
Hypothesis AESGCM_encrypt_length : forall key iv data aad,
  List.length (AESGCM_encrypt key iv data aad) = List.length data + 16.
Hypothesis AESGCM_decrypt_encrypt : forall key iv data aad,
  List.length key = 32 -> List.length iv = 12 ->
  AESGCM_decrypt key iv (AESGCM_encrypt key iv data aad) aad = Ok data.

(** C4.  For every 32-byte key and every plaintext, [encrypt_aes_gcm]
    returns a triple (12-byte nonce, ciphertext, 16-byte tag), and
    [decrypt_aes_gcm] applied to that triple under the same key and the
    same optional aad returns exactly the plaintext. *)
Theorem decrypt_encrypt_roundtrip (key plaintext : bytes) (aad : option bytes) (w : World) :
  List.length key = 32 ->
  exists iv ciphertext tag w',
    encrypt_aes_gcm key plaintext aad w = (Ok (iv, ciphertext, tag), w') /\
    List.length iv = 12 /\ List.length tag = 16 /\
    List.length ciphertext = List.length plaintext /\
    decrypt_aes_gcm key iv ciphertext tag aad = Ok plaintext.
Proof.
  intros Hkey.
  unfold encrypt_aes_gcm. rewrite Hkey.
  replace (negb (32 =? 32)) with false by reflexivity. cbv beta iota.
  unfold bind. destruct (os_urandom 12 w) as [[iv|e] w'] eqn:Hrand.
  2:{ unfold os_urandom in Hrand. discriminate. }
  pose proof (os_urandom_length Hrand) as Hiv.
  exists iv, (slice_to_neg 16 (AESGCM_encrypt key iv plaintext aad)),
         (slice_from_neg 16 (AESGCM_encrypt key iv plaintext aad)), w'.
  assert (Htag : List.length (slice_from_neg 16 (AESGCM_encrypt key iv plaintext aad)) = 16).
  { apply slice_from_neg_length. rewrite AESGCM_encrypt_length. lia. }
  split; [reflexivity|]. split; [exact Hiv|]. split; [exact Htag|]. split.
  - unfold slice_to_neg. rewrite length_firstn, AESGCM_encrypt_length. lia.
  - unfold decrypt_aes_gcm. rewrite Hkey, Hiv, Htag. simpl.
    rewrite slice_neg_16_rejoin. now apply AESGCM_decrypt_encrypt.
Qed.

End RoundTrip.

(** ** Loading the store *)

Section Load.
Context {P : Primitives}.

(** C3 (amended).  When the stored file is long enough to be framed and
    its authenticated decryption fails with [InvalidTag], [load_data]
    raises that very exception and installs no [DataModel], neither an
    empty nor a partly filled one: the repository keeps the model it held
    before the call (none, in a process that had not loaded one), its id
    counter and the file are unchanged, and only the key is stored.
    Callers are not left without an answer, though: the read accessors
    answer from the model held before, which in a process that had loaded
    none is the empty list and no user, and the mutations are refused with
    the not-initialised [ValueError]. *)
Theorem load_data_integrity_failure (w : World) (data_key encrypted_data : bytes) (e : exn) :
  data_bin w = Some encrypted_data ->
  28 <= List.length encrypted_data ->
  decrypt_aes_gcm data_key
    (slice_to 12 encrypted_data)
    (slice_between_neg 12 16 encrypted_data)
    (slice_from_neg 16 encrypted_data) None = Raise e ->
  exn_class e = InvalidTag ->
  let w' :=
    with_repository w
      (mkFileRepository (_data_model (repository w)) (Some data_key)
                        (_next_user_id (repository w))) in
  load_data data_key w = (Raise e, w') /\
  _data_model (repository w') = _data_model (repository w) /\
  _next_user_id (repository w') = _next_user_id (repository w) /\
  data_bin w' = Some encrypted_data /\
  get_all_users (repository w') = get_all_users (repository w) /\
  (forall name,
     get_user_by_username (repository w') name
       = get_user_by_username (repository w) name) /\
  (_data_model (repository w) = None ->
   get_all_users (repository w') = [] /\
   (forall name, get_user_by_username (repository w') name = None) /\
   (forall user,
      save_user user w' = (Raise (Exn ValueError (lit "数据模型未初始化")), w')) /\
   (forall name,
      delete_user name w' = (Raise (Exn ValueError (lit "数据模型未初始化")), w'))).
Proof.
  intros Hfile Hlen Hdec Hcls. cbv zeta.
  split; [|split; [|split; [|split; [|split; [|split]]]]];
    try reflexivity; try exact Hfile.
  - unfold load_data, bind, set_data_key, get_world. simpl.
    rewrite Hfile.
    destruct (List.length encrypted_data <? 28) eqn:Hlt.
    { apply Nat.ltb_lt in Hlt. lia. }
    unfold try_except_class, try_except, bind, lift. rewrite Hdec. simpl.
    rewrite Hcls. reflexivity.
  - intros Hnone.
    split; [|split; [|split]].
    + unfold get_all_users. cbn [repository with_repository _data_model].
      now rewrite Hnone.
    + intros name. unfold get_user_by_username.
      cbn [repository with_repository _data_model]. now rewrite Hnone.
    + intros user. unfold save_user, bind, get_repository.
      cbn [repository with_repository _data_model]. now rewrite Hnone.
    + intros name. unfold delete_user, bind, get_repository.
      cbn [repository with_repository _data_model]. now rewrite Hnone.
Qed.

End Load.

(** ** Password authentication *)

Lemma str_empty_false (s : str) : s <> [] -> str_empty s = false.
Proof. destruct s; [congruence | reflexivity]. Qed.

Section PasswordFactor.
Context {P : Primitives}.



Lemma authenticate_password_only_correct (w : World) (username password : str)
      (u : User) (salt_bytes : bytes) :
  username <> [] -> password <> [] ->
  get_user_by_username (repository w) (strip username) = Some u ->
  b64decode (salt u) = Ok salt_bytes ->
  b64encode (derive_key_from_password password salt_bytes PBKDF2_ITERATIONS)
    = password_hash u ->
  authenticate_password_only username password w =
    (Ok (mkAuthResult true (lit "用户 '" ++ strip username ++ lit "' 登录成功") (Some u)),
     log_append w (strip username) AuthEvent.SUCCESS (lit "登录成功")).
Proof.
  intros Hu Hp Hsome Hsalt Heq.
  unfold authenticate_password_only, try_except, bind, get_repository, lift.
  rewrite (str_empty_false Hu), (str_empty_false Hp). simpl.
  rewrite Hsome, Hsalt, Heq, str_eqb_refl. reflexivity.
Qed.


(** ** The two-factor decision *)

(** C1 (amended).  For every login attempt where the submitted password is
    correct, [force_mfa] is true and the user has no enrolled face
    template, [authenticate_user] ends in failure with the
    MFA-required-but-not-enrolled message; the password factor, which
    succeeded, has written one SUCCESS event for the attempt, and that is
    the only event written. *)
Theorem mfa_required_but_not_enrolled
        (w : World) (username password : str) (u : User) (salt_bytes : bytes) :
  username <> [] -> password <> [] ->
  get_user_by_username (repository w) (strip username) = Some u ->
  b64decode (salt u) = Ok salt_bytes ->
  b64encode (derive_key_from_password password salt_bytes PBKDF2_ITERATIONS)
    = password_hash u ->
  force_mfa (get_system_config (repository w)) = true ->
  face_not_enrolled u = true ->
  authenticate_user username password w =
    (Ok (mkAuthResult false (lit "系统要求双因素认证，但用户未录入人脸") None),
     log_append w (strip username) AuthEvent.SUCCESS (lit "登录成功")).
Proof.
  intros Hu Hp Hsome Hsalt Heq Hmfa Hface.
  unfold authenticate_user, try_except, bind.
  rewrite (authenticate_password_only_correct w Hu Hp Hsome Hsalt Heq).
  unfold get_repository. simpl.
  rewrite Hmfa, Hface. reflexivity.
Qed.

End PasswordFactor.

(** ** The user collection *)

Lemma find_user_none (name : str) (us : list User) :
  find_user name us = None <-> ~ In name (usernames us).
Proof.
  induction us as [|u r IH]; simpl.
  - tauto.
  - destruct (str_eqb (username u) name) eqn:E.
    + apply str_eqb_eq in E. split; [discriminate | intros H; exfalso; apply H; now left].
    + apply str_eqb_neq in E. rewrite IH. tauto.
Qed.

Lemma find_user_some_name (name : str) (us : list User) (u : User) :
  find_user name us = Some u -> username u = name /\ In u us.
Proof.
  induction us as [|x r IH]; simpl; [discriminate|].
  destruct (str_eqb (username x) name) eqn:E.
  - intros H; inversion H; subst. apply str_eqb_eq in E. auto.
  - intros H. destruct (IH H). auto.
Qed.

Lemma find_user_in (name : str) (us : list User) :
  In name (usernames us) -> exists u, find_user name us = Some u.
Proof.
  intros H. destruct (find_user name us) as [u|] eqn:E; [eauto|].
  apply find_user_none in E. contradiction.
Qed.

Lemma count_username_absent (name : str) (us : list User) :
  ~ In name (usernames us) -> count_username name us = 0.
Proof.
  unfold count_username. induction us as [|u r IH]; simpl; [reflexivity|].
  intros H. destruct (str_eqb (username u) name) eqn:E.
  - apply str_eqb_eq in E. exfalso. apply H. now left.
  - apply IH. intros Hin. apply H. now right.
Qed.

Lemma count_username_unique (name : str) (us : list User) :
  NoDup (usernames us) -> In name (usernames us) -> count_username name us = 1.
Proof.
  unfold count_username. induction us as [|u r IH]; simpl; [tauto|].
  intros Hnd Hin. inversion Hnd as [|? ? Hnotin Hnd']; subst.
  destruct (str_eqb (username u) name) eqn:E.
  - apply str_eqb_eq in E. subst. simpl. f_equal.
    now apply (count_username_absent (username u) r).
  - apply str_eqb_neq in E. destruct Hin as [Hin|Hin]; [congruence|]. now apply IH.
Qed.

Lemma remove_user_sub (name : str) (us us' : list User) :
  remove_user name us = Some us' ->
  (forall u, In u us' -> In u us) /\
  (NoDup (usernames us) -> NoDup (usernames us')).
Proof.
  revert us'. induction us as [|x r IH]; simpl; intros us' H; [discriminate|].
  destruct (str_eqb (username x) name).
  - inversion H; subst. split; [intros; now right|].
    intros Hnd. now inversion Hnd.
  - destruct (remove_user name r) as [r'|]; [|discriminate].
    inversion H; subst. destruct (IH r' eq_refl) as [Hsub Hnd'].
    split.
    + intros u [->|Hin]; [now left | right; auto].
    + intros Hnd. inversion Hnd as [|? ? Hnotin Hnd'']; subst. simpl. constructor.
      * intros Hin. apply Hnotin. unfold usernames in *.
        apply in_map_iff in Hin. destruct Hin as [y [Hy Hyin]].
        apply in_map_iff. exists y. auto.
      * auto.
Qed.

Lemma replace_user_names (user : User) (us us' : list User) :
  replace_user user us = Some us' -> usernames us' = usernames us.
Proof.
  revert us'. induction us as [|x r IH]; simpl; intros us' H; [discriminate|].
  destruct (str_eqb (username x) (username user)) eqn:E.
  - inversion H; subst. simpl. f_equal. apply str_eqb_eq in E. congruence.
  - destruct (replace_user user r) as [r'|]; [|discriminate].
    inversion H; subst. simpl. f_equal. now apply IH.
Qed.

Lemma find_user_app_new (name : str) (us : list User) (u : User) :
  find_user name us = None -> username u = name ->
  find_user name (us ++ [u]) = Some u.
Proof.
  intros Hnone Hname. induction us as [|x r IH]; simpl in *.
  - rewrite Hname, str_eqb_refl. reflexivity.
  - destruct (str_eqb (username x) name); [discriminate | auto].
Qed.

Section Store.
Context {P : Primitives}.

(** [save_data] writes the file and draws a nonce; the repository object is
    not touched, whether the call returns or raises. *)
Lemma save_data_repository (w : World) :
  repository (snd (save_data w)) = repository w.
Proof.
  unfold save_data, bind, get_repository.
  destruct (_data_model (repository w)) as [dm|]; [|reflexivity].
  destruct (_data_key (repository w)) as [key|]; [|reflexivity].
  unfold encrypt_aes_gcm.
  destruct (negb (List.length key =? 32)); reflexivity.
Qed.

Lemma save_data_auth_log (w : World) :
  auth_log (snd (save_data w)) = auth_log w.
Proof.
  unfold save_data, bind, get_repository.
  destruct (_data_model (repository w)) as [dm|]; [|reflexivity].
  destruct (_data_key (repository w)) as [key|]; [|reflexivity].
  unfold encrypt_aes_gcm.
  destruct (negb (List.length key =? 32)); reflexivity.
Qed.

(** Insertion of a name the store already holds. *)
Lemma save_user_existing (w : World) (user existing : User) :
  get_user_by_username (repository w) (username user) = Some existing ->
  save_user user w =
    (Raise (Exn ValueError (lit "用户名 '" ++ username user ++ lit "' 已存在")), w).
Proof.
  intros H. unfold save_user, bind, get_repository.
  destruct (_data_model (repository w)) as [dm|] eqn:Hdm.
  - simpl. rewrite H. reflexivity.
  - unfold get_user_by_username in H. rewrite Hdm in H. discriminate.
Qed.

(** Insertion of a new name for a user that carries no id. *)
Lemma save_user_fresh (w : World) (user : User) (dm : DataModel) :
  _data_model (repository w) = Some dm ->
  find_user (username user) (users dm) = None ->
  id user = None ->
  let n := _next_user_id (repository w) in
  let stored := set_id user (Some n) in
  repository (snd (save_user user w)) =
    mkFileRepository (Some (set_users dm (users dm ++ [stored])))
                     (_data_key (repository w)) (n + 1) /\
  (forall u', fst (save_user user w) = Ok u' -> u' = stored).
Proof.
  intros Hdm Hfind Hid n stored.
  unfold save_user, bind, get_repository, get_user_by_username.
  rewrite Hdm, Hfind, Hid. simpl.
  match goal with
  | |- context [save_data ?w0] =>
    pose proof (save_data_repository w0) as Hrepo;
    destruct (save_data w0) as [[[]|e] w1]
  end; simpl in *; rewrite Hrepo; split; try reflexivity; intros u' H; inversion H; reflexivity.
Qed.

End Store.

Section StoreInvariants.
Context {P : Primitives}.

Lemma get_all_users_model (w : World) (dm : DataModel) :
  _data_model (repository w) = Some dm -> get_all_users (repository w) = users dm.
Proof. unfold get_all_users. now intros ->. Qed.

(** Uniqueness of usernames is kept by every mutation of the store. *)
Lemma save_user_keeps_unique (w : World) (user : User) :
  unique_usernames w -> unique_usernames (snd (save_user user w)).
Proof.
  intros Hu. unfold save_user, bind, get_repository.
  destruct (_data_model (repository w)) as [dm|] eqn:Hdm; [|exact Hu].
  unfold get_user_by_username. rewrite Hdm.
  destruct (find_user (username user) (users dm)) eqn:Hf; [exact Hu|].
  assert (Hgoal : forall stored, username stored = username user ->
     NoDup (usernames (users dm ++ [stored]))).
  { intros stored Hname. unfold unique_usernames in Hu.
    rewrite (get_all_users_model w Hdm) in Hu.
    unfold usernames in *. rewrite map_app. simpl.
    apply NoDup_app; [exact Hu | repeat constructor; simpl; tauto |].
    intros a Ha [Hb|[]]. subst a. rewrite Hname in Ha.
    apply find_user_none in Hf. contradiction. }
  destruct (id user) eqn:Hid; simpl;
    match goal with
    | |- context [save_data ?w0] =>
      pose proof (save_data_repository w0) as Hrepo;
      destruct (save_data w0) as [[[]|e] w1]
    end; simpl in *; unfold unique_usernames, get_all_users; rewrite Hrepo; simpl;
    apply Hgoal; reflexivity.
Qed.

Lemma update_user_keeps_unique (w : World) (user : User) :
  unique_usernames w -> unique_usernames (snd (update_user user w)).
Proof.
  intros Hu. unfold update_user, bind, get_repository.
  destruct (_data_model (repository w)) as [dm|] eqn:Hdm; [|exact Hu].
  destruct (replace_user user (users dm)) as [us|] eqn:Hr; [|exact Hu].
  simpl.
  match goal with
  | |- context [save_data ?w0] =>
    pose proof (save_data_repository w0) as Hrepo;
    destruct (save_data w0) as [[[]|e] w1]
  end; simpl in *; unfold unique_usernames, get_all_users; rewrite Hrepo; simpl;
    rewrite (replace_user_names _ _ Hr);
    unfold unique_usernames in Hu; now rewrite (get_all_users_model w Hdm) in Hu.
Qed.

Lemma delete_user_keeps_unique (w : World) (name : str) :
  unique_usernames w -> unique_usernames (snd (delete_user name w)).
Proof.
  intros Hu. unfold delete_user, bind, get_repository.
  destruct (_data_model (repository w)) as [dm|] eqn:Hdm; [|exact Hu].
  destruct (remove_user name (users dm)) as [us|] eqn:Hr; [|exact Hu].
  simpl.
  match goal with
  | |- context [save_data ?w0] =>
    pose proof (save_data_repository w0) as Hrepo;
    destruct (save_data w0) as [[[]|e] w1]
  end; simpl in *; unfold unique_usernames, get_all_users; rewrite Hrepo; simpl;
    apply (remove_user_sub _ _ Hr);
    unfold unique_usernames in Hu; now rewrite (get_all_users_model w Hdm) in Hu.
Qed.

(** C6.  In every store state (usernames unique, as every mutation keeps
    them) that holds a user named as [user], [save_user user] fails with
    the duplicate-username error and changes nothing: the store afterwards
    is the store before and holds exactly one user of that name.
    [register_user], which tests for the name first, answers the
    duplicate-username failure and changes nothing either. *)
Theorem duplicate_username_rejected (w : World) (user : User) :
  unique_usernames w ->
  In (username user) (usernames (get_all_users (repository w))) ->
  (exists w',
     save_user user w =
       (Raise (Exn ValueError (lit "用户名 '" ++ username user ++ lit "' 已存在")), w') /\
     w' = w /\
     count_username (username user) (get_all_users (repository w')) = 1) /\
  (forall name password,
     strip name = username user -> username user <> [] ->
     6 <= List.length password ->
     register_user name password w =
       (Ok (mkAuthResult false (lit "用户名 '" ++ username user ++ lit "' 已存在") None), w)).
Proof.
  intros Huniq Hin.
  destruct (find_user_in _ _ Hin) as [existing Hex].
  assert (Hget : get_user_by_username (repository w) (username user) = Some existing).
  { unfold get_user_by_username, get_all_users in *.
    destruct (_data_model (repository w)); [exact Hex | discriminate]. }
  split.
  - exists w. split; [now apply save_user_existing with existing|].
    split; [reflexivity|]. now apply count_username_unique.
  - intros name password Hname Hne Hlen.
    unfold register_user, try_except, bind, get_repository.
    assert (Hn : str_empty name = false).
    { destruct name; [|reflexivity]. exfalso. apply Hne. rewrite <- Hname. reflexivity. }
    rewrite Hn, Hname, (str_empty_false Hne). simpl.
    assert (Hp : str_empty password = false) by (destruct password; simpl in *; [lia | reflexivity]).
    rewrite Hp. simpl.
    assert (Hl : (List.length password <? 6) = false) by (apply Nat.ltb_ge; lia).
    rewrite Hl, Hget. reflexivity.
Qed.

(** *** Id assignment *)

Lemma ids_below_mono (n m : Z) (us : list User) :
  (n <= m)%Z -> ids_below n us -> ids_below m us.
Proof. intros Hnm H u i Hin Hid. specialize (H u i Hin Hid). lia. Qed.














End StoreInvariants.

(** ** Usernames and whitespace *)

Lemma lstrip_head (s : str) (c : codepoint) (r : str) :
  lstrip s = c :: r -> isspace c = false.
Proof.
  induction s as [|a t IH]; simpl; [discriminate|].
  destruct (isspace a) eqn:E; [exact IH|].
  intros H; inversion H; subst; exact E.
Qed.

Lemma lstrip_suffix (s : str) : exists p, s = p ++ lstrip s.
Proof.
  induction s as [|a t [p IH]]; simpl.
  - now exists [].
  - destruct (isspace a).
    + exists (a :: p). simpl. now f_equal.
    + now exists [].
Qed.

Lemma lstrip_fixed (s : str) :
  (forall c r, s = c :: r -> isspace c = false) -> lstrip s = s.
Proof.
  destruct s as [|a t]; [reflexivity|]. intros H. simpl.
  now rewrite (H a t eq_refl).
Qed.

Lemma rstrip_prefix (s : str) : exists q, s = rstrip s ++ q.
Proof.
  unfold rstrip. destruct (lstrip_suffix (rev s)) as [p Hp].
  exists (rev p). rewrite <- rev_app_distr, <- Hp. now rewrite rev_involutive.
Qed.

Lemma strip_no_outer_whitespace (s : str) : no_outer_whitespace (strip s).
Proof.
  unfold strip. split.
  - intros c r H. destruct (rstrip_prefix (lstrip s)) as [q Hq].
    rewrite H in Hq. simpl in Hq. now apply lstrip_head in Hq.
  - intros c r H. unfold rstrip in H.
    apply (f_equal (@rev codepoint)) in H.
    rewrite rev_involutive, rev_app_distr in H. simpl in H.
    now apply lstrip_head in H.
Qed.

Lemma strip_fixed (s : str) : no_outer_whitespace s -> strip s = s.
Proof.
  intros [Hhead Hlast]. unfold strip. rewrite (lstrip_fixed Hhead).
  unfold rstrip. rewrite lstrip_fixed; [apply rev_involutive|].
  intros c r H. apply (Hlast c (rev r)).
  rewrite <- (rev_involutive s), H. reflexivity.
Qed.

Lemma strip_idempotent (s : str) : strip (strip s) = strip s.
Proof. apply strip_fixed, strip_no_outer_whitespace. Qed.

Section Usernames.
Context {P : Primitives}.


End Usernames.

(** ** Operations that do not touch the face environment *)

Lemma with_face_env_same (w : World) : with_face_env w (face_env w) = w.
Proof. destruct w; reflexivity. Qed.

Lemma face_blind_ret {A} (a : A) : face_blind (ret a).
Proof. intros w f; reflexivity. Qed.

Lemma face_blind_raise {A} (e : exn) : face_blind (@raise A e).
Proof. intros w f; reflexivity. Qed.

Lemma face_blind_lift {A} (r : result A) : face_blind (lift r).
Proof. intros w f; reflexivity. Qed.

Lemma face_blind_bind {A B} (c : M A) (k : A -> M B) :
  face_blind c -> (forall a, face_blind (k a)) -> face_blind (bind c k).
Proof.
  intros Hc Hk w f. unfold bind. rewrite Hc.
  destruct (c w) as [[a|e] w1]; simpl; [apply Hk | reflexivity].
Qed.

Lemma face_blind_try_except {A} (c : M A) (h : exn -> M A) :
  face_blind c -> (forall e, face_blind (h e)) -> face_blind (try_except c h).
Proof.
  intros Hc Hh w f. unfold try_except. rewrite Hc.
  destruct (c w) as [[a|e] w1]; simpl; [reflexivity | apply Hh].
Qed.

Lemma face_blind_log_auth_event (name result reason : str) :
  face_blind (log_auth_event name result reason).
Proof. intros w f; reflexivity. Qed.

Lemma face_blind_os_urandom (n : nat) : face_blind (os_urandom n).
Proof. intros w f; reflexivity. Qed.

Section FaceBlind.
Context {P : Primitives}.

Lemma face_blind_get_repository : face_blind get_repository.
Proof. intros w f; reflexivity. Qed.

Lemma face_blind_set_data_model (dm : option DataModel) : face_blind (set_data_model dm).
Proof. intros w f; reflexivity. Qed.

Lemma face_blind_write_data_bin (content : bytes) : face_blind (write_data_bin content).
Proof. intros w f; reflexivity. Qed.

(** Decomposes a computation along its binds, handlers and branches. *)
Ltac face_blind_step :=
  first
    [ apply face_blind_ret | apply face_blind_raise | apply face_blind_lift
    | apply face_blind_get_repository | apply face_blind_set_data_model
    | apply face_blind_write_data_bin | apply face_blind_os_urandom
    | apply face_blind_log_auth_event
    | apply face_blind_bind; [|intros ?]
    | apply face_blind_try_except; [|intros ?]
    | match goal with
      | |- face_blind (if ?b then _ else _) => destruct b
      | |- face_blind (match ?x with _ => _ end) => destruct x
      end ].

Lemma face_blind_encrypt_aes_gcm (key plaintext : bytes) (aad : option bytes) :
  face_blind (encrypt_aes_gcm key plaintext aad).
Proof. unfold encrypt_aes_gcm. repeat face_blind_step. Qed.

Lemma face_blind_save_data : face_blind save_data.
Proof.
  unfold save_data. apply face_blind_bind; [apply face_blind_get_repository|].
  intros self. destruct (_data_model self); [|apply face_blind_raise].
  destruct (_data_key self); [|apply face_blind_raise].
  apply face_blind_bind; [apply face_blind_encrypt_aes_gcm|].
  intros [[iv ciphertext] tag]. apply face_blind_write_data_bin.
Qed.




End FaceBlind.

(** ** The face factor when the compare service fails *)

Section FaceFactor.
Context {P : Primitives}.

(** An exception raised between the decoding of the two images and the
    answer of the compare service is swallowed by [compute_distance], which
    answers the largest distance. *)
Lemma compute_distance_service_error
      (w : World) (vec1 vec2 : list json) (image1 image2 : bytes) (e : exn) :
  is_facepp_marker vec1 = true -> is_facepp_marker vec2 = true ->
  FACEPP_AVAILABLE w = true ->
  hex_payload vec1 = Ok image1 -> hex_payload vec2 = Ok image2 ->
  compare_faces_facepp w image1 image2 = Raise e ->
  compute_distance vec1 vec2 w = (Ok 1%float, w).
Proof.
  intros H1 H2 Hav Hx1 Hx2 Herr.
  unfold compute_distance, bind, get_world, try_except, lift.
  rewrite H1, H2. simpl. rewrite Hav, Hx1, Hx2, Herr. reflexivity.
Qed.

(** C9 (amended).  When the compare service raises an error during a login
    whose password factor passed, [compute_distance] answers distance 1 and,
    for every threshold below 1, [authenticate_user] ends in the ordinary
    face-mismatch failure: the mismatch message with distance 1 and a
    FAIL_FACE_MISMATCH event after the SUCCESS event of the password
    factor.  The error is not reported as a kind of its own. *)
Theorem service_error_is_face_mismatch
        (w : World) (username password : str) (u : User) (salt_bytes : bytes)
        (stored_face current_face : list json) (image1 image2 : bytes) (e : exn) :
  username <> [] -> password <> [] ->
  get_user_by_username (repository w) (strip username) = Some u ->
  b64decode (salt u) = Ok salt_bytes ->
  b64encode (derive_key_from_password password salt_bytes PBKDF2_ITERATIONS)
    = password_hash u ->
  force_mfa (get_system_config (repository w)) = true ->
  face_enabled u = true ->
  face_embedding u = Some stored_face ->
  CV2_AVAILABLE w = true -> FACEPP_AVAILABLE w = true ->
  camera w (camera_pos w) = Ok current_face ->
  is_facepp_marker stored_face = true -> is_facepp_marker current_face = true ->
  hex_payload stored_face = Ok image1 -> hex_payload current_face = Ok image2 ->
  compare_faces_facepp w image1 image2 = Raise e ->
  (face_threshold (get_system_config (repository w)) <? 1)%float = true ->
  let threshold := face_threshold (get_system_config (repository w)) in
  let run := authenticate_user username password w in
  fst run =
    Ok (mkAuthResult false
          (lit "人脸验证失败 (距离=" ++ format_4f 1%float ++ lit " > "
             ++ format_float threshold ++ lit ")") None) /\
  auth_log (snd run) =
    auth_log w ++
      [mkLogEntry (strip username) AuthEvent.SUCCESS (lit "登录成功");
       mkLogEntry username AuthEvent.FAIL_FACE_MISMATCH (lit "人脸比对失败")].
Proof.
  intros Hu Hp Hsome Hsalt Heq Hmfa Hen Hemb Hcv Hfp Hcam Hm1 Hm2 Hx1 Hx2 Herr Hthr.
  assert (Hface : face_not_enrolled u = false).
  { unfold face_not_enrolled. rewrite Hen, Hemb.
    destruct stored_face; [discriminate | reflexivity]. }
  assert (Hcmp : (1 <=? face_threshold (get_system_config (repository w)))%float = false)
    by exact (float_ltb_not_leb Hthr).
  simpl. unfold authenticate_user, try_except, bind.
  rewrite (authenticate_password_only_correct w Hu Hp Hsome Hsalt Heq).
  unfold get_repository. simpl. rewrite Hmfa, Hface. simpl.
  unfold capture_or_fail, is_face_recognition_available, bind, get_world,
    try_except_class, try_except, capture_and_extract_face.
  simpl. rewrite Hcv, Hfp. simpl. rewrite Hcam. simpl. rewrite Hemb.
  match goal with
  | |- context [compute_distance stored_face current_face ?w0] =>
    rewrite (@compute_distance_service_error w0 stored_face current_face
               image1 image2 e Hm1 Hm2 Hfp Hx1 Hx2 Herr)
  end.
  simpl. rewrite Hcmp. simpl. unfold log_append. simpl.
  rewrite <- app_assoc. split; reflexivity.
Qed.

End FaceFactor.

(** ** The id counter after loading *)

Lemma fold_left_max_ge (r : list Z) : forall x : Z,
  (x <= fold_left Z.max r x)%Z /\
  (forall y, In y r -> (y <= fold_left Z.max r x)%Z).
Proof.
  induction r as [|a t IH]; intros x; simpl.
  - split; [lia | tauto].
  - destruct (IH (Z.max x a)) as [H1 H2]. split; [lia|].
    intros y [<-|Hin]; [lia | auto].
Qed.

Lemma py_max_upper_bound (xs : list Z) (m : Z) :
  py_max xs = Ok m -> forall x, In x xs -> (x <= m)%Z.
Proof.
  destruct xs as [|a r]; simpl; [discriminate|].
  intros H x Hin. inversion H; subst.
  destruct (fold_left_max_ge r a) as [H1 H2].
  destruct Hin as [<-|Hin]; auto.
Qed.

Lemma truthy_ids_in (us : list User) (u : User) (i : Z) :
  In u us -> id u = Some i -> i <> 0%Z -> In i (truthy_ids us).
Proof.
  induction us as [|x r IH]; simpl; [tauto|].
  intros [->|Hin] Hid Hnz.
  - rewrite Hid. destruct (i =? 0)%Z eqn:E; [apply Z.eqb_eq in E; contradiction|].
    simpl. now left.
  - destruct (id x) as [j|]; [|auto].
    destruct (negb (j =? 0)%Z); [right|]; auto.
Qed.

Section LoadCounter.
Context {P : Primitives}.

(** After a [load_data] that returned, the id counter is above every
    non-zero id of the loaded users: it is 1 + the greatest of them, or was
    left alone when no user was loaded. *)
Lemma load_data_counter_above_ids (w w' : World) (data_key : bytes) :
  load_data data_key w = (Ok tt, w') ->
  forall u i, In u (get_all_users (repository w')) -> id u = Some i ->
              i <> 0%Z -> (i < _next_user_id (repository w'))%Z.
Proof.
  unfold load_data, bind, set_data_key, get_world. simpl.
  destruct (data_bin w) as [encrypted_data|].
  - destruct (List.length encrypted_data <? 28); [discriminate|].
    unfold try_except_class, try_except, bind, lift.
    destruct (decrypt_aes_gcm _ _ _ _ _) as [plaintext|e].
    2:{ simpl. destruct (exn_kind_eqb _ _); discriminate. }
    destruct (bytes_decode_utf8 plaintext) as [json_text|e].
    2:{ simpl. destruct (exn_kind_eqb _ _); discriminate. }
    destruct (json_loads json_text) as [data_dict|e].
    2:{ simpl. destruct (exn_kind_eqb _ _); discriminate. }
    destruct (SchemaMigration.migrate data_dict) as [migrated|e].
    2:{ simpl. destruct (exn_kind_eqb _ _); discriminate. }
    destruct (DataModel_from_dict migrated) as [dm|e].
    2:{ simpl. destruct (exn_kind_eqb _ _); discriminate. }
    simpl. destruct (users dm) as [|first others] eqn:Husers.
    + simpl. intros H; inversion H; subst.
      unfold get_all_users. simpl. rewrite Husers. intros u i [].
    + destruct (py_max (truthy_ids (first :: others))) as [max_id|e] eqn:Hmax.
      2:{ simpl. destruct (exn_kind_eqb _ _); discriminate. }
      simpl. intros H; inversion H; subst.
      unfold get_all_users. simpl. rewrite Husers.
      intros u i Hin Hid Hnz.
      pose proof (truthy_ids_in _ _ Hin Hid Hnz) as Hmem.
      pose proof (@py_max_upper_bound _ _ Hmax i Hmem). lia.
  - simpl.
    match goal with
    | |- context [save_data ?w0] =>
      pose proof (save_data_repository w0) as Hrepo;
      destruct (save_data w0) as [[[]|e] w1]
    end; simpl in *; intros H; inversion H; subst.
    unfold get_all_users. rewrite Hrepo. simpl. intros u i [].
Qed.

(** Hence the hypothesis of the id theorem holds after loading a store
    whose ids are positive. *)
Lemma load_data_store_wf (w w' : World) (data_key : bytes) :
  load_data data_key w = (Ok tt, w') ->
  (forall u i, In u (get_all_users (repository w')) -> id u = Some i -> (0 < i)%Z) ->
  store_wf w'.
Proof.
  intros Hload Hpos u i Hin Hid.
  apply (@load_data_counter_above_ids w w' data_key Hload u i Hin Hid).
  specialize (Hpos u i Hin Hid). lia.
Qed.

End LoadCounter.

(** * The properties on concrete runs *)

Import Run.

Ltac run := vm_compute; repeat split; try reflexivity; try discriminate.

(** C1 (counterexample).  Force-MFA is on, carol registered without a face
    and logs in with her password: the attempt fails with the
    MFA-required message, and the one event written for it has kind
    SUCCESS. *)
Lemma success_logged_for_rejected_login :
  force_mfa (get_system_config (repository carol_world)) = true /\
  option_map face_embedding
    (get_user_by_username (repository carol_world) (lit "carol")) = Some None /\
  succeeded (outcome (authenticate_user (lit "carol") (lit "secret1")) carol_world)
    = false /\
  message_of (outcome (authenticate_user (lit "carol") (lit "secret1")) carol_world)
    = Some (lit "系统要求双因素认证，但用户未录入人脸") /\
  logged (authenticate_user (lit "carol") (lit "secret1")) carol_world
    = [mkLogEntry (lit "carol") AuthEvent.SUCCESS (lit "登录成功")].
Proof. run. Qed.

(** C1 (amended) on carol's login, the username typed with blanks around. *)
Lemma mfa_required_but_not_enrolled_witness :
  authenticate_user (lit " carol ") (lit "secret1") carol_world =
    (Ok (mkAuthResult false (lit "系统要求双因素认证，但用户未录入人脸") None),
     log_append carol_world (strip (lit " carol ")) AuthEvent.SUCCESS (lit "登录成功")).
Proof.
  eapply (@mfa_required_but_not_enrolled run_primitives carol_world
            (lit " carol ") (lit "secret1")).
  - discriminate.
  - discriminate.
  - vm_compute. reflexivity.
  - vm_compute. reflexivity.
  - vm_compute. reflexivity.
  - vm_compute. reflexivity.
  - vm_compute. reflexivity.
Defined.


(** C3 (counterexample).  The last byte of the file of alice's store is
    overwritten.  A new process that loads the file gets [InvalidTag]; its
    callers then do get a user list, the empty one, which is what an empty
    store answers, and alice is reported as not found.  A process that had
    loaded the store before and loads the overwritten file gets
    [InvalidTag] too and goes on serving the list it held, with alice in
    it.  [init_data] on the overwritten file returns normally. *)
Lemma failed_load_still_answers_user_list :
  (fst (load_data key32 (restarted (tampered alice_world))) = Raise (Exn InvalidTag []) /\
   get_all_users
     (repository (after (load_data key32) (restarted (tampered alice_world)))) = [] /\
   get_all_users (repository (world0 no_match)) = [] /\
   get_user_by_username
     (repository (after (load_data key32) (restarted (tampered alice_world))))
     (lit "alice") = None) /\
  (fst (load_data key32 (tampered alice_world)) = Raise (Exn InvalidTag []) /\
   usernames (get_all_users (repository (after (load_data key32) (tampered alice_world))))
     = [lit "alice"]) /\
  (fst (main.init_data Cases.tampered_system) = Ok tt /\
   get_all_users (repository (world (snd (main.init_data Cases.tampered_system)))) = []).
Proof. run. Qed.

(** C3 (amended) on that file, loaded by a new process. *)
Lemma load_data_integrity_failure_witness :
  load_data key32 (restarted (tampered alice_world)) =
    (Raise (Exn InvalidTag []),
     with_repository (restarted (tampered alice_world))
       (mkFileRepository None (Some key32) 1)) /\
  get_all_users
    (repository (with_repository (restarted (tampered alice_world))
                   (mkFileRepository None (Some key32) 1))) = [] /\
  (forall user,
     save_user user
       (with_repository (restarted (tampered alice_world))
          (mkFileRepository None (Some key32) 1)) =
       (Raise (Exn ValueError (lit "数据模型未初始化")),
        with_repository (restarted (tampered alice_world))
          (mkFileRepository None (Some key32) 1))).
Proof.
  destruct (@load_data_integrity_failure run_primitives
              (restarted (tampered alice_world)) key32
              (repeat x07 12 ++ repeat x01 15 ++ [xff]) (Exn InvalidTag []))
    as [Hload [_ [_ [_ [_ [_ Hnone]]]]]].
  - vm_compute. reflexivity.
  - vm_compute. lia.
  - vm_compute. reflexivity.
  - reflexivity.
  - destruct Hnone as [Hall [_ [Hsave _]]]; [reflexivity|].
    split; [exact Hload|]. split; [exact Hall | exact Hsave].
Defined.

(** The executable instance obeys the two laws assumed of AES-GCM. *)
Lemma run_AESGCM_encrypt_length (key iv data : bytes) (aad : option bytes) :
  List.length (AESGCM_encrypt key iv data aad) = List.length data + 16.
Proof.
  simpl. unfold tag_of_key.
  rewrite length_app, length_firstn, length_app, repeat_length. lia.
Qed.

Lemma run_AESGCM_decrypt_encrypt (key iv data : bytes) (aad : option bytes) :
  List.length key = 32 -> List.length iv = 12 ->
  AESGCM_decrypt key iv (AESGCM_encrypt key iv data aad) aad = Ok data.
Proof.
  intros _ _. simpl.
  assert (Htag : List.length (tag_of_key key) = 16).
  { unfold tag_of_key. rewrite length_firstn, length_app, repeat_length. lia. }
  unfold slice_from_neg, slice_to_neg. rewrite length_app, Htag.
  replace (List.length data + 16 - 16) with (List.length data) by lia.
  rewrite skipn_app_exact, firstn_app_exact by reflexivity.
  unfold bytes_eqb. destruct (list_eq_dec byte_eq_dec _ _); [reflexivity | congruence].
Qed.

(** C4 on a two-byte plaintext. *)
Lemma decrypt_encrypt_roundtrip_witness :
  exists iv ciphertext tag w',
    encrypt_aes_gcm key32 [x68; x69] None (world0 no_match)
      = (Ok (iv, ciphertext, tag), w') /\
    List.length iv = 12 /\ List.length tag = 16 /\
    List.length ciphertext = 2 /\
    decrypt_aes_gcm key32 iv ciphertext tag None = Ok [x68; x69].
Proof.
  apply (@decrypt_encrypt_roundtrip run_primitives
           run_AESGCM_encrypt_length run_AESGCM_decrypt_encrypt
           key32 [x68; x69] None (world0 no_match)).
  reflexivity.
Defined.

(** C6 on a second alice. *)
Lemma duplicate_username_rejected_witness :
  (exists w',
     save_user (new_user (lit "alice")) alice_world =
       (Raise (Exn ValueError (lit "用户名 '" ++ lit "alice" ++ lit "' 已存在")), w') /\
     w' = alice_world /\
     count_username (lit "alice") (get_all_users (repository w')) = 1) /\
  register_user (lit "alice ") (lit "another1") alice_world =
    (Ok (mkAuthResult false (lit "用户名 '" ++ lit "alice" ++ lit "' 已存在") None),
     alice_world).
Proof.
  destruct (@duplicate_username_rejected run_primitives alice_world
              (new_user (lit "alice"))) as [Hstore Hreg].
  - vm_compute. constructor; [intros [] | constructor].
  - vm_compute. left. reflexivity.
  - split; [exact Hstore|].
    apply Hreg; [reflexivity | discriminate | simpl; lia].
Defined.

(** alice holds id 1; dave is inserted, deleted and inserted again, then
    erin is inserted: the ids received are 2, 3 and 4. *)
Example reinserted_user_gets_next_id :
  _next_user_id (repository alice_world) = 2%Z /\
  fst (run_ops dave_ops alice_world) = [2; 3; 4]%Z.
Proof. run. Qed.



(** C9 (counterexample).  erin has a face enrolled and the compare service
    raises an error.  With the threshold 1/2 the login fails exactly as it
    does when the service finds no resemblance: same result, same events,
    the last of kind FAIL_FACE_MISMATCH.  With the threshold 1 the login
    succeeds. *)
Lemma service_error_not_distinguished_and_may_pass :
  (outcome (authenticate_user (lit "erin") (lit "secret1")) erin_world_service_down
     = outcome (authenticate_user (lit "erin") (lit "secret1")) erin_world /\
   logged (authenticate_user (lit "erin") (lit "secret1")) erin_world_service_down
     = logged (authenticate_user (lit "erin") (lit "secret1")) erin_world /\
   List.map log_result
     (logged (authenticate_user (lit "erin") (lit "secret1")) erin_world_service_down)
     = [AuthEvent.SUCCESS; AuthEvent.FAIL_FACE_MISMATCH]) /\
  (face_threshold (get_system_config
                     (repository (set_threshold 1 erin_world_service_down))) = 1%float /\
   succeeded (outcome (authenticate_user (lit "erin") (lit "secret1"))
                      (set_threshold 1 erin_world_service_down)) = true).
Proof. run. Qed.

(** C9 (amended) on erin's login with the default threshold 1/2. *)
Lemma service_error_is_face_mismatch_witness :
  fst (authenticate_user (lit "erin") (lit "secret1") erin_world_service_down) =
    Ok (mkAuthResult false
          (lit "人脸验证失败 (距离=" ++ format_4f 1%float ++ lit " > "
             ++ format_float 0.5%float ++ lit ")") None) /\
  auth_log (snd (authenticate_user (lit "erin") (lit "secret1") erin_world_service_down)) =
    auth_log erin_world_service_down ++
      [mkLogEntry (strip (lit "erin")) AuthEvent.SUCCESS (lit "登录成功");
       mkLogEntry (lit "erin") AuthEvent.FAIL_FACE_MISMATCH (lit "人脸比对失败")].
Proof.
  eapply (@service_error_is_face_mismatch run_primitives erin_world_service_down
            (lit "erin") (lit "secret1")).
  - discriminate.
  - discriminate.
  - vm_compute. reflexivity.
  - vm_compute. reflexivity.
  - vm_compute. reflexivity.
  - vm_compute. reflexivity.
  - vm_compute. reflexivity.
  - vm_compute. reflexivity.
  - vm_compute. reflexivity.
  - vm_compute. reflexivity.
  - vm_compute. reflexivity.
  - vm_compute. reflexivity.
  - vm_compute. reflexivity.
  - vm_compute. reflexivity.
  - vm_compute. reflexivity.
  - vm_compute. reflexivity.
  - vm_compute. reflexivity.
Defined.

(** * Further properties of the sources *)

(** ** The store operations one by one *)

Lemma find_user_app (name : str) (us l : list User) :
  find_user name (us ++ l) =
  match find_user name us with
  | Some u => Some u
  | None => find_user name l
  end.
Proof.
  induction us as [|x r IH]; simpl; [reflexivity|].
  destruct (str_eqb (username x) name); [reflexivity | exact IH].
Qed.

Lemma remove_user_some (name : str) (us : list User) :
  In name (usernames us) -> exists us', remove_user name us = Some us'.
Proof.
  induction us as [|x r IH]; simpl; [tauto|].
  intros Hin. destruct (str_eqb (username x) name) eqn:E; [eauto|].
  apply str_eqb_neq in E. destruct Hin as [Hin|Hin]; [congruence|].
  destruct (IH Hin) as [r' ->]. eauto.
Qed.

Lemma remove_user_none (name : str) (us : list User) :
  ~ In name (usernames us) -> remove_user name us = None.
Proof.
  induction us as [|x r IH]; simpl; [reflexivity|].
  intros Hnot. destruct (str_eqb (username x) name) eqn:E.
  - apply str_eqb_eq in E. exfalso. apply Hnot. now left.
  - rewrite IH; [reflexivity|]. intros Hin. apply Hnot. now right.
Qed.

Lemma remove_user_find_other (name other : str) (us us' : list User) :
  remove_user name us = Some us' -> other <> name ->
  find_user other us' = find_user other us.
Proof.
  revert us'. induction us as [|x r IH]; simpl; intros us' H Hne; [discriminate|].
  destruct (str_eqb (username x) name) eqn:E.
  - inversion H; subst. apply str_eqb_eq in E.
    destruct (str_eqb (username x) other) eqn:E2; [|reflexivity].
    apply str_eqb_eq in E2. congruence.
  - destruct (remove_user name r) as [r'|]; [|discriminate].
    inversion H; subst. simpl.
    destruct (str_eqb (username x) other); [reflexivity | now apply IH].
Qed.

Lemma remove_user_find_self (name : str) (us us' : list User) :
  NoDup (usernames us) -> remove_user name us = Some us' ->
  find_user name us' = None.
Proof.
  revert us'. induction us as [|x r IH]; simpl; intros us' Hnd H; [discriminate|].
  inversion Hnd as [|? ? Hnotin Hnd']; subst.
  destruct (str_eqb (username x) name) eqn:E.
  - inversion H; subst. apply str_eqb_eq in E. subst.
    now apply find_user_none.
  - destruct (remove_user name r) as [r'|]; [|discriminate].
    inversion H; subst. simpl. rewrite E. now apply IH.
Qed.

Lemma remove_user_length (name : str) (us us' : list User) :
  remove_user name us = Some us' -> S (List.length us') = List.length us.
Proof.
  revert us'. induction us as [|x r IH]; simpl; intros us' H; [discriminate|].
  destruct (str_eqb (username x) name).
  - now inversion H.
  - destruct (remove_user name r) as [r'|]; [|discriminate].
    inversion H; subst. simpl. f_equal. now apply IH.
Qed.

Lemma replace_user_some (user old : User) (us : list User) :
  find_user (username user) us = Some old ->
  exists us', replace_user user us = Some us'.
Proof.
  induction us as [|x r IH]; simpl; [discriminate|].
  destruct (str_eqb (username x) (username user)); [eauto|].
  intros H. destruct (IH H) as [r' ->]. eauto.
Qed.

Lemma replace_user_none (user : User) (us : list User) :
  find_user (username user) us = None -> replace_user user us = None.
Proof.
  induction us as [|x r IH]; simpl; [reflexivity|].
  destruct (str_eqb (username x) (username user)); [discriminate|].
  intros H. now rewrite IH.
Qed.

Lemma replace_user_find (user : User) (name : str) (us us' : list User) :
  replace_user user us = Some us' ->
  find_user name us' =
  if str_eqb (username user) name then Some user else find_user name us.
Proof.
  revert us'. induction us as [|x r IH]; simpl; intros us' H; [discriminate|].
  destruct (str_eqb (username x) (username user)) eqn:E.
  - inversion H; subst. simpl. apply str_eqb_eq in E. rewrite E.
    destruct (str_eqb (username user) name); reflexivity.
  - destruct (replace_user user r) as [r'|]; [|discriminate].
    inversion H; subst. simpl.
    destruct (str_eqb (username x) name) eqn:E2.
    + apply str_eqb_eq in E2. subst.
      destruct (str_eqb (username user) (username x)) eqn:E3; [|reflexivity].
      apply str_eqb_eq in E3. rewrite E3, str_eqb_refl in E. discriminate.
    + now apply IH.
Qed.

Section StoreOperations.
Context {P : Primitives}.

(** What a mutation leaves in the repository once the list was assigned:
    [save_data] does not touch it. *)
Lemma after_assign_and_save (w : World) (dm : DataModel) :
  repository (snd ((set_data_model (Some dm) ;;; save_data)%M w)) =
    mkFileRepository (Some dm) (_data_key (repository w)) (_next_user_id (repository w)).
Proof.
  unfold bind, set_data_model. simpl.
  match goal with
  | |- context [save_data ?w0] =>
    pose proof (save_data_repository w0) as Hrepo;
    destruct (save_data w0) as [[[]|e] w1]
  end; simpl in *; exact Hrepo.
Qed.

(** X1.  Inserting a user that carries no id under a name the store does
    not hold appends it with the current value of the counter as id and
    advances the counter; the user is then found under its name, and every
    other name finds what it found before. *)
Theorem save_user_then_lookup (w : World) (user : User) (dm : DataModel) :
  _data_model (repository w) = Some dm ->
  find_user (username user) (users dm) = None ->
  id user = None ->
  let stored := set_id user (Some (_next_user_id (repository w))) in
  let w' := snd (save_user user w) in
  get_all_users (repository w') = users dm ++ [stored] /\
  _next_user_id (repository w') = (_next_user_id (repository w) + 1)%Z /\
  get_user_by_username (repository w') (username user) = Some stored /\
  (forall name, name <> username user ->
     get_user_by_username (repository w') name
       = get_user_by_username (repository w) name) /\
  (forall returned, fst (save_user user w) = Ok returned -> returned = stored).
Proof.
  intros Hdm Hfind Hid. simpl.
  destruct (save_user_fresh w user Hdm Hfind Hid) as [Hrepo Hres].
  unfold get_all_users, get_user_by_username. rewrite Hrepo. simpl.
  split; [reflexivity|]. split; [reflexivity|]. split; [|split; [|exact Hres]].
  - now apply find_user_app_new.
  - intros name Hne. rewrite Hdm, find_user_app.
    destruct (find_user name (users dm)); [reflexivity|]. simpl.
    destruct (str_eqb (username user) name) eqn:E; [|reflexivity].
    apply str_eqb_eq in E. congruence.
Qed.

(** X2.  A user handed to [save_user] with an id keeps that id, whatever the
    counter is, and the counter is not advanced. *)
Theorem save_user_keeps_given_id (w : World) (user : User) (dm : DataModel) (i : Z) :
  _data_model (repository w) = Some dm ->
  find_user (username user) (users dm) = None ->
  id user = Some i ->
  let w' := snd (save_user user w) in
  get_all_users (repository w') = users dm ++ [user] /\
  _next_user_id (repository w') = _next_user_id (repository w) /\
  get_user_by_username (repository w') (username user) = Some user.
Proof.
  intros Hdm Hfind Hid. simpl.
  assert (Hrepo : repository (snd (save_user user w)) =
            mkFileRepository (Some (set_users dm (users dm ++ [user])))
              (_data_key (repository w)) (_next_user_id (repository w))).
  { unfold save_user, bind, get_repository, get_user_by_username.
    rewrite Hdm, Hfind, Hid. simpl.
    match goal with
    | |- context [save_data ?w0] =>
      pose proof (save_data_repository w0) as Hrepo;
      destruct (save_data w0) as [[[]|e] w1]
    end; simpl in *; rewrite Hrepo; reflexivity. }
  unfold get_all_users, get_user_by_username. rewrite Hrepo. simpl.
  repeat split. now apply find_user_app_new.
Qed.

(** X3.  Deleting a name the store holds, in a store with unique usernames:
    the name is no longer found, every other name finds what it found
    before, one user less is held and the counter is as it was. *)
Theorem delete_user_then_lookup (w : World) (name : str) (dm : DataModel) :
  _data_model (repository w) = Some dm ->
  unique_usernames w ->
  In name (usernames (users dm)) ->
  let w' := snd (delete_user name w) in
  get_user_by_username (repository w') name = None /\
  (forall other, other <> name ->
     get_user_by_username (repository w') other
       = get_user_by_username (repository w) other) /\
  S (List.length (get_all_users (repository w'))) = List.length (users dm) /\
  _next_user_id (repository w') = _next_user_id (repository w).
Proof.
  intros Hdm Huniq Hin. simpl.
  destruct (@remove_user_some _ _ Hin) as [us' Hrem].
  assert (Hrepo : repository (snd (delete_user name w)) =
            mkFileRepository (Some (set_users dm us'))
              (_data_key (repository w)) (_next_user_id (repository w))).
  { unfold delete_user at 1. unfold bind at 1. unfold get_repository at 1.
    rewrite Hdm, Hrem. apply after_assign_and_save. }
  unfold unique_usernames in Huniq. rewrite (get_all_users_model w Hdm) in Huniq.
  unfold get_all_users, get_user_by_username. rewrite Hrepo. simpl.
  split; [eapply remove_user_find_self; eassumption|].
  split; [intros other Hne; rewrite Hdm; eapply remove_user_find_other; eassumption|].
  split; [eapply remove_user_length; eassumption | reflexivity].
Qed.

(** X4.  [update_user] and [delete_user] for a name the loaded store does
    not hold raise the not-found [ValueError] and change nothing. *)
Theorem unknown_user_is_an_error (w : World) (user : User) (name : str) (dm : DataModel) :
  _data_model (repository w) = Some dm ->
  (find_user (username user) (users dm) = None ->
   update_user user w =
     (Raise (Exn ValueError (lit "用户 '" ++ username user ++ lit "' 不存在")), w)) /\
  (find_user name (users dm) = None ->
   delete_user name w =
     (Raise (Exn ValueError (lit "用户 '" ++ name ++ lit "' 不存在")), w)).
Proof.
  intros Hdm. split; intros Hnone.
  - unfold update_user, bind, get_repository. rewrite Hdm.
    now rewrite (@replace_user_none _ _ Hnone).
  - unfold delete_user, bind, get_repository. rewrite Hdm.
    apply find_user_none in Hnone. now rewrite (@remove_user_none _ _ Hnone).
Qed.

(** X5.  [update_user] for a name the store holds puts the given record in
    the place of the first user of that name: the name now finds the given
    record, other names find what they found before, and the list keeps its
    usernames, their order and the counter. *)
Theorem update_user_then_lookup (w : World) (user old : User) (dm : DataModel) :
  _data_model (repository w) = Some dm ->
  find_user (username user) (users dm) = Some old ->
  let w' := snd (update_user user w) in
  get_user_by_username (repository w') (username user) = Some user /\
  (forall other, other <> username user ->
     get_user_by_username (repository w') other
       = get_user_by_username (repository w) other) /\
  usernames (get_all_users (repository w')) = usernames (users dm) /\
  _next_user_id (repository w') = _next_user_id (repository w).
Proof.
  intros Hdm Hold. simpl.
  destruct (@replace_user_some _ _ _ Hold) as [us' Hrep].
  assert (Hrepo : repository (snd (update_user user w)) =
            mkFileRepository (Some (set_users dm us'))
              (_data_key (repository w)) (_next_user_id (repository w))).
  { unfold update_user at 1. unfold bind at 1. unfold get_repository at 1.
    rewrite Hdm, Hrep. apply after_assign_and_save. }
  unfold get_all_users, get_user_by_username. rewrite Hrepo. simpl.
  split; [|split; [|split; [now apply replace_user_names with user | reflexivity]]].
  - rewrite (@replace_user_find user (username user) _ _ Hrep). now rewrite str_eqb_refl.
  - intros other Hne. rewrite Hdm, (@replace_user_find user other _ _ Hrep).
    destruct (str_eqb (username user) other) eqn:E; [|reflexivity].
    apply str_eqb_eq in E. congruence.
Qed.

(** X6.  A repository into which nothing was loaded refuses every mutation
    with the same [ValueError] and changes nothing, while its read
    operations answer as an empty store with the default configuration
    would: no user, an empty list, force-MFA on and threshold 1/2. *)
Theorem unloaded_repository (w : World) :
  _data_model (repository w) = None ->
  let refused := Exn ValueError (lit "数据模型未初始化") in
  (forall user, save_user user w = (Raise refused, w)) /\
  (forall user, update_user user w = (Raise refused, w)) /\
  (forall name, delete_user name w = (Raise refused, w)) /\
  (forall c, save_system_config c w = (Raise refused, w)) /\
  save_data w = (Raise refused, w) /\
  (forall name, get_user_by_username (repository w) name = None) /\
  get_all_users (repository w) = [] /\
  get_system_config (repository w) = SystemConfig_default.
Proof.
  intros Hnone. simpl.
  unfold save_user, update_user, delete_user, save_system_config, save_data,
    bind, get_repository, get_user_by_username, get_all_users, get_system_config.
  rewrite Hnone. repeat split.
Qed.

End StoreOperations.

(** ** What the operations leave alone *)

#[local] Instance same_store_preorder : PreOrder same_store.
Proof.
  split.
  - intros w. split; reflexivity.
  - intros a b c [H1 H2] [H3 H4]. split; congruence.
Qed.

#[local] Instance log_grows_preorder : PreOrder log_grows.
Proof.
  split.
  - intros w. exists []. now rewrite app_nil_r.
  - intros a b c [l1 H1] [l2 H2]. exists (l1 ++ l2).
    now rewrite H2, H1, app_assoc.
Qed.

Section Preserves.
Context (R : World -> World -> Prop) `{!PreOrder R}.

Lemma preserves_ret {A} (a : A) : preserves R (ret a).
Proof. intros w. reflexivity. Qed.

Lemma preserves_raise {A} (e : exn) : preserves R (@raise A e).
Proof. intros w. reflexivity. Qed.

Lemma preserves_lift {A} (r : result A) : preserves R (lift r).
Proof. intros w. reflexivity. Qed.

Lemma preserves_get_world : preserves R get_world.
Proof. intros w. reflexivity. Qed.

Lemma preserves_bind {A B} (c : M A) (k : A -> M B) :
  preserves R c -> (forall a, preserves R (k a)) -> preserves R (bind c k).
Proof.
  intros Hc Hk w. unfold bind. specialize (Hc w).
  destruct (c w) as [[a|e] w1]; simpl in *; [|exact Hc].
  etransitivity; [exact Hc | apply Hk].
Qed.

Lemma preserves_try_except {A} (c : M A) (h : exn -> M A) :
  preserves R c -> (forall e, preserves R (h e)) -> preserves R (try_except c h).
Proof.
  intros Hc Hh w. unfold try_except. specialize (Hc w).
  destruct (c w) as [[a|e] w1]; simpl in *; [exact Hc|].
  etransitivity; [exact Hc | apply Hh].
Qed.

Lemma preserves_try_except_class {A} (c : M A) (k : exn_kind) (h : exn -> M A) :
  preserves R c -> (forall e, preserves R (h e)) ->
  preserves R (try_except_class c k h).
Proof.
  intros Hc Hh. apply preserves_try_except; [exact Hc|].
  intros e. destruct (exn_kind_eqb (exn_class e) k); [apply Hh | apply preserves_raise].
Qed.

End Preserves.

Create HintDb preserves.

Ltac preserves_step :=
  first
    [ apply preserves_ret; solve [typeclasses eauto]
    | apply preserves_raise; solve [typeclasses eauto]
    | apply preserves_lift; solve [typeclasses eauto]
    | apply preserves_get_world; solve [typeclasses eauto]
    | solve [auto with preserves]
    | apply preserves_bind; [typeclasses eauto | | intros ?]
    | apply preserves_try_except; [typeclasses eauto | | intros ?]
    | apply preserves_try_except_class; [typeclasses eauto | | intros ?]
    | match goal with
      | |- preserves _ (if ?b then _ else _) => destruct b
      | |- preserves _ (match ?x with _ => _ end) => destruct x
      end ].

Section Frames.
Context {P : Primitives}.

Lemma log_event_same_store (name result reason : str) :
  preserves same_store (log_auth_event name result reason).
Proof. intros w. split; reflexivity. Qed.

Lemma log_event_log_grows (name result reason : str) :
  preserves log_grows (log_auth_event name result reason).
Proof. intros w. now exists [mkLogEntry name result reason]. Qed.

Lemma get_repository_same_store : preserves same_store get_repository.
Proof. intros w. split; reflexivity. Qed.

Lemma get_repository_log_grows : preserves log_grows get_repository.
Proof. intros w. reflexivity. Qed.

Lemma os_urandom_same_store (n : nat) : preserves same_store (os_urandom n).
Proof. intros w. split; reflexivity. Qed.

Lemma os_urandom_log_grows (n : nat) : preserves log_grows (os_urandom n).
Proof. intros w. exists []. simpl. now rewrite app_nil_r. Qed.

Lemma capture_same_store : preserves same_store capture_and_extract_face.
Proof. intros w. split; reflexivity. Qed.

Lemma capture_log_grows : preserves log_grows capture_and_extract_face.
Proof. intros w. exists []. simpl. now rewrite app_nil_r. Qed.

Lemma set_data_model_log_grows (dm : option DataModel) :
  preserves log_grows (set_data_model dm).
Proof. intros w. exists []. simpl. now rewrite app_nil_r. Qed.

Lemma set_next_user_id_log_grows (n : Z) : preserves log_grows (set_next_user_id n).
Proof. intros w. exists []. simpl. now rewrite app_nil_r. Qed.

Lemma save_data_log_grows : preserves log_grows save_data.
Proof. intros w. exists []. now rewrite save_data_auth_log, app_nil_r. Qed.

Hint Resolve log_event_same_store log_event_log_grows get_repository_same_store
  get_repository_log_grows os_urandom_same_store os_urandom_log_grows
  capture_same_store capture_log_grows set_data_model_log_grows
  set_next_user_id_log_grows save_data_log_grows : preserves.

Lemma compute_distance_preserves (R : World -> World -> Prop) `{!PreOrder R}
      (vec1 vec2 : list json) :
  preserves R (compute_distance vec1 vec2).
Proof.
  unfold compute_distance. destruct (_ && _); [|now apply preserves_raise].
  apply preserves_bind; [assumption | now apply preserves_get_world|].
  intros w. destruct (FACEPP_AVAILABLE w); [|now apply preserves_raise].
  apply preserves_try_except; [assumption| |intros e; now apply preserves_ret].
  apply preserves_bind; [assumption | now apply preserves_lift|]. intros image1.
  apply preserves_bind; [assumption | now apply preserves_lift|]. intros image2.
  apply preserves_bind; [assumption | now apply preserves_lift|]. intros [c t].
  now apply preserves_ret.
Qed.

Lemma capture_or_fail_preserves (R : World -> World -> Prop) `{!PreOrder R}
      (k : list json -> M AuthResult) :
  preserves R capture_and_extract_face ->
  (forall v, preserves R (k v)) -> preserves R (capture_or_fail k).
Proof.
  intros Hcap Hk. unfold capture_or_fail, is_face_recognition_available.
  apply preserves_bind; [assumption| |].
  - apply preserves_bind; [assumption | now apply preserves_get_world|].
    intros w. destruct (negb (CV2_AVAILABLE w)); [now apply preserves_ret|].
    destruct (negb (FACEPP_AVAILABLE w)); now apply preserves_ret.
  - intros [available msg]. destruct (negb available); [now apply preserves_ret|].
    apply preserves_bind; [assumption| |].
    + apply preserves_try_except_class; [assumption| |intros e; now apply preserves_ret].
      apply preserves_bind; [assumption | exact Hcap|].
      intros v. now apply preserves_ret.
    + intros [early|v]; [now apply preserves_ret | apply Hk].
Qed.

Lemma authenticate_password_only_preserves (R : World -> World -> Prop) `{!PreOrder R}
      (username password : str) :
  (forall a b c, preserves R (log_auth_event a b c)) ->
  preserves R get_repository ->
  preserves R (authenticate_password_only username password).
Proof.
  intros Hlog Hrepo.
  unfold authenticate_password_only, log_login_fail_user_not_found,
    log_login_fail_password, log_login_success.
  apply preserves_try_except; [assumption| |intros e; now apply preserves_ret].
  destruct (_ || _); [now apply preserves_ret|].
  apply preserves_bind; [assumption | exact Hrepo|]. intros repo.
  destruct (get_user_by_username repo (strip username)) as [u|].
  - apply preserves_bind; [assumption | now apply preserves_lift|]. intros salt_bytes.
    destruct (negb _);
      (apply preserves_bind; [assumption | apply Hlog | intros _; now apply preserves_ret]).
  - apply preserves_bind; [assumption | apply Hlog | intros _; now apply preserves_ret].
Qed.

Lemma authenticate_user_preserves (R : World -> World -> Prop) `{!PreOrder R}
      (username password : str) :
  (forall a b c, preserves R (log_auth_event a b c)) ->
  preserves R get_repository ->
  preserves R capture_and_extract_face ->
  preserves R (authenticate_user username password).
Proof.
  intros Hlog Hrepo Hcap. unfold authenticate_user, log_login_fail_face.
  apply preserves_try_except; [assumption| |intros e; now apply preserves_ret].
  apply preserves_bind; [assumption | now apply authenticate_password_only_preserves|].
  intros password_result.
  destruct (negb (success password_result)); [now apply preserves_ret|].
  destruct (user password_result) as [u|]; [|now apply preserves_raise].
  apply preserves_bind; [assumption | exact Hrepo|]. intros repo.
  destruct (negb (force_mfa (get_system_config repo))); [now apply preserves_ret|].
  destruct (face_not_enrolled u); [now apply preserves_ret|].
  apply capture_or_fail_preserves; [assumption | exact Hcap|]. intros v.
  apply preserves_bind; [assumption | now apply compute_distance_preserves|].
  intros distance.
  destruct (distance <=? _)%float;
    (apply preserves_bind; [assumption | apply Hlog | intros _; now apply preserves_ret]).
Qed.

Lemma verify_face_preserves (R : World -> World -> Prop) `{!PreOrder R}
      (username : str) :
  preserves R get_repository ->
  preserves R capture_and_extract_face ->
  preserves R (verify_user_face_for_password_change username).
Proof.
  intros Hrepo Hcap. unfold verify_user_face_for_password_change.
  apply preserves_try_except; [assumption| |intros e; now apply preserves_ret].
  apply preserves_bind; [assumption | exact Hrepo|]. intros repo.
  destruct (get_user_by_username repo username) as [u|]; [|now apply preserves_ret].
  destruct (face_not_enrolled u); [now apply preserves_ret|].
  apply capture_or_fail_preserves; [assumption | exact Hcap|]. intros v.
  apply preserves_bind; [assumption | now apply compute_distance_preserves|].
  intros distance. destruct (distance <=? _)%float; now apply preserves_ret.
Qed.

(** X7.  Logging in never changes the store: whatever the input and the
    outcome, [authenticate_password_only], [authenticate_user] and
    [verify_user_face_for_password_change] leave the repository object and
    the store file exactly as they were. *)
Theorem login_leaves_store_alone (username password : str) :
  preserves same_store (authenticate_password_only username password) /\
  preserves same_store (authenticate_user username password) /\
  preserves same_store (verify_user_face_for_password_change username).
Proof.
  split; [|split].
  - apply authenticate_password_only_preserves; auto with preserves. typeclasses eauto.
  - apply authenticate_user_preserves; auto with preserves. typeclasses eauto.
  - apply verify_face_preserves; auto with preserves. typeclasses eauto.
Qed.

End Frames.

#[global] Hint Resolve log_event_same_store log_event_log_grows
  get_repository_same_store get_repository_log_grows os_urandom_same_store
  os_urandom_log_grows capture_same_store capture_log_grows
  set_data_model_log_grows set_next_user_id_log_grows save_data_log_grows
  : preserves.

(** ** The audit log *)

#[local] Instance same_log_preorder : PreOrder same_log.
Proof.
  split.
  - intros w. reflexivity.
  - intros a b c H1 H2. unfold same_log in *. congruence.
Qed.

(** Operations built from the repository primitives keep every relation the
    primitives keep. *)
Section Composite.
Context {P : Primitives}.
Context (R : World -> World -> Prop) `{!PreOrder R}.
Hypothesis keep_get_repository : preserves R get_repository.
Hypothesis keep_set_data_model : forall dm, preserves R (set_data_model dm).
Hypothesis keep_set_next_user_id : forall n, preserves R (set_next_user_id n).
Hypothesis keep_save_data : preserves R save_data.

Lemma save_user_preserves (user : User) : preserves R (save_user user).
Proof.
  unfold save_user.
  apply preserves_bind; [assumption | assumption|]. intros self.
  destruct (_data_model self) as [dm|]; [|now apply preserves_raise].
  destruct (get_user_by_username self (username user)); [now apply preserves_raise|].
  apply preserves_bind; [assumption| |].
  - destruct (id user); [now apply preserves_ret|].
    apply preserves_bind; [assumption | apply keep_set_next_user_id|].
    intros _. now apply preserves_ret.
  - intros stored. apply preserves_bind; [assumption | apply keep_set_data_model|].
    intros _. apply preserves_bind; [assumption | assumption|].
    intros _. now apply preserves_ret.
Qed.

Lemma update_user_preserves (user : User) : preserves R (update_user user).
Proof.
  unfold update_user.
  apply preserves_bind; [assumption | assumption|]. intros self.
  destruct (_data_model self) as [dm|]; [|now apply preserves_raise].
  destruct (replace_user user (users dm)); [|now apply preserves_raise].
  apply preserves_bind; [assumption | apply keep_set_data_model|].
  intros _. assumption.
Qed.

Lemma delete_user_preserves (name : str) : preserves R (delete_user name).
Proof.
  unfold delete_user.
  apply preserves_bind; [assumption | assumption|]. intros self.
  destruct (_data_model self) as [dm|]; [|now apply preserves_raise].
  destruct (remove_user name (users dm)); [|now apply preserves_raise].
  apply preserves_bind; [assumption | apply keep_set_data_model|].
  intros _. assumption.
Qed.

Lemma save_system_config_preserves (c : SystemConfig) :
  preserves R (save_system_config c).
Proof.
  unfold save_system_config.
  apply preserves_bind; [assumption | assumption|]. intros self.
  destruct (_data_model self) as [dm|]; [|now apply preserves_raise].
  apply preserves_bind; [assumption | apply keep_set_data_model|].
  intros _. assumption.
Qed.

Lemma reset_user_face_preserves (name : str) :
  preserves R (admin_service.reset_user_face name).
Proof.
  unfold admin_service.reset_user_face.
  apply preserves_try_except; [assumption| |intros e; now apply preserves_ret].
  apply preserves_bind; [assumption | assumption|]. intros repo.
  destruct (get_user_by_username repo name); [|now apply preserves_ret].
  apply preserves_bind; [assumption | apply update_user_preserves|].
  intros _. now apply preserves_ret.
Qed.

Lemma admin_delete_user_preserves (name : str) :
  preserves R (admin_service.delete_user name).
Proof.
  unfold admin_service.delete_user.
  apply preserves_try_except; [assumption| |intros e; now apply preserves_ret].
  apply preserves_bind; [assumption | apply delete_user_preserves|].
  intros _. now apply preserves_ret.
Qed.

Lemma set_force_mfa_preserves (enabled : bool) :
  preserves R (security_config.set_force_mfa enabled).
Proof.
  unfold security_config.set_force_mfa.
  apply preserves_try_except; [assumption| |intros e; now apply preserves_ret].
  apply preserves_bind; [assumption | assumption|]. intros repo.
  apply preserves_bind; [assumption | apply save_system_config_preserves|].
  intros _. now apply preserves_ret.
Qed.

Lemma set_face_threshold_preserves (threshold : float) :
  preserves R (security_config.set_face_threshold threshold).
Proof.
  unfold security_config.set_face_threshold.
  apply preserves_try_except; [assumption| |intros e; now apply preserves_ret].
  destruct (_ || _); [now apply preserves_ret|].
  apply preserves_bind; [assumption | assumption|]. intros repo.
  apply preserves_bind; [assumption | apply save_system_config_preserves|].
  intros _. now apply preserves_ret.
Qed.

Hypothesis keep_os_urandom : forall n, preserves R (os_urandom n).
Hypothesis keep_log_auth_event : forall a b c, preserves R (log_auth_event a b c).

Lemma register_user_preserves (name password : str) :
  preserves R (register_user name password).
Proof.
  unfold register_user, generate_salt, log_user_registered.
  apply preserves_try_except; [assumption| |intros e; now apply preserves_ret].
  destruct (_ || _); [now apply preserves_ret|].
  destruct (_ || _); [now apply preserves_ret|].
  apply preserves_bind; [assumption | assumption|]. intros repo.
  destruct (get_user_by_username repo (strip name)); [now apply preserves_ret|].
  apply preserves_bind; [assumption | apply keep_os_urandom|]. intros salt_bytes.
  apply preserves_bind; [assumption | apply save_user_preserves|]. intros stored.
  apply preserves_bind; [assumption | apply keep_log_auth_event|].
  intros _. now apply preserves_ret.
Qed.

Lemma change_password_preserves (name old_password new_password : str) :
  preserves R (change_password name old_password new_password).
Proof.
  unfold change_password, generate_salt, log_password_changed.
  apply preserves_try_except; [assumption| |intros e; now apply preserves_ret].
  destruct (_ || _); [now apply preserves_ret|].
  destruct (_ <? _); [now apply preserves_ret|].
  destruct (str_eqb _ _); [now apply preserves_ret|].
  apply preserves_bind;
    [assumption | now apply authenticate_password_only_preserves|].
  intros auth_result.
  destruct (negb (success auth_result)); [now apply preserves_ret|].
  destruct (user auth_result); [|now apply preserves_raise].
  apply preserves_bind; [assumption | apply keep_os_urandom|]. intros new_salt.
  apply preserves_bind; [assumption | apply update_user_preserves|]. intros _.
  apply preserves_bind; [assumption | apply keep_log_auth_event|].
  intros _. now apply preserves_ret.
Qed.

Hypothesis keep_capture : preserves R capture_and_extract_face.

Lemma register_user_with_face_preserves (name password : str) :
  preserves R (register_user_with_face name password).
Proof.
  unfold register_user_with_face.
  apply preserves_try_except; [assumption| |intros e; now apply preserves_ret].
  apply preserves_bind; [assumption | apply register_user_preserves|].
  intros result. destruct (negb (success result)); [now apply preserves_ret|].
  destruct (user result); [|now apply preserves_raise].
  apply capture_or_fail_preserves; [assumption | assumption|]. intros v.
  apply preserves_bind; [assumption | apply update_user_preserves|].
  intros _. now apply preserves_ret.
Qed.

End Composite.

Section AuditLog.
Context {P : Primitives}.

Lemma same_log_get_repository : preserves same_log get_repository.
Proof. intros w. reflexivity. Qed.

Lemma same_log_set_data_model (dm : option DataModel) :
  preserves same_log (set_data_model dm).
Proof. intros w. reflexivity. Qed.

Lemma same_log_set_next_user_id (n : Z) : preserves same_log (set_next_user_id n).
Proof. intros w. reflexivity. Qed.

Lemma same_log_save_data : preserves same_log save_data.
Proof. intros w. apply save_data_auth_log. Qed.

Lemma same_log_capture : preserves same_log capture_and_extract_face.
Proof. intros w. reflexivity. Qed.

(** X8.  The audit log is append-only under the operations of the
    authentication service: registration (with or without a face), login and
    password change leave every line already written in place and only add
    lines after them, whatever their outcome. *)
Theorem audit_log_is_append_only (name password new_password : str) :
  preserves log_grows (register_user name password) /\
  preserves log_grows (register_user_with_face name password) /\
  preserves log_grows (authenticate_password_only name password) /\
  preserves log_grows (authenticate_user name password) /\
  preserves log_grows (change_password name password new_password).
Proof.
  repeat split.
  - apply register_user_preserves; try typeclasses eauto; intros; auto with preserves.
  - apply register_user_with_face_preserves; try typeclasses eauto; intros; auto with preserves.
  - apply authenticate_password_only_preserves; try typeclasses eauto; intros; auto with preserves.
  - apply authenticate_user_preserves; try typeclasses eauto; intros; auto with preserves.
  - apply change_password_preserves; try typeclasses eauto; intros; auto with preserves.
Qed.

(** X9.  Operations that write no audit event at all: the face check for a
    password change, the administrator's face reset and user deletion, and
    the two configuration changes leave the audit log as it was, whatever
    their outcome. *)
Theorem operations_without_audit_event (name : str) (enabled : bool) (threshold : float) :
  preserves same_log (verify_user_face_for_password_change name) /\
  preserves same_log (admin_service.reset_user_face name) /\
  preserves same_log (admin_service.delete_user name) /\
  preserves same_log (security_config.set_force_mfa enabled) /\
  preserves same_log (security_config.set_face_threshold threshold).
Proof.
  pose proof same_log_get_repository. pose proof same_log_set_data_model.
  pose proof same_log_set_next_user_id. pose proof same_log_save_data.
  pose proof same_log_capture.
  repeat split.
  - apply verify_face_preserves; try typeclasses eauto; auto.
  - apply reset_user_face_preserves; try typeclasses eauto; auto.
  - apply admin_delete_user_preserves; try typeclasses eauto; auto.
  - apply set_force_mfa_preserves; try typeclasses eauto; auto.
  - apply set_face_threshold_preserves; try typeclasses eauto; auto.
Qed.

End AuditLog.

(** ** Registration, login and password change together *)

(** [os.urandom(n)] returns [n] bytes and only moves the position in the
    random source. *)
Lemma os_urandom_ok (n : nat) (w : World) :
  exists b,
    os_urandom n w = (Ok b, with_urandom_pos w (urandom_pos w + n)) /\
    List.length b = n.
Proof.
  eexists. split; [reflexivity|]. now rewrite length_map, length_seq.
Qed.

(** the bytes drawn do not depend on the repository object *)
Lemma os_urandom_with_repository (n : nat) (w : World) (r : FileRepository) :
  fst (os_urandom n w) = fst (os_urandom n (with_repository w r)).
Proof. reflexivity. Qed.

Opaque os_urandom.

Section AuthFlows.
Context {P : Primitives}.

(** X10.  [register_user] turns invalid input away before it touches
    anything: a username that is empty once stripped, and otherwise a
    password of fewer than six characters, get their own message, and the
    world (store, file, log, random source) is as before. *)
Theorem register_user_rejects_invalid_input (w : World) (name password : str) :
  (strip name = [] ->
   register_user name password w =
     (Ok (mkAuthResult false (lit "用户名不能为空") None), w)) /\
  (strip name <> [] -> List.length password < 6 ->
   register_user name password w =
     (Ok (mkAuthResult false (lit "密码长度至少6位") None), w)).
Proof.
  split.
  - intros Hblank. unfold register_user, try_except.
    rewrite Hblank. simpl. rewrite orb_true_r. reflexivity.
  - intros Hname Hshort. unfold register_user, try_except.
    assert (Hn : str_empty name = false).
    { destruct name; [|reflexivity]. exfalso. apply Hname. reflexivity. }
    rewrite Hn, (str_empty_false Hname). simpl.
    assert (Hl : (List.length password <? 6) = true) by now apply Nat.ltb_lt.
    rewrite Hl, orb_true_r. reflexivity.
Qed.

(** The record a successful registration stores. *)
Lemma register_user_stored (w w' : World) (name password : str) (r : AuthResult) :
  register_user name password w = (Ok r, w') ->
  success r = true ->
  exists stored salt_bytes,
    user r = Some stored /\
    stored = mkUser (strip name) (b64encode salt_bytes)
               (b64encode (derive_key_from_password password salt_bytes PBKDF2_ITERATIONS))
               false None None (Some (_next_user_id (repository w))) /\
    List.length salt_bytes = SALT_LENGTH /\
    get_user_by_username (repository w') (strip name) = Some stored /\
    name <> [] /\ password <> [].
Proof.
  unfold register_user, try_except, bind, get_repository.
  destruct (str_empty name) eqn:Hn.
  { simpl. intros H; inversion H; subst. discriminate. }
  destruct (str_empty (strip name)).
  { simpl. intros H; inversion H; subst. discriminate. }
  destruct (str_empty password) eqn:Hp.
  { simpl. intros H; inversion H; subst. discriminate. }
  destruct (List.length password <? 6).
  { simpl. intros H; inversion H; subst. discriminate. }
  cbn [orb].
  destruct (get_user_by_username (repository w) (strip name)) as [existing|] eqn:Hget.
  { simpl. intros H; inversion H; subst. discriminate. }
  unfold generate_salt.
  destruct (os_urandom_ok SALT_LENGTH w) as [salt_bytes [Hrand Hlen]].
  rewrite Hrand. set (w0 := with_urandom_pos w _).
  assert (Hw0 : repository w0 = repository w) by reflexivity.
  set (candidate := mkUser (strip name) _ _ false None None None).
  assert (Hget0 : get_user_by_username (repository w0) (username candidate) = None)
    by exact Hget.
  unfold get_user_by_username in Hget0.
  destruct (_data_model (repository w0)) as [dm|] eqn:Hdm.
  - destruct (@save_user_fresh P w0 candidate dm Hdm Hget0 eq_refl) as [Hrepo Hres].
    destruct (save_user candidate w0) as [[u'|e] w1] eqn:Hs.
    + cbn [fst snd] in *. unfold log_user_registered, log_auth_event, ret.
      intros H Hsucc. inversion H; subst. cbn [user].
      exists (set_id candidate (Some (_next_user_id (repository w0)))), salt_bytes.
      rewrite (Hres u' eq_refl).
      split; [reflexivity|]. split; [reflexivity|].
      split; [exact Hlen|]. split.
      * unfold get_user_by_username. cbn [repository with_auth_log].
        rewrite Hrepo. cbn [_data_model users set_users].
        now apply find_user_app_new.
      * split; [destruct name | destruct password]; simpl in *; congruence.
    + unfold ret. intros H; inversion H; subst. discriminate.
  - unfold save_user, bind, get_repository. rewrite Hdm. unfold raise, ret.
    intros H; inversion H; subst. discriminate.
Qed.

(** [authenticate_password_only] never raises, and a success carries the
    account found under the stripped name. *)
Lemma authenticate_password_only_result (w : World) (name password : str) :
  exists a w',
    authenticate_password_only name password w = (Ok a, w') /\
    repository w' = repository w /\
    (success a = true ->
     name <> [] /\ password <> [] /\
     exists account salt_bytes,
       user a = Some account /\
       get_user_by_username (repository w) (strip name) = Some account /\
       b64decode (salt account) = Ok salt_bytes /\
       b64encode (derive_key_from_password password salt_bytes PBKDF2_ITERATIONS)
         = password_hash account).
Proof.
  unfold authenticate_password_only, try_except, bind, get_repository, lift.
  destruct (str_empty name) eqn:Hn.
  { simpl. do 2 eexists. split; [reflexivity|]. split; [reflexivity | discriminate]. }
  destruct (str_empty password) eqn:Hp.
  { simpl. do 2 eexists. split; [reflexivity|]. split; [reflexivity | discriminate]. }
  simpl.
  destruct (get_user_by_username (repository w) (strip name)) as [account|] eqn:Hget.
  2:{ simpl. do 2 eexists. split; [reflexivity|]. split; [reflexivity | discriminate]. }
  destruct (b64decode (salt account)) as [salt_bytes|e] eqn:Hsalt.
  2:{ simpl. do 2 eexists. split; [reflexivity|]. split; [reflexivity | discriminate]. }
  destruct (str_eqb _ (password_hash account)) eqn:E; simpl.
  - do 2 eexists. split; [reflexivity|]. split; [reflexivity|]. intros _.
    split; [destruct name; simpl in *; congruence|].
    split; [destruct password; simpl in *; congruence|].
    exists account, salt_bytes. apply str_eqb_eq in E. repeat split; auto.
  - do 2 eexists. split; [reflexivity|]. split; [reflexivity | discriminate].
Qed.

(** The repository after an [update_user] that found its user. *)
Lemma update_user_repository (w : World) (user : User) (dm : DataModel)
      (us' : list User) :
  _data_model (repository w) = Some dm ->
  replace_user user (users dm) = Some us' ->
  repository (snd (update_user user w)) =
    mkFileRepository (Some (set_users dm us'))
      (_data_key (repository w)) (_next_user_id (repository w)).
Proof.
  intros Hdm Hrep.
  unfold update_user at 1. unfold bind at 1. unfold get_repository at 1.
  rewrite Hdm, Hrep. apply after_assign_and_save.
Qed.

(** X11.  With [force_mfa] off, [authenticate_user]
    is [authenticate_password_only]: same result, same log line, and the
    face environment is not consulted. *)
Theorem single_factor_mode (w : World) (name password : str) :
  force_mfa (get_system_config (repository w)) = false ->
  authenticate_user name password w = authenticate_password_only name password w.
Proof.
  intros Hmfa.
  destruct (authenticate_password_only_result w name password)
    as [a [w' [Hrun [Hrepo Hsucc]]]].
  unfold authenticate_user, try_except, bind. rewrite Hrun.
  destruct (success a) eqn:Hs; simpl; [|reflexivity].
  destruct (Hsucc eq_refl) as [_ [_ [account [salt_bytes [Huser _]]]]].
  rewrite Huser. unfold get_repository. rewrite Hrepo, Hmfa. reflexivity.
Qed.

Section WithBase64.

(** [base64.b64decode] inverts [base64.b64encode]. *)
Hypothesis b64decode_b64encode : forall b : bytes, b64decode (b64encode b) = Ok b.

(** X12.  After a successful [register_user], a login with the same
    username and password succeeds and returns the registered account. *)
Theorem register_then_login (w w' : World) (name password : str) (r : AuthResult) :
  register_user name password w = (Ok r, w') ->
  success r = true ->
  exists account,
    user r = Some account /\
    authenticate_password_only name password w' =
      (Ok (mkAuthResult true (lit "用户 '" ++ strip name ++ lit "' 登录成功")
             (Some account)),
       log_append w' (strip name) AuthEvent.SUCCESS (lit "登录成功")).
Proof.
  intros Hreg Hsucc.
  destruct (register_user_stored _ _ _ Hreg Hsucc)
    as [stored [salt_bytes [Huser [Hstored [_ [Hget [Hn Hp]]]]]]].
  exists stored. split; [exact Huser|].
  apply (@authenticate_password_only_correct P w' name password stored salt_bytes Hn Hp Hget).
  - rewrite Hstored. simpl. apply b64decode_b64encode.
  - rewrite Hstored. reflexivity.
Qed.

(** X13.  After a successful [change_password], a login with the new
    password succeeds.  The account it returns is the account of before
    with a fresh salt and the hash of the new password under it; username,
    id and face data are kept. *)
Theorem change_password_then_login
        (w w' : World) (name old_password new_password : str) (r : AuthResult) :
  change_password name old_password new_password w = (Ok r, w') ->
  success r = true ->
  exists before salt_bytes,
    get_user_by_username (repository w) (strip name) = Some before /\
    let account :=
      set_credentials before (b64encode salt_bytes)
        (b64encode (derive_key_from_password new_password salt_bytes PBKDF2_ITERATIONS)) in
    get_user_by_username (repository w') (strip name) = Some account /\
    authenticate_password_only name new_password w' =
      (Ok (mkAuthResult true (lit "用户 '" ++ strip name ++ lit "' 登录成功")
             (Some account)),
       log_append w' (strip name) AuthEvent.SUCCESS (lit "登录成功")).
Proof.
  unfold change_password, try_except, bind.
  destruct (str_empty name) eqn:Hn.
  { simpl. intros H; inversion H; subst. discriminate. }
  destruct (str_empty old_password).
  { simpl. intros H; inversion H; subst. discriminate. }
  destruct (str_empty new_password) eqn:Hp.
  { simpl. intros H; inversion H; subst. discriminate. }
  simpl. destruct (List.length new_password <? 6).
  { intros H; inversion H; subst. discriminate. }
  destruct (str_eqb old_password new_password).
  { intros H; inversion H; subst. discriminate. }
  destruct (authenticate_password_only_result w (strip name) old_password)
    as [a [w1 [Hrun [Hrepo1 Hsucc1]]]].
  rewrite Hrun. destruct (success a) eqn:Hs; simpl.
  2:{ intros H; inversion H; subst. discriminate. }
  destruct (Hsucc1 eq_refl) as [_ [_ [before [old_salt [Huser [Hget _]]]]]].
  rewrite strip_idempotent in Hget. rewrite Huser.
  unfold generate_salt.
  destruct (os_urandom_ok SALT_LENGTH w1) as [salt_bytes [Hrand _]].
  rewrite Hrand. set (w2 := with_urandom_pos w1 _).
  assert (Hrepo2 : repository w2 = repository w) by exact Hrepo1.
  set (account := set_credentials before _ _).
  assert (Hname : username before = strip name).
  { unfold get_user_by_username in Hget.
    destruct (_data_model (repository w)); [|discriminate].
    now destruct (find_user_some_name _ _ Hget). }
  intros Hrun3 Hsucc.
  destruct (_data_model (repository w)) as [dm|] eqn:Hdm.
  2:{ unfold get_user_by_username in Hget. rewrite Hdm in Hget. discriminate. }
  assert (Hdm2 : _data_model (repository w2) = Some dm) by now rewrite Hrepo2.
  assert (Hfind : find_user (username account) (users dm) = Some before).
  { unfold get_user_by_username in Hget. rewrite Hdm in Hget.
    unfold account. simpl. now rewrite Hname. }
  destruct (@replace_user_some account before (users dm) Hfind) as [us' Hrep].
  pose proof (update_user_repository w2 account Hdm2 Hrep) as Hrepo3.
  destruct (update_user account w2) as [[[]|e] w3]; simpl in *.
  2:{ inversion Hrun3; subst. discriminate. }
  inversion Hrun3; subst. clear Hrun3.
  exists before, salt_bytes. split; [exact Hget|].
  assert (Hget' : get_user_by_username
            (repository (log_append w3 (strip (strip name))
                           AuthEvent.PASSWORD_CHANGED (lit "密码已修改")))
            (strip name) = Some account).
  { unfold get_user_by_username. simpl. rewrite Hrepo3. simpl.
    rewrite (@replace_user_find account (strip name) _ _ Hrep).
    unfold account at 1. simpl. rewrite Hname, str_eqb_refl. reflexivity. }
  simpl. split; [exact Hget'|].
  apply (@authenticate_password_only_correct P _ name new_password account salt_bytes).
  - destruct name; simpl in *; congruence.
  - destruct new_password; simpl in *; congruence.
  - exact Hget'.
  - unfold account. simpl. apply b64decode_b64encode.
  - reflexivity.
Qed.

End WithBase64.

End AuthFlows.

Section AuthFlows2.
Context {P : Primitives}.


(** The answer of the compare service becomes a distance. *)
Lemma compute_distance_service_answer
      (w : World) (vec1 vec2 : list json) (image1 image2 : bytes)
      (confidence suggested : float) :
  is_facepp_marker vec1 = true -> is_facepp_marker vec2 = true ->
  FACEPP_AVAILABLE w = true ->
  hex_payload vec1 = Ok image1 -> hex_payload vec2 = Ok image2 ->
  compare_faces_facepp w image1 image2 = Ok (confidence, suggested) ->
  compute_distance vec1 vec2 w = (Ok ((100 - confidence) / 100)%float, w).
Proof.
  intros H1 H2 Hav Hx1 Hx2 Hans.
  unfold compute_distance, bind, get_world, try_except, lift.
  rewrite H1, H2. simpl. rewrite Hav, Hx1, Hx2, Hans. reflexivity.
Qed.

(** X15.  The two-factor decision.  When the password factor passed,
    [force_mfa] is on, the user has a face enrolled, the capture delivers an
    image and the compare service answers a confidence, the distance is
    (100 - confidence) / 100 as binary64 arithmetic computes it, and the
    login succeeds exactly when the float comparison distance <= threshold
    holds: then an MFA_SUCCESS event follows the SUCCESS event of the
    password factor; when the comparison does not hold (a greater distance,
    or a NaN on either side) a FAIL_FACE_MISMATCH event does. *)
Theorem two_factor_decision
        (w : World) (username password : str) (u : User) (salt_bytes : bytes)
        (stored_face current_face : list json) (image1 image2 : bytes)
        (confidence suggested : float) :
  username <> [] -> password <> [] ->
  get_user_by_username (repository w) (strip username) = Some u ->
  b64decode (salt u) = Ok salt_bytes ->
  b64encode (derive_key_from_password password salt_bytes PBKDF2_ITERATIONS)
    = password_hash u ->
  force_mfa (get_system_config (repository w)) = true ->
  face_enabled u = true ->
  face_embedding u = Some stored_face ->
  CV2_AVAILABLE w = true -> FACEPP_AVAILABLE w = true ->
  camera w (camera_pos w) = Ok current_face ->
  is_facepp_marker stored_face = true -> is_facepp_marker current_face = true ->
  hex_payload stored_face = Ok image1 -> hex_payload current_face = Ok image2 ->
  compare_faces_facepp w image1 image2 = Ok (confidence, suggested) ->
  let threshold := face_threshold (get_system_config (repository w)) in
  let distance := ((100 - confidence) / 100)%float in
  let attempt := authenticate_user username password w in
  let password_event :=
    mkLogEntry (strip username) AuthEvent.SUCCESS (lit "登录成功") in
  ((distance <=? threshold)%float = true ->
   fst attempt =
     Ok (mkAuthResult true (lit "用户 '" ++ username ++ lit "' 双因素认证成功") (Some u)) /\
   auth_log (snd attempt) =
     auth_log w ++
       [password_event;
        mkLogEntry username (lit "MFA_SUCCESS")
          (lit "双因素认证成功 (距离=" ++ format_4f distance ++ lit ")")]) /\
  ((distance <=? threshold)%float = false ->
   fst attempt =
     Ok (mkAuthResult false
           (lit "人脸验证失败 (距离=" ++ format_4f distance ++ lit " > "
              ++ format_float threshold ++ lit ")") None) /\
   auth_log (snd attempt) =
     auth_log w ++
       [password_event;
        mkLogEntry username AuthEvent.FAIL_FACE_MISMATCH (lit "人脸比对失败")]).
Proof.
  intros Hu Hp Hsome Hsalt Heq Hmfa Hen Hemb Hcv Hfp Hcam Hm1 Hm2 Hx1 Hx2 Hans.
  assert (Hface : face_not_enrolled u = false).
  { unfold face_not_enrolled. rewrite Hen, Hemb.
    destruct stored_face; [discriminate | reflexivity]. }
  cbv zeta.
  assert (Hrun : forall b,
    ((100 - confidence) / 100 <=? face_threshold (get_system_config (repository w)))%float = b ->
    authenticate_user username password w =
      (if b then
         (Ok (mkAuthResult true (lit "用户 '" ++ username ++ lit "' 双因素认证成功") (Some u)),
          with_auth_log
            (with_camera_pos
               (log_append w (strip username) AuthEvent.SUCCESS (lit "登录成功"))
               (S (camera_pos w)))
            ((auth_log w ++ [mkLogEntry (strip username) AuthEvent.SUCCESS (lit "登录成功")])
               ++ [mkLogEntry username (lit "MFA_SUCCESS")
                     (lit "双因素认证成功 (距离=" ++ format_4f ((100 - confidence) / 100)
                        ++ lit ")")]))
       else
         (Ok (mkAuthResult false
                (lit "人脸验证失败 (距离=" ++ format_4f ((100 - confidence) / 100)
                   ++ lit " > "
                   ++ format_float (face_threshold (get_system_config (repository w)))
                   ++ lit ")") None),
          with_auth_log
            (with_camera_pos
               (log_append w (strip username) AuthEvent.SUCCESS (lit "登录成功"))
               (S (camera_pos w)))
            ((auth_log w ++ [mkLogEntry (strip username) AuthEvent.SUCCESS (lit "登录成功")])
               ++ [mkLogEntry username AuthEvent.FAIL_FACE_MISMATCH (lit "人脸比对失败")])))).
  { intros b Hb. unfold authenticate_user, try_except, bind.
    rewrite (authenticate_password_only_correct w Hu Hp Hsome Hsalt Heq).
    unfold get_repository. simpl. rewrite Hmfa, Hface. simpl.
    unfold capture_or_fail, is_face_recognition_available, bind, get_world,
      try_except_class, try_except, capture_and_extract_face.
    simpl. rewrite Hcv, Hfp. simpl. rewrite Hcam. simpl. rewrite Hemb.
    match goal with
    | |- context [compute_distance stored_face current_face ?w0] =>
      rewrite (@compute_distance_service_answer w0 stored_face current_face
                 image1 image2 confidence suggested Hm1 Hm2 Hfp Hx1 Hx2 Hans)
    end.
    simpl. rewrite Hb. destruct b; reflexivity. }
  split.
  - intros Hle. rewrite (Hrun true Hle). simpl.
    rewrite <- app_assoc. split; reflexivity.
  - intros Hb.
    rewrite (Hrun false Hb). simpl. rewrite <- app_assoc. split; reflexivity.
Qed.

End AuthFlows2.

(** ** Face enrolment, face reset and configuration *)

Lemma face_blind_face_env {A} (c : M A) (w : World) :
  face_blind c -> face_env (snd (c w)) = face_env w.
Proof.
  intros Hc. pose proof (Hc w (face_env w)) as H.
  rewrite with_face_env_same in H.
  destruct (c w) as [r w']. simpl in *. inversion H as [Hw]. rewrite Hw at 1.
  reflexivity.
Qed.

Section Enrolled.
Context {P : Primitives}.

(** [save_data] returns exactly when a model and a 32-byte key are set. *)
Lemma save_data_returns_iff (w : World) :
  fst (save_data w) = Ok tt <->
  exists dm key,
    _data_model (repository w) = Some dm /\
    _data_key (repository w) = Some key /\
    List.length key = 32.
Proof.
  unfold save_data, bind, get_repository.
  destruct (_data_model (repository w)) as [dm|].
  2:{ split; [discriminate | intros [? [? [H _]]]; discriminate]. }
  destruct (_data_key (repository w)) as [key|].
  2:{ split; [discriminate | intros [? [? [_ [H _]]]]; discriminate]. }
  unfold encrypt_aes_gcm, bind.
  destruct (List.length key =? 32) eqn:E.
  - apply Nat.eqb_eq in E. simpl.
    destruct (os_urandom_ok 12 w) as [iv [Hrand _]]. rewrite Hrand. simpl.
    split; [intros _; now exists dm, key | reflexivity].
  - apply Nat.eqb_neq in E. simpl.
    split; [discriminate | intros [? [k [_ [H Hl]]]]; inversion H; subst; contradiction].
Qed.

Lemma face_blind_set_next_user_id (n : Z) : face_blind (set_next_user_id n).
Proof. intros w f; reflexivity. Qed.

Lemma face_blind_save_user (user : User) : face_blind (save_user user).
Proof.
  unfold save_user. apply face_blind_bind; [apply face_blind_get_repository|].
  intros self. destruct (_data_model self); [|apply face_blind_raise].
  destruct (get_user_by_username self (username user)); [apply face_blind_raise|].
  apply face_blind_bind.
  - destruct (id user); [apply face_blind_ret|].
    apply face_blind_bind; [apply face_blind_set_next_user_id|].
    intros _. apply face_blind_ret.
  - intros stored. apply face_blind_bind; [apply face_blind_set_data_model|].
    intros _. apply face_blind_bind; [apply face_blind_save_data|].
    intros _. apply face_blind_ret.
Qed.

Lemma face_blind_register_user (name password : str) :
  face_blind (register_user name password).
Proof.
  unfold register_user, generate_salt, log_user_registered.
  apply face_blind_try_except; [|intros e; apply face_blind_ret].
  destruct (_ || _); [apply face_blind_ret|].
  destruct (_ || _); [apply face_blind_ret|].
  apply face_blind_bind; [apply face_blind_get_repository|]. intros repo.
  destruct (get_user_by_username repo (strip name)); [apply face_blind_ret|].
  apply face_blind_bind; [apply face_blind_os_urandom|]. intros salt_bytes.
  apply face_blind_bind; [apply face_blind_save_user|]. intros stored.
  apply face_blind_bind; [apply face_blind_log_auth_event|].
  intros _. apply face_blind_ret.
Qed.

(** A registration that succeeded went through a [save_user] that
    returned: the store holds a 32-byte key. *)
Lemma register_user_key (w w' : World) (name password : str) (r : AuthResult) :
  register_user name password w = (Ok r, w') ->
  success r = true ->
  exists dm key,
    _data_model (repository w') = Some dm /\
    _data_key (repository w') = Some key /\ List.length key = 32.
Proof.
  unfold register_user, try_except, bind, get_repository.
  destruct (str_empty name || str_empty (strip name)).
  { simpl. intros H; inversion H; subst. discriminate. }
  destruct (str_empty password || (List.length password <? 6)).
  { simpl. intros H; inversion H; subst. discriminate. }
  destruct (get_user_by_username (repository w) (strip name)) as [existing|].
  { simpl. intros H; inversion H; subst. discriminate. }
  unfold generate_salt.
  destruct (os_urandom_ok SALT_LENGTH w) as [salt_bytes [Hrand _]].
  rewrite Hrand. set (w0 := with_urandom_pos w _).
  set (candidate := mkUser (strip name) _ _ false None None None).
  unfold save_user, bind, get_repository.
  destruct (_data_model (repository w0)) as [dm|].
  2:{ simpl. intros H; inversion H; subst. discriminate. }
  destruct (get_user_by_username (repository w0) (username candidate)).
  { simpl. intros H; inversion H; subst. discriminate. }
  simpl.
  match goal with
  | |- context [save_data ?w1] =>
    pose proof (save_data_repository w1) as Hrepo;
    pose proof (proj1 (save_data_returns_iff w1)) as Hkey;
    destruct (save_data w1) as [[[]|e] w2]
  end; simpl in *.
  - intros H _. inversion H; subst. simpl. rewrite Hrepo.
    destruct (Hkey eq_refl) as [dm' [key [H1 [H2 H3]]]]. now exists dm', key.
  - intros H; inversion H; subst. discriminate.
Qed.

(** X16.  Registration with a face is registration followed by enrolment.
    When the registration step succeeded but no image can be captured (no
    camera library, no Face++, or the capture fails), the operation reports
    failure and the account stays registered without a face.  When an image
    is captured, the account is stored with [face_enabled] set and that
    image as its template, and the operation reports success. *)
Theorem enrolment_after_registration
        (w w1 : World) (name password : str) (r : AuthResult) :
  register_user name password w = (Ok r, w1) ->
  success r = true ->
  exists registered,
    user r = Some registered /\ face_enabled registered = false /\
    ((CV2_AVAILABLE w = false \/ FACEPP_AVAILABLE w = false \/
      exists e, camera w (camera_pos w) = Raise e /\
                exn_class e = FaceRecognitionError) ->
     (exists a, fst (register_user_with_face name password w) = Ok a /\
                success a = false) /\
     get_user_by_username
       (repository (snd (register_user_with_face name password w))) (strip name)
       = Some registered) /\
    (forall image,
       CV2_AVAILABLE w = true -> FACEPP_AVAILABLE w = true ->
       camera w (camera_pos w) = Ok image ->
       let enrolled := set_face registered true (Some image) in
       fst (register_user_with_face name password w) =
         Ok (mkAuthResult true (lit "用户 '" ++ name ++ lit "' 注册并录入人脸成功")
               (Some enrolled)) /\
       get_user_by_username
         (repository (snd (register_user_with_face name password w))) (strip name)
         = Some enrolled).
Proof.
  intros Hreg Hsucc.
  destruct (register_user_stored _ _ _ Hreg Hsucc)
    as [registered [salt_bytes [Huser [Hstored [_ [Hget _]]]]]].
  destruct (register_user_key _ _ _ Hreg Hsucc) as [dm [key [Hdm [Hkey Hlen]]]].
  pose proof (face_blind_face_env w (face_blind_register_user name password)) as Henv.
  rewrite Hreg in Henv. simpl in Henv.
  assert (Hcv : CV2_AVAILABLE w1 = CV2_AVAILABLE w)
    by (apply (f_equal env_cv2) in Henv; exact Henv).
  assert (Hfp : FACEPP_AVAILABLE w1 = FACEPP_AVAILABLE w)
    by (apply (f_equal env_facepp) in Henv; exact Henv).
  assert (Hcam : camera w1 (camera_pos w1) = camera w (camera_pos w)).
  { pose proof (f_equal env_camera Henv) as H1.
    pose proof (f_equal env_camera_pos Henv) as H2. simpl in *. now rewrite H1, H2. }
  exists registered. split; [exact Huser|].
  split; [rewrite Hstored; reflexivity|].
  assert (Hname : username registered = strip name) by (rewrite Hstored; reflexivity).
  split.
  - intros Hno.
    unfold register_user_with_face, try_except, bind. rewrite Hreg, Hsucc, Huser.
    simpl. unfold capture_or_fail, is_face_recognition_available, bind, get_world,
      try_except_class, try_except, capture_and_extract_face.
    simpl. rewrite Hcv, Hfp.
    destruct (CV2_AVAILABLE w); simpl.
    2:{ split; [eexists; split; [reflexivity|reflexivity] | exact Hget]. }
    destruct (FACEPP_AVAILABLE w); simpl.
    2:{ split; [eexists; split; [reflexivity|reflexivity] | exact Hget]. }
    destruct Hno as [Hno|[Hno|[e [Hraise Hcls]]]]; try discriminate.
    rewrite Hcam, Hraise. simpl. rewrite Hcls. simpl.
    split; [eexists; split; [reflexivity|reflexivity] | exact Hget].
  - intros image Hcv1 Hfp1 Hok. cbv zeta.
    unfold register_user_with_face, try_except, bind. rewrite Hreg, Hsucc, Huser.
    simpl. unfold capture_or_fail, is_face_recognition_available, bind, get_world,
      try_except_class, try_except, capture_and_extract_face.
    simpl. rewrite Hcv, Hfp, Hcv1, Hfp1. simpl. rewrite Hcam, Hok. simpl.
    set (enrolled := set_face registered true (Some image)).
    set (w2 := with_camera_pos w1 (S (camera_pos w1))).
    assert (Hdm2 : _data_model (repository w2) = Some dm) by exact Hdm.
    assert (Hfind : find_user (username enrolled) (users dm) = Some registered).
    { unfold get_user_by_username in Hget. rewrite Hdm in Hget.
      unfold enrolled. simpl. now rewrite Hname. }
    destruct (@replace_user_some enrolled registered (users dm) Hfind) as [us' Hrep].
    pose proof (update_user_repository w2 enrolled Hdm2 Hrep) as Hrepo3.
    assert (Hok3 : fst (update_user enrolled w2) = Ok tt).
    { unfold update_user, bind, get_repository. rewrite Hdm2, Hrep.
      unfold set_data_model. simpl.
      match goal with
      | |- context [save_data ?w0] =>
        pose proof (proj2 (save_data_returns_iff w0)) as Hsave;
        destruct (save_data w0) as [[[]|e] w3]
      end; simpl in *; [reflexivity|].
      apply Hsave. exists (set_users dm us'), key. repeat split; assumption. }
    destruct (update_user enrolled w2) as [[[]|e] w3]; simpl in *; [|discriminate].
    split; [reflexivity|].
    unfold get_user_by_username. rewrite Hrepo3. simpl.
    rewrite (@replace_user_find enrolled (strip name) _ _ Hrep).
    unfold enrolled at 1. simpl. rewrite Hname, str_eqb_refl. reflexivity.
Qed.

(** X17.  The administrator's face reset.  For a user the store holds, the
    stored record afterwards is the old one with [face_enabled] off and no
    template, so the user counts as not enrolled, while salt, hash, id and
    stored image bytes are kept; this is so whatever the call returns.  For
    a name the store does not hold, reset and deletion answer [False] and
    change nothing. *)
Theorem admin_face_reset (w : World) (name : str) :
  (forall u, get_user_by_username (repository w) name = Some u ->
     let cleared := set_face u false None in
     get_user_by_username
       (repository (snd (admin_service.reset_user_face name w))) name = Some cleared /\
     face_not_enrolled cleared = true /\
     salt cleared = salt u /\ password_hash cleared = password_hash u /\
     id cleared = id u /\ face_image_data cleared = face_image_data u) /\
  (get_user_by_username (repository w) name = None ->
     admin_service.reset_user_face name w = (Ok false, w) /\
     admin_service.delete_user name w = (Ok false, w)).
Proof.
  split.
  - intros u Hget. cbv zeta.
    split; [|repeat split].
    unfold admin_service.reset_user_face, try_except, bind, get_repository.
    rewrite Hget.
    destruct (_data_model (repository w)) as [dm|] eqn:Hdm.
    2:{ unfold get_user_by_username in Hget. rewrite Hdm in Hget. discriminate. }
    assert (Hname : username u = name).
    { unfold get_user_by_username in Hget. rewrite Hdm in Hget.
      now destruct (find_user_some_name _ _ Hget). }
    assert (Hfind : find_user (username (set_face u false None)) (users dm) = Some u).
    { unfold get_user_by_username in Hget. rewrite Hdm in Hget. simpl.
      now rewrite Hname. }
    destruct (@replace_user_some _ _ _ Hfind) as [us' Hrep].
    pose proof (update_user_repository w (set_face u false None) Hdm Hrep) as Hrepo.
    destruct (update_user (set_face u false None) w) as [[[]|e] w1]; simpl in *;
      unfold get_user_by_username; rewrite Hrepo; simpl;
      rewrite (@replace_user_find (set_face u false None) name _ _ Hrep);
      simpl; rewrite Hname, str_eqb_refl; reflexivity.
  - intros Hnone. split.
    + unfold admin_service.reset_user_face, try_except, bind, get_repository.
      now rewrite Hnone.
    + unfold admin_service.delete_user, try_except, bind.
      unfold delete_user, bind, get_repository.
      unfold get_user_by_username in Hnone.
      destruct (_data_model (repository w)) as [dm|]; [|reflexivity].
      apply find_user_none in Hnone. now rewrite (@remove_user_none _ _ Hnone).
Qed.

(** X18.  [set_face_threshold] refuses exactly the thresholds for which
    one of the float comparisons threshold < 0.0 and threshold > 1.0
    holds: it answers [False] and nothing changes.  Every other float is
    accepted and becomes the threshold of the loaded store, whose other
    settings and users stay; these are the floats from 0 to 1, and NaN, for
    which both comparisons fail.  Hence a stored threshold that is neither
    below 0 nor above 1 is still so after any call. *)
Theorem face_threshold_stays_in_range (w : World) (threshold : float) :
  ((threshold <? 0)%float || (1 <? threshold)%float = true ->
   security_config.set_face_threshold threshold w = (Ok false, w)) /\
  (forall dm,
     (threshold <? 0)%float || (1 <? threshold)%float = false ->
     _data_model (repository w) = Some dm ->
     let w' := snd (security_config.set_face_threshold threshold w) in
     get_system_config (repository w')
       = security_config.with_face_threshold (config dm) threshold /\
     get_all_users (repository w') = users dm) /\
  (let before := face_threshold (get_system_config (repository w)) in
   let after := face_threshold (get_system_config
                  (repository (snd (security_config.set_face_threshold threshold w)))) in
   (before <? 0)%float || (1 <? before)%float = false ->
   (after <? 0)%float || (1 <? after)%float = false) /\
  (forall dm,
     _data_model (repository w) = Some dm ->
     face_threshold
       (get_system_config
          (repository (snd (security_config.set_face_threshold nan w)))) = nan).
Proof.
  assert (Hin : forall (t : float) dm,
    (t <? 0)%float || (1 <? t)%float = false ->
    _data_model (repository w) = Some dm ->
    repository (snd (security_config.set_face_threshold t w)) =
      mkFileRepository
        (Some (set_config dm (security_config.with_face_threshold (config dm) t)))
        (_data_key (repository w)) (_next_user_id (repository w))).
  { intros t dm Hrange Hdm.
    unfold security_config.set_face_threshold, try_except, bind at 1.
    rewrite Hrange. unfold get_repository at 1. unfold bind at 1.
    unfold save_system_config at 1. unfold bind at 1. unfold get_repository at 1.
    rewrite Hdm. unfold get_system_config. rewrite Hdm.
    pose proof (after_assign_and_save w
      (set_config dm (security_config.with_face_threshold (config dm) t))) as H.
    destruct ((set_data_model _ ;;; save_data)%M w) as [[[]|e] w1]; simpl in *; exact H. }
  split; [|split; [|split]].
  - intros Hout.
    unfold security_config.set_face_threshold, try_except.
    rewrite Hout. reflexivity.
  - intros dm Hrange Hdm. cbv zeta. rewrite (Hin threshold dm Hrange Hdm).
    split; reflexivity.
  - cbv zeta. intros Hbefore.
    destruct (sumbool_of_bool ((threshold <? 0)%float || (1 <? threshold)%float))
      as [E|E].
    + unfold security_config.set_face_threshold, try_except. rewrite E. exact Hbefore.
    + destruct (_data_model (repository w)) as [dm|] eqn:Hdm.
      * rewrite (Hin threshold dm E eq_refl). exact E.
      * assert (Hsame : security_config.set_face_threshold threshold w = (Ok false, w)).
        { unfold security_config.set_face_threshold, try_except, bind,
            get_repository, save_system_config, bind, get_repository.
          rewrite E, Hdm. reflexivity. }
        rewrite Hsame. exact Hbefore.
  - intros dm Hdm. rewrite (Hin nan dm eq_refl Hdm). reflexivity.
Qed.

End Enrolled.

(** ** Reading the log, the cipher wrappers, the distance *)

(** X19.  [get_recent_logs] on the lines of the log file.  Without a file
    it answers no line.  For a positive [count] it answers the last [count]
    lines, or all of them when there are fewer.  For [count] 0 it answers
    every line, not none; for a negative [count] it drops the first
    [-count] lines. *)
Theorem recent_logs_by_count (count : Z) (lines : list str) :
  get_recent_logs count None = [] /\
  ((0 < count)%Z ->
   exists older,
     lines = older ++ get_recent_logs count (Some lines) /\
     List.length (get_recent_logs count (Some lines))
       = Nat.min (Z.to_nat count) (List.length lines)) /\
  (count = 0%Z -> get_recent_logs count (Some lines) = lines) /\
  ((count < 0)%Z ->
   get_recent_logs count (Some lines) = skipn (Z.to_nat (- count)) lines).
Proof.
  split; [reflexivity|]. unfold get_recent_logs, py_slice_from. split; [|split].
  - intros Hpos.
    destruct (Z.of_nat (List.length lines) >? count)%Z eqn:E.
    + apply Z.gtb_lt in E.
      assert (Hneg : (- count <? 0)%Z = true) by (apply Z.ltb_lt; lia).
      rewrite Hneg.
      replace (Z.to_nat (Z.max 0 (Z.of_nat (List.length lines) + - count)))
        with (List.length lines - Z.to_nat count) by lia.
      exists (firstn (List.length lines - Z.to_nat count) lines).
      split; [now rewrite firstn_skipn|]. rewrite length_skipn. lia.
    + exists []. split; [reflexivity|].
      assert (Z.of_nat (List.length lines) <= count)%Z.
      { destruct (Z.gtb_spec (Z.of_nat (List.length lines)) count); [discriminate | lia]. }
      lia.
  - intros ->. destruct (Z.of_nat (List.length lines) >? 0)%Z; reflexivity.
  - intros Hneg.
    assert (E : (Z.of_nat (List.length lines) >? count)%Z = true)
      by (apply Z.gtb_lt; lia).
    rewrite E.
    assert (E2 : (- count <? 0)%Z = false) by (apply Z.ltb_ge; lia).
    now rewrite E2.
Qed.

Section Wrappers.
Context {P : Primitives}.

(** X20.  The cipher wrappers check their arguments before they call the
    library.  [decrypt_aes_gcm] returns a plaintext only for a 32-byte key,
    a 12-byte nonce and a 16-byte tag, and it is then what the library
    returns for the ciphertext followed by the tag; with any other length it
    raises [ValueError].  [encrypt_aes_gcm] with a key that is not 32 bytes
    raises [ValueError] and draws no random bytes. *)
Theorem cipher_wrappers_check_lengths
        (key iv ciphertext tag plaintext : bytes) (aad : option bytes) (w : World) :
  (forall p, decrypt_aes_gcm key iv ciphertext tag aad = Ok p ->
     List.length key = 32 /\ List.length iv = 12 /\ List.length tag = 16 /\
     AESGCM_decrypt key iv (ciphertext ++ tag) aad = Ok p) /\
  (List.length key <> 32 \/ List.length iv <> 12 \/ List.length tag <> 16 ->
   exists e, decrypt_aes_gcm key iv ciphertext tag aad = Raise e /\
             exn_class e = ValueError) /\
  (List.length key <> 32 ->
   exists e, encrypt_aes_gcm key plaintext aad w = (Raise e, w) /\
             exn_class e = ValueError).
Proof.
  unfold decrypt_aes_gcm, encrypt_aes_gcm.
  destruct (List.length key =? 32) eqn:Ek;
    [apply Nat.eqb_eq in Ek | apply Nat.eqb_neq in Ek]; simpl.
  2:{ split; [discriminate|]. split; intros _; eexists; split; reflexivity. }
  destruct (List.length iv =? 12) eqn:Ei;
    [apply Nat.eqb_eq in Ei | apply Nat.eqb_neq in Ei]; simpl.
  2:{ split; [discriminate|]. split; [|contradiction].
      intros _; eexists; split; reflexivity. }
  destruct (List.length tag =? 16) eqn:Et;
    [apply Nat.eqb_eq in Et | apply Nat.eqb_neq in Et]; simpl.
  2:{ split; [discriminate|]. split; [|contradiction].
      intros _; eexists; split; reflexivity. }
  split; [intros p Hp; auto|]. split; [|contradiction].
  intros [H|[H|H]]; contradiction.
Qed.

(** X21.  [compute_distance] case by case.  On two operands in the Face++
    form, with Face++ configured, it never raises and leaves the state as
    it is: when both hex payloads decode and the compare service answers a
    confidence, it returns (100 - confidence) / 100 as binary64 arithmetic
    computes it; when the service raises, or a payload does not decode, it
    returns 1.  With Face++ not configured, and on operands of another
    form, it raises [ValueError] with the text of the case. *)
Theorem compute_distance_outcomes (w : World) (vec1 vec2 : list json) :
  (is_facepp_marker vec1 = true -> is_facepp_marker vec2 = true ->
   FACEPP_AVAILABLE w = true ->
   (forall image1 image2 confidence suggested,
      hex_payload vec1 = Ok image1 -> hex_payload vec2 = Ok image2 ->
      compare_faces_facepp w image1 image2 = Ok (confidence, suggested) ->
      compute_distance vec1 vec2 w = (Ok ((100 - confidence) / 100)%float, w)) /\
   (forall image1 image2 e,
      hex_payload vec1 = Ok image1 -> hex_payload vec2 = Ok image2 ->
      compare_faces_facepp w image1 image2 = Raise e ->
      compute_distance vec1 vec2 w = (Ok 1%float, w)) /\
   ((exists e, hex_payload vec1 = Raise e) \/ (exists e, hex_payload vec2 = Raise e) ->
    compute_distance vec1 vec2 w = (Ok 1%float, w))) /\
  (is_facepp_marker vec1 = true -> is_facepp_marker vec2 = true ->
   FACEPP_AVAILABLE w = false ->
   compute_distance vec1 vec2 w =
     (Raise (Exn ValueError (lit "Face++ image data provided but Face++ not available")),
      w)) /\
  (is_facepp_marker vec1 = false \/ is_facepp_marker vec2 = false ->
   compute_distance vec1 vec2 w =
     (Raise (Exn ValueError
               (lit "Invalid face data format: only Face++ image data is supported")),
      w)).
Proof.
  split; [|split].
  - intros H1 H2 Hav. split; [|split].
    + intros image1 image2 confidence suggested Hx1 Hx2 Hans.
      exact (compute_distance_service_answer w vec1 vec2 H1 H2 Hav Hx1 Hx2 Hans).
    + intros image1 image2 e Hx1 Hx2 Herr.
      exact (compute_distance_service_error w vec1 vec2 H1 H2 Hav Hx1 Hx2 Herr).
    + intros Hbad.
      unfold compute_distance, bind, get_world, try_except, lift.
      rewrite H1, H2. simpl. rewrite Hav.
      destruct Hbad as [[e He]|[e He]].
      * rewrite He. reflexivity.
      * rewrite He. destruct (hex_payload vec1); reflexivity.
  - intros H1 H2 Hav.
    unfold compute_distance, bind, get_world. rewrite H1, H2. simpl. rewrite Hav.
    reflexivity.
  - intros Hbad. unfold compute_distance.
    destruct Hbad as [H|H]; rewrite H; rewrite ?andb_false_r; reflexivity.
Qed.

End Wrappers.

(** ** Encoding and decoding the data model *)

Lemma rmap_map_ok {A B C} (f : B -> result C) (h : A -> B) (g : A -> C) (l : list A) :
  (forall a, f (h a) = Ok (g a)) -> rmap f (List.map h l) = Ok (List.map g l).
Proof.
  intros H. induction l as [|a r IH]; simpl; [reflexivity|].
  now rewrite H, IH.
Qed.

Section ModelCodec.
Context {P : Primitives}.

(** [base64.b64decode] inverts [base64.b64encode], and the encoding of a
    non-empty byte string is a non-empty text. *)
Hypothesis b64decode_b64encode : forall b : bytes, b64decode (b64encode b) = Ok b.
Hypothesis b64encode_nonempty : forall b : bytes, b <> [] -> b64encode b <> [].

Lemma User_from_dict_to_dict (u : User) :
  User_from_dict (User_to_dict u) = Ok (reloaded_user u).
Proof.
  destruct u as [name s h en emb img i].
  destruct img as [[|b r]|], emb as [v|], i as [z|]; try reflexivity;
    unfold User_from_dict, User_to_dict, json_get, json_item, rbind;
    cbn [face_image_data id username salt password_hash face_enabled face_embedding
         opt_json];
    change (dict_lookup (lit "face_image_data") _)
      with (Some (JStr (b64encode (b :: r))));
    cbv beta iota;
    (destruct (b64encode (b :: r)) as [|c t] eqn:E;
     [exfalso; apply (@b64encode_nonempty (b :: r)); [discriminate | exact E]|]);
    cbn [truthy]; rewrite <- E, b64decode_b64encode; reflexivity.
Qed.

Lemma SystemConfig_from_dict_to_dict (c : SystemConfig) :
  SystemConfig_from_dict (SystemConfig_to_dict c) = Ok c.
Proof. destruct c. reflexivity. Qed.

Lemma DataModel_from_dict_to_dict (dm : DataModel) :
  DataModel_from_dict (DataModel_to_dict dm) =
    Ok (mkDataModel (version dm) (List.map reloaded_user (users dm)) (config dm)).
Proof.
  destruct dm as [ver us c].
  unfold DataModel_from_dict, DataModel_to_dict, json_get, rbind.
  cbn [version users config].
  change (dict_lookup (lit "version") _) with (Some (JInt ver)).
  change (dict_lookup (lit "users") _) with (Some (JList (List.map User_to_dict us))).
  change (dict_lookup (lit "config") _) with (Some (SystemConfig_to_dict c)).
  cbv beta iota.
  rewrite (rmap_map_ok User_from_dict User_to_dict reloaded_user us User_from_dict_to_dict).
  cbv beta iota. rewrite SystemConfig_from_dict_to_dict. reflexivity.
Qed.

(** X22.  Decoding what [to_dict] encoded gives the data model back:
    version, configuration and every user with all its fields, except that
    image bytes of length zero come back as [None]. *)
Theorem data_model_encode_decode (dm : DataModel) :
  DataModel_from_dict (DataModel_to_dict dm) =
    Ok (mkDataModel (version dm) (List.map reloaded_user (users dm)) (config dm)) /\
  ((forall u, In u (users dm) -> face_image_data u <> Some []) ->
   DataModel_from_dict (DataModel_to_dict dm) = Ok dm).
Proof.
  split; [apply DataModel_from_dict_to_dict|].
  intros Himg. rewrite DataModel_from_dict_to_dict.
  destruct dm as [ver us c]. simpl in *. do 2 f_equal.
  induction us as [|u r IH]; simpl; [reflexivity|].
  rewrite IH by (intros x Hx; apply Himg; now right). f_equal.
  destruct u as [name s h en emb img i]. unfold reloaded_user. simpl. f_equal.
  specialize (Himg _ (or_introl eq_refl)). simpl in Himg.
  destruct img as [[|b t]|]; [exfalso; now apply Himg | reflexivity | reflexivity].
Qed.

End ModelCodec.

(** X23.  [User.from_dict] on a record that lacks a required key raises
    [KeyError] for the first of username, salt and password hash that is
    missing, whatever else the record holds; the text of the exception is
    the key in quotes, as [str] gives it.  The optional keys id, face
    flag and face data have defaults, so a record with just the three
    required texts decodes to a user without id and without face. *)
Theorem user_record_required_keys {P : Primitives} (d : list (str * json)) (name s h : str) :
  (dict_lookup (lit "username") d = None ->
   User_from_dict (JDict d) = Raise (Exn KeyError (lit "'username'"))) /\
  (dict_lookup (lit "username") d <> None ->
   dict_lookup (lit "salt") d = None ->
   User_from_dict (JDict d) = Raise (Exn KeyError (lit "'salt'"))) /\
  (dict_lookup (lit "username") d <> None ->
   dict_lookup (lit "salt") d <> None ->
   dict_lookup (lit "password_hash") d = None ->
   User_from_dict (JDict d) = Raise (Exn KeyError (lit "'password_hash'"))) /\
  User_from_dict
    (JDict [(lit "username", JStr name); (lit "salt", JStr s);
            (lit "password_hash", JStr h)])
    = Ok (mkUser name s h false None None None).
Proof.
  assert (Himg : forall d0 : list (str * json), exists img,
    (let? fid := json_get (JDict d0) (lit "face_image_data") JNull in
     if truthy fid then
       match (let? raw := json_item (JDict d0) (lit "face_image_data") in
              let? s0 := match raw with
                         | JStr s0 => Ok s0
                         | _ => Raise (Exn TypeError (lit "argument should be a bytes-like object or ASCII string"))
                         end in
              b64decode s0) with
       | Ok b => Ok (Some b)
       | Raise _ => Ok None
       end
     else Ok None)%res = Ok img).
  { intros d0. unfold json_get, json_item, rbind.
    destruct (dict_lookup (lit "face_image_data") d0) as [v|]; [|now exists None].
    destruct (truthy v); [|now exists None].
    destruct v; try (now exists None).
    destruct (b64decode s0); eauto. }
  repeat split.
  - intros Hnone. unfold User_from_dict.
    destruct (Himg d) as [img Hi]. unfold rbind in *.
    destruct (json_get (JDict d) (lit "face_image_data") JNull) as [fid|e];
      [|discriminate]. rewrite Hi. unfold json_get, json_item.
    destruct (dict_lookup (lit "id") d); rewrite Hnone; reflexivity.
  - intros Hname Hnone. unfold User_from_dict.
    destruct (Himg d) as [img Hi]. unfold rbind in *.
    destruct (json_get (JDict d) (lit "face_image_data") JNull) as [fid|e];
      [|discriminate]. rewrite Hi. unfold json_get, json_item.
    destruct (dict_lookup (lit "username") d); [|contradiction].
    destruct (dict_lookup (lit "id") d); rewrite Hnone; reflexivity.
  - intros Hname Hsalt Hnone. unfold User_from_dict.
    destruct (Himg d) as [img Hi]. unfold rbind in *.
    destruct (json_get (JDict d) (lit "face_image_data") JNull) as [fid|e];
      [|discriminate]. rewrite Hi. unfold json_get, json_item.
    destruct (dict_lookup (lit "username") d); [|contradiction].
    destruct (dict_lookup (lit "salt") d); [|contradiction].
    destruct (dict_lookup (lit "id") d); rewrite Hnone; reflexivity.
Qed.

(** ** Saving and loading the store file *)

Lemma truthy_ids_reloaded (us : list User) :
  truthy_ids (List.map reloaded_user us) = truthy_ids us.
Proof.
  induction us as [|u r IH]; simpl; [reflexivity|]. now rewrite IH.
Qed.

Section Persistence.
Context {P : Primitives}.

(** What a [save_data] that has a model and a 32-byte key does. *)
Lemma save_data_run (w : World) (dm : DataModel) (key : bytes) :
  _data_model (repository w) = Some dm ->
  _data_key (repository w) = Some key ->
  List.length key = 32 ->
  exists nonce,
    os_urandom 12 w = (Ok nonce, with_urandom_pos w (urandom_pos w + 12)) /\
    List.length nonce = 12 /\
    save_data w =
      (Ok tt,
       with_data_bin (with_urandom_pos w (urandom_pos w + 12))
         (Some (nonce ++ AESGCM_encrypt key nonce (plaintext_of dm) None))).
Proof.
  intros Hdm Hkey Hlen.
  destruct (os_urandom_ok 12 w) as [nonce [Hrand Hn]].
  exists nonce. split; [exact Hrand|]. split; [exact Hn|].
  unfold save_data, bind, get_repository. rewrite Hdm, Hkey.
  unfold encrypt_aes_gcm, bind. rewrite Hlen.
  replace (negb (32 =? 32)) with false by reflexivity. cbv beta iota.
  rewrite Hrand. unfold ret, write_data_bin. cbv beta iota zeta.
  now rewrite slice_neg_16_rejoin.
Qed.

Hypothesis AESGCM_encrypt_length : forall key iv data aad,
  List.length (AESGCM_encrypt key iv data aad) = List.length data + 16.

(** X24.  [save_data] on a loaded store with a 32-byte key returns and
    overwrites the file with a fresh 12-byte nonce followed by the output
    of the cipher for the encoded model, 28 bytes at least; it draws the
    12 bytes of the nonce from the random source and changes nothing else:
    repository, log and face environment are as before. *)
Theorem save_data_writes_nonce_and_sealed_model
        (w : World) (dm : DataModel) (key : bytes) :
  _data_model (repository w) = Some dm ->
  _data_key (repository w) = Some key ->
  List.length key = 32 ->
  exists nonce file,
    fst (save_data w) = Ok tt /\
    data_bin (snd (save_data w)) = Some file /\
    file = nonce ++ AESGCM_encrypt key nonce (plaintext_of dm) None /\
    fst (os_urandom 12 w) = Ok nonce /\
    List.length nonce = 12 /\
    List.length file = 12 + List.length (plaintext_of dm) + 16 /\
    urandom_pos (snd (save_data w)) = urandom_pos w + 12 /\
    repository (snd (save_data w)) = repository w /\
    auth_log (snd (save_data w)) = auth_log w /\
    face_env (snd (save_data w)) = face_env w.
Proof.
  intros Hdm Hkey Hlen.
  destruct (save_data_run w Hdm Hkey Hlen) as [nonce [Hrand [Hn Hrun]]].
  exists nonce, (nonce ++ AESGCM_encrypt key nonce (plaintext_of dm) None).
  rewrite Hrun, Hrand. simpl.
  repeat split; try reflexivity; try assumption.
  rewrite length_app, AESGCM_encrypt_length, Hn. lia.
Qed.

Hypothesis AESGCM_decrypt_encrypt : forall key iv data aad,
  List.length key = 32 -> List.length iv = 12 ->
  AESGCM_decrypt key iv (AESGCM_encrypt key iv data aad) aad = Ok data.
Hypothesis b64decode_b64encode : forall b : bytes, b64decode (b64encode b) = Ok b.
Hypothesis b64encode_nonempty : forall b : bytes, b <> [] -> b64encode b <> [].

(** The framing of [load_data] takes a file written by [save_data] apart
    into the nonce and the two parts of the cipher output. *)
Lemma framing_of_saved_file (nonce sealed : bytes) :
  List.length nonce = 12 -> 16 <= List.length sealed ->
  slice_to 12 (nonce ++ sealed) = nonce /\
  slice_between_neg 12 16 (nonce ++ sealed) ++ slice_from_neg 16 (nonce ++ sealed)
    = sealed /\
  List.length (slice_from_neg 16 (nonce ++ sealed)) = 16.
Proof.
  intros Hn Hs. unfold slice_to, slice_between_neg, slice_from_neg.
  rewrite length_app, Hn.
  replace (12 + List.length sealed - 16) with (12 + (List.length sealed - 16)) by lia.
  set (k := List.length sealed - 16).
  assert (H0 : firstn 12 (nonce ++ sealed) = nonce).
  { rewrite firstn_app, Hn, Nat.sub_diag, firstn_all2 by lia. apply app_nil_r. }
  assert (H1 : firstn (12 + k) (nonce ++ sealed) = nonce ++ firstn k sealed).
  { rewrite <- Hn. apply firstn_app_2. }
  assert (H2 : skipn (12 + k) (nonce ++ sealed) = skipn k sealed).
  { rewrite skipn_app, Hn, skipn_all2 by lia.
    replace (12 + k - 12) with k by lia. reflexivity. }
  assert (H3 : skipn 12 (nonce ++ firstn k sealed) = firstn k sealed).
  { rewrite skipn_app, Hn, Nat.sub_diag, skipn_all2 by lia. reflexivity. }
  rewrite H0, H1, H2, H3.
  split; [reflexivity|].
  split; [apply firstn_skipn | rewrite length_skipn; unfold k; lia].
Qed.

(** X25.  What [save_data] wrote, [load_data] reads back.  After a save
    with a 32-byte key, a new process (a fresh repository object) that
    loads the file with the same key holds the saved model again, except
    that image bytes of length zero come back as [None], and its id counter
    is 1 + the greatest non-zero id of the users, or 1 when there is no
    user.  The file is not rewritten by the load. *)
Theorem save_then_load (w : World) (dm : DataModel) (key : bytes) :
  _data_model (repository w) = Some dm ->
  _data_key (repository w) = Some key ->
  List.length key = 32 ->
  bytes_decode_utf8 (plaintext_of dm) = Ok (json_dumps (DataModel_to_dict dm)) ->
  json_loads (json_dumps (DataModel_to_dict dm)) = Ok (DataModel_to_dict dm) ->
  (users dm = [] \/ truthy_ids (users dm) <> []) ->
  let saved := snd (save_data w) in
  let reloaded :=
    mkDataModel (version dm) (List.map reloaded_user (users dm)) (config dm) in
  exists next,
    load_data key (with_repository saved FileRepository_init) =
      (Ok tt, with_repository saved (mkFileRepository (Some reloaded) (Some key) next)) /\
    match users dm with
    | [] => next = 1%Z
    | _ :: _ => py_max (truthy_ids (users dm)) = Ok (next - 1)%Z
    end.
Proof.
  intros Hdm Hkey Hlen Hutf Hjson Hids. cbv zeta.
  destruct (save_data_run w Hdm Hkey Hlen) as [nonce [Hrand [Hn Hrun]]].
  rewrite Hrun. cbn [snd].
  set (sealed := AESGCM_encrypt key nonce (plaintext_of dm) None).
  assert (Hsealed : List.length sealed = List.length (plaintext_of dm) + 16)
    by apply AESGCM_encrypt_length.
  destruct (@framing_of_saved_file nonce sealed Hn) as [Hiv [Hjoin Htag]]; [lia|].
  set (w1 := with_data_bin _ _).
  assert (Hdec : decrypt_aes_gcm key (slice_to 12 (nonce ++ sealed))
                   (slice_between_neg 12 16 (nonce ++ sealed))
                   (slice_from_neg 16 (nonce ++ sealed)) None = Ok (plaintext_of dm)).
  { unfold decrypt_aes_gcm. rewrite Hlen, Hiv, Hn, Htag, Hjoin. simpl.
    now apply AESGCM_decrypt_encrypt. }
  assert (Hlong : (List.length (nonce ++ sealed) <? 28) = false).
  { apply Nat.ltb_ge. rewrite length_app. lia. }
  assert (Hfrom : DataModel_from_dict (DataModel_to_dict dm) =
            Ok (mkDataModel (version dm) (List.map reloaded_user (users dm)) (config dm)))
    by now apply DataModel_from_dict_to_dict.
  assert (Hmig : SchemaMigration.migrate (DataModel_to_dict dm) = Ok (DataModel_to_dict dm))
    by apply migrate_dict.
  destruct (users dm) as [|first others] eqn:Husers.
  - exists 1%Z. split; [|reflexivity].
    unfold load_data, bind, set_data_key, get_world. cbn [fst snd].
    cbn [data_bin with_repository with_data_bin w1]. rewrite Hlong.
    unfold try_except_class, try_except, bind, lift. rewrite Hdec.
    cbv beta iota. rewrite Hutf. cbv beta iota. rewrite Hjson. cbv beta iota.
    rewrite Hmig. cbv beta iota. rewrite Hfrom. cbv beta iota.
    reflexivity.
  - destruct Hids as [Hids|Hids]; [discriminate|].
    destruct (py_max (truthy_ids (first :: others))) as [m|e] eqn:Hmax.
    2:{ destruct (truthy_ids (first :: others)); [contradiction | discriminate]. }
    exists (m + 1)%Z. split; [|f_equal; lia].
    unfold load_data, bind, set_data_key, get_world. cbn [fst snd].
    cbn [data_bin with_repository with_data_bin w1]. rewrite Hlong.
    unfold try_except_class, try_except, bind, lift. rewrite Hdec.
    cbv beta iota. rewrite Hutf. cbv beta iota. rewrite Hjson. cbv beta iota.
    rewrite Hmig. cbv beta iota. rewrite Hfrom. cbv beta iota.
    unfold set_data_model. cbv beta iota zeta. cbn [users List.map].
    change (reloaded_user first :: List.map reloaded_user others)
      with (List.map reloaded_user (first :: others)).
    rewrite truthy_ids_reloaded, Hmax. reflexivity.
Qed.

End Persistence.

(** ** First run and failed loads *)

Section FirstRun.
Context {P : Primitives}.

(** [load_data] without a store file and with a 32-byte key. *)
Lemma load_data_no_file (w : World) (key : bytes) :
  data_bin w = None -> List.length key = 32 ->
  exists nonce,
    fst (os_urandom 12 w) = Ok nonce /\
    load_data key w =
      (Ok tt,
       with_data_bin
         (with_urandom_pos
            (with_repository w
               (mkFileRepository (Some empty_model) (Some key)
                                 (_next_user_id (repository w))))
            (urandom_pos w + 12))
         (Some (nonce ++ AESGCM_encrypt key nonce (plaintext_of empty_model) None))).
Proof.
  intros Hfile Hlen.
  set (loaded := mkFileRepository (Some empty_model) (Some key)
                                  (_next_user_id (repository w))).
  set (w0 := with_repository w loaded).
  destruct (@save_data_run P w0 empty_model key eq_refl eq_refl Hlen)
    as [nonce [Hrand [Hn Hrun]]].
  exists nonce. split.
  - assert (Hsame : fst (os_urandom 12 w) = fst (os_urandom 12 w0))
      by apply os_urandom_with_repository.
    rewrite Hsame, Hrand. reflexivity.
  - unfold load_data, bind, set_data_key, get_world, set_data_model.
    cbn [fst snd data_bin with_repository]. rewrite Hfile.
    cbv beta iota zeta. cbn [repository with_repository _data_key _next_user_id].
    fold empty_model. fold loaded. fold w0. exact Hrun.
Qed.

(** X26.  [load_data] when there is no store file.  The key is kept, the
    empty model of version 1 with the default configuration is installed
    and, with a 32-byte key, written at once: the file then holds a nonce
    and the sealed empty model.  With a key of another length the write
    raises [ValueError], no file is made, and the repository is left with
    the key and the empty model installed. *)
Theorem load_data_first_run (w : World) (key : bytes) :
  data_bin w = None ->
  let loaded :=
    mkFileRepository (Some empty_model) (Some key) (_next_user_id (repository w)) in
  (List.length key = 32 ->
   exists nonce,
     fst (os_urandom 12 w) = Ok nonce /\
     load_data key w =
       (Ok tt,
        with_data_bin
          (with_urandom_pos (with_repository w loaded) (urandom_pos w + 12))
          (Some (nonce ++ AESGCM_encrypt key nonce (plaintext_of empty_model) None)))) /\
  (List.length key <> 32 ->
   load_data key w =
     (Raise (Exn ValueError (lit "密钥长度必须为32字节（AES-256）")),
      with_repository w loaded)).
Proof.
  intros Hfile loaded. split; intros Hlen.
  - exact (@load_data_no_file w key Hfile Hlen).
  - unfold load_data, bind, set_data_key, get_world, set_data_model.
    cbn [fst snd data_bin with_repository]. rewrite Hfile.
    cbv beta iota zeta. cbn [repository with_repository _data_key _next_user_id].
    fold empty_model. fold loaded.
    unfold save_data, bind, get_repository.
    cbn [repository with_repository _data_model _data_key loaded].
    unfold encrypt_aes_gcm.
    apply Nat.eqb_neq in Hlen. rewrite Hlen. reflexivity.
Qed.

(** X27.  Two ways in which [load_data] fails on a file that is there.  A
    file of fewer than 28 bytes is refused with [ValueError] before any
    decryption: the key is kept, model, counter and file are as before.
    A file that decrypts and decodes to a model with users none of which
    has a non-zero id makes the computation of the next id raise
    [ValueError]; this happens after the model was installed, so the
    repository is left loaded with that model and the counter it had. *)
Theorem load_data_other_failures (w : World) (key file : bytes) :
  data_bin w = Some file ->
  (List.length file < 28 ->
   load_data key w =
     (Raise (Exn ValueError (lit "data.bin 文件格式错误：文件太小")),
      with_repository w
        (mkFileRepository (_data_model (repository w)) (Some key)
                          (_next_user_id (repository w))))) /\
  (forall plaintext text d dm,
     28 <= List.length file ->
     decrypt_aes_gcm key (slice_to 12 file) (slice_between_neg 12 16 file)
                     (slice_from_neg 16 file) None = Ok plaintext ->
     bytes_decode_utf8 plaintext = Ok text ->
     json_loads text = Ok (JDict d) ->
     DataModel_from_dict (JDict d) = Ok dm ->
     users dm <> [] ->
     truthy_ids (users dm) = [] ->
     exists e,
       exn_class e = ValueError /\
       load_data key w =
         (Raise e,
          with_repository w
            (mkFileRepository (Some dm) (Some key) (_next_user_id (repository w))))).
Proof.
  intros Hfile. split.
  - intros Hlen. unfold load_data, bind, set_data_key, get_world.
    cbn [fst snd data_bin with_repository]. rewrite Hfile.
    apply Nat.ltb_lt in Hlen. rewrite Hlen. reflexivity.
  - intros plaintext text d dm Hlen Hdec Hutf Hjson Hfrom Husers Hids.
    exists (Exn ValueError (lit "max() arg is an empty sequence")).
    split; [reflexivity|].
    unfold load_data, bind, set_data_key, get_world.
    cbn [fst snd data_bin with_repository]. rewrite Hfile.
    apply Nat.ltb_ge in Hlen. rewrite Hlen.
    unfold try_except_class, try_except, bind, lift. rewrite Hdec.
    cbv beta iota. rewrite Hutf. cbv beta iota. rewrite Hjson. cbv beta iota.
    rewrite migrate_dict. cbv beta iota. rewrite Hfrom. cbv beta iota.
    unfold set_data_model. cbv beta iota zeta.
    destruct (users dm) as [|first others] eqn:Hus; [contradiction|].
    rewrite Hids. reflexivity.
Qed.

End FirstRun.

(** ** The data key, start-up and the administrator's key *)

Section KeyFiles.
Context {P : Primitives}.

(** X28.  The data key is made once.  On a system without key file and
    without cached key, [load_or_init_data_key] draws 32 random bytes,
    writes them to the key file, caches them and returns them.  Every
    later call returns the same key and changes nothing, and so does a
    call after [clear_cached_key], which reads the key back from the file
    and caches it again. *)
Theorem data_key_created_once (s : System) :
  _cached_data_key s = None ->
  data_key_file s = None ->
  exists key,
    let s1 := snd (key_manager.load_or_init_data_key s) in
    fst (key_manager.load_or_init_data_key s) = Ok key /\
    List.length key = 32 /\
    fst (key_manager.generate_random_key 32 (world s)) = Ok key /\
    data_key_file s1 = Some key /\
    _cached_data_key s1 = Some key /\
    admin_key_file s1 = admin_key_file s /\
    fst (key_manager.key_exists s1) = Ok true /\
    key_manager.load_or_init_data_key s1 = (Ok key, s1) /\
    key_manager.get_data_key s1 = (Ok key, s1) /\
    key_manager.load_or_init_data_key (snd (key_manager.clear_cached_key s1)) =
      (Ok key, s1).
Proof.
  intros Hcache Hfile.
  destruct (os_urandom_ok 32 (world s)) as [key [Hrand Hlen]].
  exists key.
  assert (Hrun : key_manager.load_or_init_data_key s =
            (Ok key,
             mkSystem (with_urandom_pos (world s) (urandom_pos (world s) + 32))
                      (Some key) (admin_key_file s) (Some key))).
  { unfold key_manager.load_or_init_data_key, sbind, get_system.
    rewrite Hcache, Hfile. unfold in_world, key_manager.generate_random_key.
    unfold AES_KEY_LENGTH. rewrite Hrand. reflexivity. }
  rewrite Hrun. cbv zeta. cbn [fst snd].
  unfold key_manager.generate_random_key. rewrite Hrand.
  repeat split; try assumption.
  unfold key_manager.clear_cached_key, key_manager.load_or_init_data_key,
    sbind, get_system.
  cbn [fst snd _cached_data_key data_key_file with_cached_data_key].
  unfold AES_KEY_LENGTH. rewrite Hlen. reflexivity.
Qed.

(** X29.  Start-up.  [init_data] never raises.  On a system with neither
    key file nor store file it leaves a key file with a fresh 32-byte key
    and a store file sealed with that key, and the repository loaded with
    the empty model.  When the key file is there but is not 32 bytes long,
    [load_or_init_data_key] raises [ValueError], and [init_data] returns
    all the same and has changed nothing: the repository stays as it was,
    not loaded at the start of the application. *)
Theorem init_data_outcomes (s : System) :
  _cached_data_key s = None ->
  fst (main.init_data s) = Ok tt /\
  (data_key_file s = None -> data_bin (world s) = None ->
   exists key file,
     let s1 := snd (main.init_data s) in
     List.length key = 32 /\
     data_key_file s1 = Some key /\
     _cached_data_key s1 = Some key /\
     repository (world s1) =
       mkFileRepository (Some empty_model) (Some key)
                        (_next_user_id (repository (world s))) /\
     data_bin (world s1) = Some file /\
     auth_log (world s1) = auth_log (world s)) /\
  (forall k, data_key_file s = Some k -> List.length k <> 32 ->
     (exists e, exn_class e = ValueError /\
                key_manager.load_or_init_data_key s = (Raise e, s)) /\
     main.init_data s = (Ok tt, s)).
Proof.
  intros Hcache. split; [|split].
  - unfold main.init_data, stry_except.
    destruct (sbind _ _ s) as [[[]|e] s']; reflexivity.
  - intros Hfile Hbin.
    destruct (os_urandom_ok 32 (world s)) as [key [Hrand Hlen]].
    set (w1 := with_urandom_pos (world s) (urandom_pos (world s) + 32)).
    assert (Hbin1 : data_bin w1 = None) by exact Hbin.
    destruct (@load_data_no_file P w1 key Hbin1 Hlen) as [nonce [_ Hload]].
    exists key. eexists.
    unfold main.init_data, stry_except, sbind, key_manager.load_or_init_data_key,
      sbind, get_system.
    rewrite Hcache, Hfile. unfold in_world, key_manager.generate_random_key.
    unfold AES_KEY_LENGTH. rewrite Hrand.
    cbn [fst snd sret world with_data_key_file with_cached_data_key].
    fold w1. change (world (with_world s w1)) with w1.
    rewrite Hload. cbv zeta. cbn [fst snd].
    repeat split; try assumption; reflexivity.
  - intros k Hfile Hlen.
    assert (Hrun : key_manager.load_or_init_data_key s =
              (Raise (Exn ValueError
                        (lit "data.key 文件损坏：期望" ++ str_of_nat AES_KEY_LENGTH
                           ++ lit "字节，实际" ++ str_of_nat (List.length k)
                           ++ lit "字节")), s)).
    { unfold key_manager.load_or_init_data_key, sbind, get_system.
      rewrite Hcache, Hfile. unfold AES_KEY_LENGTH.
      apply Nat.eqb_neq in Hlen. rewrite Hlen. reflexivity. }
    split.
    + eexists. split; [|exact Hrun]. reflexivity.
    + unfold main.init_data, stry_except, sbind. rewrite Hrun. reflexivity.
Qed.

End KeyFiles.

(** ** The administrator's key file *)






Section AdminKey.
Context {P : Primitives}.
Hypothesis b64decode_b64encode : forall b : bytes, b64decode (b64encode b) = Ok b.

Import admin_service.


End AdminKey.

(** ** Usernames from registration to login *)

Section StrippedUsernames.
Context {P : Primitives}.



End StrippedUsernames.

(** ** Password change and the face check *)

Section PasswordChange.
Context {P : Primitives}.











End PasswordChange.

(** * The further properties on concrete runs *)

Import Cases.

(** The executable instance obeys the laws assumed of base64. *)
Lemma run_byte_of_cp_to_N (b : byte) : byte_of_cp (Byte.to_N b) = b.
Proof. destruct b; reflexivity. Qed.

Lemma run_b64decode_b64encode (b : bytes) : b64decode (b64encode b) = Ok b.
Proof.
  simpl. rewrite map_map. f_equal.
  rewrite <- (map_id b) at 2. apply map_ext. exact run_byte_of_cp_to_N.
Qed.

Lemma run_b64encode_nonempty (b : bytes) : b <> [] -> b64encode b <> [].
Proof. destruct b; [congruence | discriminate]. Qed.

Lemma alice_world_model : _data_model (repository alice_world) = Some alice_model.
Proof. vm_compute. reflexivity. Qed.

(** X1 on dave, inserted into the empty store. *)
Lemma save_user_then_lookup_witness :
  get_all_users (repository (after (save_user (new_user (lit "dave"))) (world0 no_match)))
    = [set_id (new_user (lit "dave")) (Some 1%Z)] /\
  _next_user_id (repository (after (save_user (new_user (lit "dave"))) (world0 no_match)))
    = 2%Z /\
  get_user_by_username
    (repository (after (save_user (new_user (lit "dave"))) (world0 no_match)))
    (lit "dave") = Some (set_id (new_user (lit "dave")) (Some 1%Z)).
Proof.
  destruct (@save_user_then_lookup run_primitives (world0 no_match)
              (new_user (lit "dave")) empty_model)
    as [H1 [H2 [H3 _]]].
  - reflexivity.
  - reflexivity.
  - reflexivity.
  - split; [exact H1|]. split; [exact H2 | exact H3].
Defined.

(** X2 on dave, inserted with the id 7 into alice's store, whose counter is 2. *)
Lemma save_user_keeps_given_id_witness :
  get_user_by_username
    (repository (after (save_user (set_id (new_user (lit "dave")) (Some 7%Z))) alice_world))
    (lit "dave") = Some (set_id (new_user (lit "dave")) (Some 7%Z)) /\
  _next_user_id
    (repository (after (save_user (set_id (new_user (lit "dave")) (Some 7%Z))) alice_world))
    = _next_user_id (repository alice_world).
Proof.
  destruct (@save_user_keeps_given_id run_primitives alice_world
              (set_id (new_user (lit "dave")) (Some 7%Z)) alice_model 7%Z)
    as [_ [H2 H3]].
  - exact alice_world_model.
  - vm_compute. reflexivity.
  - reflexivity.
  - split; [exact H3 | exact H2].
Defined.

(** X3 on alice, deleted from her store. *)
Lemma delete_user_then_lookup_witness :
  get_user_by_username
    (repository (after (delete_user (lit "alice")) alice_world)) (lit "alice") = None /\
  S (List.length (get_all_users (repository (after (delete_user (lit "alice")) alice_world))))
    = 1 /\
  _next_user_id (repository (after (delete_user (lit "alice")) alice_world)) = 2%Z.
Proof.
  destruct (@delete_user_then_lookup run_primitives alice_world (lit "alice") alice_model)
    as [H1 [_ [H3 H4]]].
  - exact alice_world_model.
  - vm_compute. constructor; [intros [] | constructor].
  - vm_compute. left. reflexivity.
  - split; [exact H1|]. split; [exact H3 | exact H4].
Defined.

(** X4 on bob, whom alice's store does not hold. *)
Lemma unknown_user_is_an_error_witness :
  update_user (new_user (lit "bob")) alice_world =
    (Raise (Exn ValueError (lit "用户 '" ++ lit "bob" ++ lit "' 不存在")), alice_world) /\
  delete_user (lit "bob") alice_world =
    (Raise (Exn ValueError (lit "用户 '" ++ lit "bob" ++ lit "' 不存在")), alice_world).
Proof.
  destruct (@unknown_user_is_an_error run_primitives alice_world
              (new_user (lit "bob")) (lit "bob") alice_model) as [H1 H2].
  - exact alice_world_model.
  - split; [apply H1 | apply H2]; vm_compute; reflexivity.
Defined.

(** X5 on alice, whose record is replaced. *)
Lemma update_user_then_lookup_witness :
  get_user_by_username
    (repository (after (update_user (new_user (lit "alice"))) alice_world)) (lit "alice")
    = Some (new_user (lit "alice")) /\
  usernames (get_all_users (repository (after (update_user (new_user (lit "alice")))
                                              alice_world)))
    = [lit "alice"].
Proof.
  edestruct (@update_user_then_lookup run_primitives alice_world (new_user (lit "alice")))
    as [H1 [_ [H3 _]]].
  - exact alice_world_model.
  - vm_compute. reflexivity.
  - split; [exact H1 | exact H3].
Defined.

(** X6 on a new process that has not loaded alice's store. *)
Lemma unloaded_repository_witness :
  save_user (new_user (lit "bob")) (restarted alice_world) =
    (Raise (Exn ValueError (lit "数据模型未初始化")), restarted alice_world) /\
  delete_user (lit "alice") (restarted alice_world) =
    (Raise (Exn ValueError (lit "数据模型未初始化")), restarted alice_world) /\
  get_user_by_username (repository (restarted alice_world)) (lit "alice") = None /\
  get_system_config (repository (restarted alice_world)) = SystemConfig_default.
Proof.
  destruct (@unloaded_repository run_primitives (restarted alice_world))
    as [H1 [_ [H3 [_ [_ [H6 [_ H8]]]]]]].
  - reflexivity.
  - split; [apply H1|]. split; [apply H3|]. split; [apply H6 | exact H8].
Defined.

(** X10 on a blank username and on a password of three characters. *)
Lemma register_user_rejects_invalid_input_witness :
  register_user (lit "   ") (lit "secret1") (world0 no_match) =
    (Ok (mkAuthResult false (lit "用户名不能为空") None), world0 no_match) /\
  register_user (lit "bob") (lit "abc") (world0 no_match) =
    (Ok (mkAuthResult false (lit "密码长度至少6位") None), world0 no_match).
Proof.
  split.
  - destruct (@register_user_rejects_invalid_input run_primitives (world0 no_match)
                (lit "   ") (lit "secret1")) as [H _].
    apply H. vm_compute. reflexivity.
  - destruct (@register_user_rejects_invalid_input run_primitives (world0 no_match)
                (lit "bob") (lit "abc")) as [_ H].
    apply H; [vm_compute; discriminate | vm_compute; lia].
Defined.

(** X11 on alice's login after two-factor login was turned off. *)
Lemma single_factor_mode_witness :
  authenticate_user (lit "alice") (lit "secret1") single_factor_world =
  authenticate_password_only (lit "alice") (lit "secret1") single_factor_world.
Proof.
  apply (@single_factor_mode run_primitives single_factor_world).
  vm_compute. reflexivity.
Defined.

(** X12 on bob, who registers in alice's store and logs in. *)
Lemma register_then_login_witness :
  exists account,
    fst (authenticate_password_only (lit "bob") (lit "secret2")
           (after (register_user (lit "bob") (lit "secret2")) alice_world)) =
      Ok (mkAuthResult true (lit "用户 '" ++ strip (lit "bob") ++ lit "' 登录成功")
            (Some account)).
Proof.
  destruct (register_user (lit "bob") (lit "secret2") alice_world)
    as [[r|e] w1] eqn:Hrun.
  - destruct (@register_then_login run_primitives run_b64decode_b64encode
                alice_world w1 (lit "bob") (lit "secret2") r Hrun)
      as [account [_ Hlogin]].
    + vm_compute in Hrun. inversion Hrun. reflexivity.
    + exists account. unfold after. rewrite Hrun. cbn [snd]. rewrite Hlogin. reflexivity.
  - vm_compute in Hrun. discriminate.
Defined.

(** X13 on alice, who changes her password and logs in with the new one. *)
Lemma change_password_then_login_witness :
  exists account,
    fst (authenticate_password_only (lit "alice") (lit "secret2")
           (after (change_password (lit "alice") (lit "secret1") (lit "secret2"))
                  alice_world)) =
      Ok (mkAuthResult true (lit "用户 '" ++ strip (lit "alice") ++ lit "' 登录成功")
            (Some account)).
Proof.
  destruct (change_password (lit "alice") (lit "secret1") (lit "secret2") alice_world)
    as [[r|e] w1] eqn:Hrun.
  - destruct (@change_password_then_login run_primitives run_b64decode_b64encode
                alice_world w1 (lit "alice") (lit "secret1") (lit "secret2") r Hrun)
      as [before [salt_bytes [_ [_ Hlogin]]]].
    + vm_compute in Hrun. inversion Hrun. reflexivity.
    + eexists. unfold after. rewrite Hrun. cbn [snd]. rewrite Hlogin. reflexivity.
  - vm_compute in Hrun. discriminate.
Defined.


(** X15 on erin: a confidence of 90 gives a distance below the threshold
    0.5; a confidence of 0 gives the distance 1, above it. *)
Lemma two_factor_decision_witness :
  (exists u,
     fst (authenticate_user (lit "erin") (lit "secret1") erin_world_match) =
       Ok (mkAuthResult true (lit "用户 '" ++ lit "erin" ++ lit "' 双因素认证成功")
             (Some u))) /\
  (exists text,
     fst (authenticate_user (lit "erin") (lit "secret1") erin_world) =
       Ok (mkAuthResult false text None)).
Proof.
  split.
  - edestruct (@two_factor_decision run_primitives erin_world_match
                 (lit "erin") (lit "secret1")) as [Hle _].
    + vm_compute. discriminate.
    + vm_compute. discriminate.
    + vm_compute. reflexivity.
    + vm_compute. reflexivity.
    + vm_compute. reflexivity.
    + vm_compute. reflexivity.
    + vm_compute. reflexivity.
    + vm_compute. reflexivity.
    + vm_compute. reflexivity.
    + vm_compute. reflexivity.
    + vm_compute. reflexivity.
    + vm_compute. reflexivity.
    + vm_compute. reflexivity.
    + vm_compute. reflexivity.
    + vm_compute. reflexivity.
    + vm_compute. reflexivity.
    + destruct Hle as [H _]; [vm_compute; reflexivity|].
      eexists. exact H.
  - edestruct (@two_factor_decision run_primitives erin_world
                 (lit "erin") (lit "secret1")) as [_ Hgt].
    + vm_compute. discriminate.
    + vm_compute. discriminate.
    + vm_compute. reflexivity.
    + vm_compute. reflexivity.
    + vm_compute. reflexivity.
    + vm_compute. reflexivity.
    + vm_compute. reflexivity.
    + vm_compute. reflexivity.
    + vm_compute. reflexivity.
    + vm_compute. reflexivity.
    + vm_compute. reflexivity.
    + vm_compute. reflexivity.
    + vm_compute. reflexivity.
    + vm_compute. reflexivity.
    + vm_compute. reflexivity.
    + vm_compute. reflexivity.
    + destruct Hgt as [H _]; [vm_compute; reflexivity|].
      eexists. exact H.
Defined.

(** X16 on frank, who registers with a face in the empty store. *)
Lemma enrolment_after_registration_witness :
  exists registered,
    fst (register_user_with_face (lit "frank") (lit "secret1") (world0 no_match)) =
      Ok (mkAuthResult true (lit "用户 '" ++ lit "frank" ++ lit "' 注册并录入人脸成功")
            (Some (set_face registered true (Some probe)))) /\
    get_user_by_username
      (repository (snd (register_user_with_face (lit "frank") (lit "secret1")
                          (world0 no_match))))
      (strip (lit "frank")) = Some (set_face registered true (Some probe)).
Proof.
  destruct (register_user (lit "frank") (lit "secret1") (world0 no_match))
    as [[r|e] w1] eqn:Hrun.
  - destruct (@enrolment_after_registration run_primitives (world0 no_match) w1
                (lit "frank") (lit "secret1") r Hrun)
      as [registered [_ [_ [_ Hok]]]].
    + vm_compute in Hrun. inversion Hrun. reflexivity.
    + exists registered. apply Hok; reflexivity.
  - vm_compute in Hrun. discriminate.
Defined.

(** X17 on erin, whose face the administrator resets, and on bob, whom the
    store does not hold. *)
Lemma admin_face_reset_witness :
  (exists u,
     get_user_by_username (repository erin_world) (lit "erin") = Some u /\
     face_enabled u = true /\
     get_user_by_username
       (repository (snd (admin_service.reset_user_face (lit "erin") erin_world)))
       (lit "erin") = Some (set_face u false None)) /\
  admin_service.reset_user_face (lit "bob") erin_world = (Ok false, erin_world) /\
  admin_service.delete_user (lit "bob") erin_world = (Ok false, erin_world).
Proof.
  split.
  - destruct (get_user_by_username (repository erin_world) (lit "erin"))
      as [u|] eqn:Hget.
    + destruct (@admin_face_reset run_primitives erin_world (lit "erin")) as [H _].
      destruct (H u Hget) as [H1 _].
      exists u. split; [reflexivity|]. split; [|exact H1].
      vm_compute in Hget. inversion Hget. reflexivity.
    + vm_compute in Hget. discriminate.
  - destruct (@admin_face_reset run_primitives erin_world (lit "bob")) as [_ H].
    apply H. vm_compute. reflexivity.
Defined.

(** X18 on alice's store: 1.5 is refused, 0.25 becomes the threshold, and
    so does NaN. *)
Lemma face_threshold_stays_in_range_witness :
  security_config.set_face_threshold 1.5 alice_world = (Ok false, alice_world) /\
  get_system_config
    (repository (snd (security_config.set_face_threshold 0.25 alice_world)))
    = security_config.with_face_threshold (config alice_model) 0.25 /\
  face_threshold
    (get_system_config
       (repository (snd (security_config.set_face_threshold nan alice_world)))) = nan.
Proof.
  split; [|split].
  - destruct (@face_threshold_stays_in_range run_primitives alice_world 1.5%float)
      as [H _].
    apply H. vm_compute. reflexivity.
  - destruct (@face_threshold_stays_in_range run_primitives alice_world 0.25%float)
      as [_ [H _]].
    destruct (H alice_model) as [Hconfig _].
    + vm_compute. reflexivity.
    + exact alice_world_model.
    + exact Hconfig.
  - destruct (@face_threshold_stays_in_range run_primitives alice_world 0.25%float)
      as [_ [_ [_ H]]].
    apply (H alice_model). exact alice_world_model.
Defined.

(** X19 on a log of three lines. *)
Lemma recent_logs_by_count_witness :
  List.length (get_recent_logs 2 (Some [lit "a"; lit "b"; lit "c"])) = 2 /\
  get_recent_logs 0 (Some [lit "a"; lit "b"; lit "c"]) = [lit "a"; lit "b"; lit "c"] /\
  get_recent_logs (-1) (Some [lit "a"; lit "b"; lit "c"]) = [lit "b"; lit "c"].
Proof.
  split; [|split].
  - destruct (recent_logs_by_count 2 [lit "a"; lit "b"; lit "c"]) as [_ [H _]].
    destruct H as [older [_ Hlen]]; [lia|]. exact Hlen.
  - destruct (recent_logs_by_count 0 [lit "a"; lit "b"; lit "c"]) as [_ [_ [H _]]].
    apply H. reflexivity.
  - destruct (recent_logs_by_count (-1) [lit "a"; lit "b"; lit "c"]) as [_ [_ [_ H]]].
    apply H. lia.
Defined.

(** X20 on a one-byte key, and on a well-formed input. *)
Lemma cipher_wrappers_check_lengths_witness :
  (exists e, decrypt_aes_gcm [x01] (repeat x07 12) [] (tag_of_key key32) None = Raise e /\
             exn_class e = ValueError) /\
  (exists e, encrypt_aes_gcm [x01] [x68; x69] None (world0 no_match)
               = (Raise e, world0 no_match) /\
             exn_class e = ValueError) /\
  AESGCM_decrypt key32 (repeat x07 12) ([] ++ tag_of_key key32) None = Ok [].
Proof.
  destruct (@cipher_wrappers_check_lengths run_primitives [x01] (repeat x07 12) []
              (tag_of_key key32) [x68; x69] None (world0 no_match)) as [_ [H2 H3]].
  destruct (@cipher_wrappers_check_lengths run_primitives key32 (repeat x07 12) []
              (tag_of_key key32) [x68; x69] None (world0 no_match)) as [H1 _].
  split; [|split].
  - apply H2. left. vm_compute. lia.
  - apply H3. vm_compute. lia.
  - apply (H1 []). vm_compute. reflexivity.
Defined.

(** X21 on two captured images, with a service that answers the confidence
    90 and with a service that raises, and on an empty vector. *)
Lemma compute_distance_outcomes_witness :
  compute_distance probe probe erin_world_match
    = (Ok ((100 - 90) / 100)%float, erin_world_match) /\
  compute_distance probe probe erin_world_service_down
    = (Ok 1%float, erin_world_service_down) /\
  compute_distance [] probe erin_world_match =
    (Raise (Exn ValueError
              (lit "Invalid face data format: only Face++ image data is supported")),
     erin_world_match).
Proof.
  split; [|split].
  - destruct (@compute_distance_outcomes run_primitives erin_world_match probe probe)
      as [H _].
    destruct H as [H _]; [reflexivity | reflexivity | reflexivity |].
    eapply H.
    + vm_compute. reflexivity.
    + vm_compute. reflexivity.
    + vm_compute. reflexivity.
  - destruct (@compute_distance_outcomes run_primitives erin_world_service_down
                probe probe) as [H _].
    destruct H as [_ [H _]]; [reflexivity | reflexivity | reflexivity |].
    eapply H.
    + vm_compute. reflexivity.
    + vm_compute. reflexivity.
    + vm_compute. reflexivity.
  - destruct (@compute_distance_outcomes run_primitives erin_world_match [] probe)
      as [_ [_ H]].
    apply H. left. reflexivity.
Defined.

(** X22 on the model of alice's store. *)
Lemma data_model_encode_decode_witness :
  DataModel_from_dict (DataModel_to_dict alice_model) = Ok alice_model.
Proof.
  destruct (@data_model_encode_decode run_primitives run_b64decode_b64encode
              run_b64encode_nonempty alice_model) as [_ H].
  apply H. intros u Hin. vm_compute in Hin. destruct Hin as [<-|[]]. discriminate.
Defined.

(** X23 on a record without any key and on a record with a username only. *)
Lemma user_record_required_keys_witness :
  User_from_dict (JDict []) = Raise (Exn KeyError (lit "'username'")) /\
  User_from_dict (JDict [(lit "username", JStr (lit "bob"))])
    = Raise (Exn KeyError (lit "'salt'")).
Proof.
  split.
  - destruct (@user_record_required_keys run_primitives [] [] [] []) as [H _].
    apply H. reflexivity.
  - destruct (@user_record_required_keys run_primitives
                [(lit "username", JStr (lit "bob"))] [] [] []) as [_ [H _]].
    apply H; [vm_compute; discriminate | vm_compute; reflexivity].
Defined.

(** X24 on a save of alice's store. *)
Lemma save_data_writes_nonce_and_sealed_model_witness :
  exists nonce file,
    fst (save_data alice_world) = Ok tt /\
    data_bin (snd (save_data alice_world)) = Some file /\
    file = nonce ++ AESGCM_encrypt key32 nonce (plaintext_of alice_model) None /\
    List.length nonce = 12 /\
    repository (snd (save_data alice_world)) = repository alice_world.
Proof.
  destruct (@save_data_writes_nonce_and_sealed_model run_primitives
              run_AESGCM_encrypt_length alice_world alice_model key32)
    as [nonce [file [H1 [H2 [H3 [_ [H5 [_ [_ [H8 _]]]]]]]]]].
  - exact alice_world_model.
  - reflexivity.
  - reflexivity.
  - exists nonce, file. repeat split; assumption.
Defined.

(** X25 on alice's store, saved and loaded by a new process; the JSON
    reader answers the encoding of alice's model. *)
Lemma save_then_load_witness :
  exists next,
    @load_data (reading_primitives alice_dict) key32
      (restarted (snd (@save_data (reading_primitives alice_dict) alice_world))) =
      (Ok tt,
       with_repository (snd (@save_data (reading_primitives alice_dict) alice_world))
         (mkFileRepository (Some alice_model) (Some key32) next)) /\
    py_max (truthy_ids (users alice_model)) = Ok (next - 1)%Z.
Proof.
  destruct (@save_then_load (reading_primitives alice_dict)
              run_AESGCM_encrypt_length run_AESGCM_decrypt_encrypt
              run_b64decode_b64encode run_b64encode_nonempty
              alice_world alice_model key32)
    as [next [Hload Hnext]].
  - exact alice_world_model.
  - reflexivity.
  - reflexivity.
  - vm_compute. reflexivity.
  - vm_compute. reflexivity.
  - right. vm_compute. discriminate.
  - exists next. split; [exact Hload | exact Hnext].
Defined.

(** X26 on a first run with a 32-byte key and with a one-byte key. *)
Lemma load_data_first_run_witness :
  (exists nonce,
     fst (os_urandom 12 fresh_world) = Ok nonce /\
     load_data key32 fresh_world =
       (Ok tt,
        with_data_bin
          (with_urandom_pos
             (with_repository fresh_world
                (mkFileRepository (Some empty_model) (Some key32) 1))
             (urandom_pos fresh_world + 12))
          (Some (nonce ++ AESGCM_encrypt key32 nonce (plaintext_of empty_model) None)))) /\
  load_data [x01] fresh_world =
    (Raise (Exn ValueError (lit "密钥长度必须为32字节（AES-256）")),
     with_repository fresh_world (mkFileRepository (Some empty_model) (Some [x01]) 1)).
Proof.
  split.
  - destruct (@load_data_first_run run_primitives fresh_world key32) as [H _].
    + reflexivity.
    + apply H. reflexivity.
  - destruct (@load_data_first_run run_primitives fresh_world [x01]) as [_ H].
    + reflexivity.
    + apply H. vm_compute. lia.
Defined.

(** X27 on a store file of one byte, and on a store file whose decoded
    model holds dave without an id. *)
Lemma load_data_other_failures_witness :
  load_data key32 (with_data_bin fresh_world (Some [x00])) =
    (Raise (Exn ValueError (lit "data.bin 文件格式错误：文件太小")),
     with_repository (with_data_bin fresh_world (Some [x00]))
       (mkFileRepository None (Some key32) 1)) /\
  (exists e,
     exn_class e = ValueError /\
     @load_data (reading_primitives (JDict noid_fields)) key32
       (with_data_bin fresh_world (Some sealed_empty_file)) =
       (Raise e,
        with_repository (with_data_bin fresh_world (Some sealed_empty_file))
          (mkFileRepository (Some noid_model) (Some key32) 1))).
Proof.
  split.
  - destruct (@load_data_other_failures run_primitives
                (with_data_bin fresh_world (Some [x00])) key32 [x00]) as [H _].
    + reflexivity.
    + apply H. vm_compute. lia.
  - destruct (@load_data_other_failures (reading_primitives (JDict noid_fields))
                (with_data_bin fresh_world (Some sealed_empty_file)) key32
                sealed_empty_file) as [_ H].
    + reflexivity.
    + apply (H [] [] noid_fields noid_model).
      * vm_compute. lia.
      * vm_compute. reflexivity.
      * vm_compute. reflexivity.
      * vm_compute. reflexivity.
      * vm_compute. reflexivity.
      * vm_compute. discriminate.
      * vm_compute. reflexivity.
Defined.

(** X28 on a first start. *)
Lemma data_key_created_once_witness :
  exists key,
    fst (key_manager.load_or_init_data_key fresh_system) = Ok key /\
    List.length key = 32 /\
    data_key_file (snd (key_manager.load_or_init_data_key fresh_system)) = Some key /\
    key_manager.load_or_init_data_key
      (snd (key_manager.clear_cached_key
              (snd (key_manager.load_or_init_data_key fresh_system)))) =
      (Ok key, snd (key_manager.load_or_init_data_key fresh_system)).
Proof.
  destruct (@data_key_created_once fresh_system)
    as [key [H1 [H2 [_ [H4 [_ [_ [_ [_ [_ H10]]]]]]]]]].
  - reflexivity.
  - reflexivity.
  - exists key. repeat split; assumption.
Defined.

(** X29 on a first start and on a start with a key file of two bytes. *)
Lemma init_data_outcomes_witness :
  (exists key file,
     List.length key = 32 /\
     data_key_file (snd (main.init_data fresh_system)) = Some key /\
     repository (world (snd (main.init_data fresh_system))) =
       mkFileRepository (Some empty_model) (Some key) 1 /\
     data_bin (world (snd (main.init_data fresh_system))) = Some file) /\
  main.init_data damaged_key_system = (Ok tt, damaged_key_system).
Proof.
  split.
  - destruct (@init_data_outcomes run_primitives fresh_system) as [_ [H _]].
    + reflexivity.
    + destruct H as [key [file [H1 [H2 [_ [H4 [H5 _]]]]]]]; [reflexivity | reflexivity |].
      exists key, file. repeat split; assumption.
  - destruct (@init_data_outcomes run_primitives damaged_key_system) as [_ [_ H]].
    + reflexivity.
    + destruct (H [x01; x02]) as [_ Hrun]; [reflexivity | vm_compute; lia |].
      exact Hrun.
Defined.



